(** * Playlist curator: the helpers and the orchestration run of [app.py],
      and the five tools of [tools/], embedded and verified.

    Python values are the JSON-shaped values the program handles; a text is
    kept as the bytes of its UTF-8 encoding, and what counts or classifies
    characters goes by character, not by byte; exceptions are values; the
    Streamlit script is a state-and-outcome monad over the session state and
    the outside world. *)

From Stdlib Require Import ZArith List String Ascii Bool Lia Arith Sorted.
From Stdlib Require Import Floats.SpecFloat.
From Stdlib Require Import DecimalString.
Import ListNotations.
Set Warnings "-register-all".
Local Open Scope list_scope.
Local Open Scope string_scope.

(* ===================================================================== *)
(** ** Python values *)
(* ===================================================================== *)

(** What [json.loads] and [response.json()] produce, which is also every value
    the script stores in a dict.  A dict keeps insertion order: an association
    list read first-match. *)
Inductive pyval : Type :=
| PNone
| PBool (b : bool)
| PInt (z : Z)
| PFloat (f : spec_float)
| PStr (s : string)
| PList (l : list pyval)
| PDict (d : list (string * pyval)).

Definition pydict : Type := list (string * pyval).

(** [bool(v)]: what [if v], [not v] and [or] test. *)
Definition truthy (v : pyval) : bool :=
  match v with
  | PNone => false
  | PBool b => b
  | PInt z => negb (z =? 0)%Z
  | PFloat (S754_zero _) => false
  | PFloat _ => true
  | PStr EmptyString => false
  | PStr _ => true
  | PList [] => false
  | PList _ => true
  | PDict [] => false
  | PDict _ => true
  end.

(** [a or b] on values. *)
Definition py_or (a b : pyval) : pyval := if truthy a then a else b.

Definition type_name (v : pyval) : string :=
  match v with
  | PNone => "NoneType"
  | PBool _ => "bool"
  | PInt _ => "int"
  | PFloat _ => "float"
  | PStr _ => "str"
  | PList _ => "list"
  | PDict _ => "dict"
  end.

(** *** Dicts *)

Fixpoint assoc (k : string) (d : pydict) : option pyval :=
  match d with
  | [] => None
  | (k', v) :: d' => if String.eqb k k' then Some v else assoc k d'
  end.

(** [k in d] *)
Definition dict_mem (k : string) (d : pydict) : bool :=
  match assoc k d with Some _ => true | None => false end.

(** [d.get(k, dflt)] and [d.get(k)] *)
Definition dict_get_default (k : string) (dflt : pyval) (d : pydict) : pyval :=
  match assoc k d with Some v => v | None => dflt end.

Definition dict_get (k : string) (d : pydict) : pyval :=
  dict_get_default k PNone d.

(** [d[k] = v]: in place when the key is there, appended otherwise. *)
Fixpoint dict_set (k : string) (v : pyval) (d : pydict) : pydict :=
  match d with
  | [] => [(k, v)]
  | (k', v') :: d' =>
      if String.eqb k k' then (k, v) :: d' else (k', v') :: dict_set k v d'
  end.

(** [{**d1, **d2}]: the items of [d2] set one by one onto [d1]. *)
Definition dict_merge (d1 d2 : pydict) : pydict :=
  fold_left (fun acc kv => dict_set (fst kv) (snd kv) acc) d2 d1.

(** *** Text *)

(** A [str] is the [string] of its UTF-8 bytes.  A character is a byte that
    is not a continuation byte (10xxxxxx), with the continuation bytes that
    follow it. *)
Definition is_continuation (c : ascii) : bool :=
  let n := nat_of_ascii c in ((128 <=? n) && (n <? 192))%nat.

Definition starts_with_continuation (s : string) : bool :=
  match s with
  | String c _ => is_continuation c
  | EmptyString => false
  end.

(** The characters of a text, in order: each byte opens a character of its
    own unless the bytes after it begin with continuation bytes, which it
    takes along. *)
Fixpoint split_chars (s : string) : list string :=
  match s with
  | EmptyString => []
  | String c s' =>
      match split_chars s' with
      | [] => [String c EmptyString]
      | ch :: chs =>
          if starts_with_continuation ch then String c ch :: chs
          else String c EmptyString :: ch :: chs
      end
  end.

Definition join_chars (chs : list string) : string :=
  fold_right append EmptyString chs.

Definition utf8 (bytes : list nat) : string :=
  string_of_list_ascii (map ascii_of_nat bytes).

(** The characters [str.strip()] removes, those Python counts as
    whitespace: U+0009 to U+000D, U+001C to U+0020, U+0085, U+00A0, U+1680,
    U+2000 to U+200A, U+2028, U+2029, U+202F, U+205F and U+3000. *)
Definition space_chars : list string :=
  map utf8
      [[9]; [10]; [11]; [12]; [13]; [28]; [29]; [30]; [31]; [32];
       [194; 133]; [194; 160]; [225; 154; 128];
       [226; 128; 128]; [226; 128; 129]; [226; 128; 130]; [226; 128; 131];
       [226; 128; 132]; [226; 128; 133]; [226; 128; 134]; [226; 128; 135];
       [226; 128; 136]; [226; 128; 137]; [226; 128; 138];
       [226; 128; 168]; [226; 128; 169]; [226; 128; 175];
       [226; 129; 159]; [227; 128; 128]].

Definition is_space_char (ch : string) : bool :=
  existsb (String.eqb ch) space_chars.

Fixpoint lstrip_chars (chs : list string) : list string :=
  match chs with
  | [] => []
  | ch :: rest => if is_space_char ch then lstrip_chars rest else chs
  end.

Fixpoint rstrip_chars (chs : list string) : list string :=
  match chs with
  | [] => []
  | ch :: rest =>
      match rstrip_chars rest with
      | [] => if is_space_char ch then [] else [ch]
      | r => ch :: r
      end
  end.

(** [s.strip()] *)
Definition strip (s : string) : string :=
  join_chars (rstrip_chars (lstrip_chars (split_chars s))).

(** [len(s)]: the bytes that open a character. *)
Fixpoint py_len (s : string) : nat :=
  match s with
  | EmptyString => 0
  | String c s' => if is_continuation c then py_len s' else S (py_len s')
  end.

(** [s[:n]] for a count [n] that is not negative: the bytes before the
    character number [n] (counted from 0) opens. *)
Fixpoint str_prefix (n : nat) (s : string) : string :=
  match s with
  | EmptyString => EmptyString
  | String c s' =>
      if is_continuation c then String c (str_prefix n s')
      else match n with
           | O => EmptyString
           | S n' => String c (str_prefix n' s')
           end
  end.

(** [sub in s] on text. *)
Fixpoint str_contains (sub s : string) : bool :=
  if prefix sub s then true
  else match s with
       | EmptyString => false
       | String _ s' => str_contains sub s'
       end.

Definition dquote : string := String (ascii_of_nat 34) EmptyString.
Definition newline : string := String (ascii_of_nat 10) EmptyString.

Definition str_of_Z (z : Z) : string := NilZero.string_of_int (Z.to_int z).

(** *** Exceptions *)

(** The classes told apart here.  All of them derive from [Exception], the
    class [safe_call] catches: a callable returns or raises an [Exception].
    What derives from [BaseException] only ([KeyboardInterrupt],
    [SystemExit], Streamlit's own control flow) is not part of this model;
    [st.stop()] is the [Stopped] of the script below, and the script alone
    calls it. *)
Inductive exn_class : Type :=
| RequestException   (* requests.exceptions.RequestException and subclasses *)
| JSONDecodeError
| ValueError
| TypeError
| KeyError
| IndexError
| AttributeError
| OtherException.

(** An exception object: its class and what [str(exc)] gives. *)
Record exn : Type := Exn { exn_class_of : exn_class; exn_str : string }.

Inductive outcome (A : Type) : Type :=
| Return (a : A)
| Raise (e : exn).
Arguments Return {A} a.
Arguments Raise {A} e.

Definition obind {A B} (o : outcome A) (f : A -> outcome B) : outcome B :=
  match o with
  | Return a => f a
  | Raise e => Raise e
  end.

Declare Scope outcome_scope.
Delimit Scope outcome_scope with outcome.
Notation "x <~ c ;; k" := (obind c (fun x => k))
  (at level 61, c at next level, right associativity) : outcome_scope.

Definition no_attribute (v : pyval) (attr : string) : exn :=
  Exn AttributeError
      ("'" ++ type_name v ++ "' object has no attribute '" ++ attr ++ "'").

Definition not_subscriptable (v : pyval) : exn :=
  Exn TypeError ("'" ++ type_name v ++ "' object is not subscriptable").

(** [obj.get(k, dflt)]: only a dict has the method. *)
Definition py_get (obj : pyval) (k : string) (dflt : pyval) : outcome pyval :=
  match obj with
  | PDict d => Return (dict_get_default k dflt d)
  | _ => Raise (no_attribute obj "get")
  end.

(** [obj[0]] *)
Definition py_item0 (obj : pyval) : outcome pyval :=
  match obj with
  | PList (x :: _) => Return x
  | PList [] => Raise (Exn IndexError "list index out of range")
  | PStr s =>
      match split_chars s with
      | ch :: _ => Return (PStr ch)
      | [] => Raise (Exn IndexError "string index out of range")
      end
  | PDict _ => Raise (Exn KeyError "0")   (* the keys of a JSON object are text *)
  | _ => Raise (not_subscriptable obj)
  end.

(** [obj[k]] for a text key [k]. *)
Definition py_item (obj : pyval) (k : string) : outcome pyval :=
  match obj with
  | PDict d =>
      match assoc k d with
      | Some v => Return v
      | None => Raise (Exn KeyError ("'" ++ k ++ "'"))
      end
  | PList _ =>
      Raise (Exn TypeError "list indices must be integers or slices, not str")
  | PStr _ => Raise (Exn TypeError "string indices must be integers, not 'str'")
  | _ => Raise (not_subscriptable obj)
  end.

(* ===================================================================== *)
(** ** Helpers of app.py *)
(* ===================================================================== *)

Definition SPOTIFY_ADD_BATCH_SIZE : Z := 100.

(** *** [extract_first_track_uri] *)

Definition extract_first_track_uri (track_search_response : pyval)
  : outcome pyval :=
  (if negb (truthy track_search_response) then Return PNone else
   tracks <~ py_get track_search_response "tracks" PNone ;;
   if negb (truthy tracks) then Return PNone else
   items <~ py_get tracks "items" (PList []) ;;
   if negb (truthy items) then Return PNone else
   first <~ py_item0 items ;;
   py_get first "uri" PNone)%outcome.

(** *** [chunked] *)

(** [range(start, stop, step)] for a positive step; [fuel] bounds the number
    of values. *)
Fixpoint range_from (fuel start stop step : nat) : list nat :=
  match fuel with
  | O => []
  | S fuel' =>
      if (start <? stop)%nat then start :: range_from fuel' (start + step) stop step
      else []
  end.

(** [range(0, stop, step)]: an error for step 0, empty for a negative step. *)
Definition py_range0 (stop : nat) (step : Z) : outcome (list nat) :=
  if (step =? 0)%Z then Raise (Exn ValueError "range() arg 3 must not be zero")
  else if (step <? 0)%Z then Return []
  else Return (range_from stop 0 stop (Z.to_nat step)).

(** [l[i : j]] for indices that are not negative. *)
Definition slice {A} (l : list A) (i j : nat) : list A :=
  firstn (j - i) (skipn i l).

(** The chunks the generator yields, in the order it yields them. *)
Definition chunked {A} (iterable : list A) (size : Z) : outcome (list (list A)) :=
  (starts <~ py_range0 (List.length iterable) size ;;
   Return (map (fun i => slice iterable i (i + Z.to_nat size)) starts))%outcome.

(* ===================================================================== *)
(** ** What the Python runtime supplies *)
(* ===================================================================== *)

(** Library functions the script calls and this development does not
    re-implement: the JSON decoder ([inr msg] is a [json.JSONDecodeError] whose
    text is [msg]), the text of a float, list or dict under [str()], and
    [traceback.format_exc()] for the exception being handled. *)
Class Runtime : Type := {
  json_loads : string -> pyval + string;
  repr_compound : pyval -> string;
  format_exc : exn -> string
}.

Section Helpers.
Context {rt : Runtime}.

(** [str(v)], which is also what an f-string field [{v}] prints. *)
Definition py_str (v : pyval) : string :=
  match v with
  | PStr s => s
  | PNone => "None"
  | PBool true => "True"
  | PBool false => "False"
  | PInt z => str_of_Z z
  | _ => repr_compound v
  end.

(** *** [Song] *)

(** The dataclass declares both fields [str] and checks nothing: the
    orchestrator stores whatever the decoded response holds. *)
Record Song : Type := { title : pyval; artist : pyval }.

Definition to_query (self : Song) : string :=
  strip (py_str (title self) ++ " " ++ py_str (artist self)).

Definition Song_str (self : Song) : string :=
  py_str (title self) ++ " — " ++ py_str (artist self).

(** *** [parse_openai_song_list] *)

(** [l[:stop]] *)
Definition py_slice_to {A} (l : list A) (stop : Z) : list A :=
  if (stop <? 0)%Z then firstn (List.length l - Z.to_nat (- stop)) l
  else firstn (Z.to_nat stop) l.

Definition item_title (d : pydict) : pyval :=
  py_or (py_or (dict_get "title" d) (dict_get "name" d)) (dict_get "track" d).

Definition item_artist (d : pydict) : pyval :=
  py_or (dict_get "artist" d) (dict_get "artists" d).

(** One turn of the loop over [parsed[:limit]]: [songs] is the list built so
    far; the two [continue] branches leave it as it is (the warnings they log
    are not modelled). *)
Definition parse_step (songs : list Song) (item : pyval) : list Song :=
  match item with
  | PDict d =>
      let title := item_title d in
      let artist := item_artist d in
      if negb (truthy title) || negb (truthy artist) then songs
      else (songs ++ [{| title := PStr (strip (py_str title));
                         artist := PStr (strip (py_str artist)) |}])%list
  | _ => songs
  end.

Definition parse_openai_song_list (raw_content : string) (limit : Z)
  : outcome (list Song) :=
  match json_loads raw_content with
  | inr msg =>
      Raise (Exn ValueError
                 ("Failed to decode JSON from OpenAI response: " ++ msg))
  | inl (PList parsed) =>
      Return (fold_left parse_step (py_slice_to parsed limit) [])
  | inl _ => Raise (Exn ValueError "OpenAI response JSON is not a list.")
  end.

End Helpers.

(* ===================================================================== *)
(** ** The script as a state machine *)
(* ===================================================================== *)

(** A Python callable bound to a tool name: positional arguments in, a value
    or an exception out, the outside world changed on the way. *)
Definition callable (World : Type) : Type :=
  list pyval -> World -> outcome pyval * World.

(** The five names app.py imports from [tools/]. *)
Record Tools (World : Type) : Type := {
  create_chat_completion : callable World;
  get_current_user_profile : callable World;
  create_playlist : callable World;
  search_for_item : callable World;
  add_items_to_playlist : callable World
}.
Arguments create_chat_completion {World} _.
Arguments get_current_user_profile {World} _.
Arguments create_playlist {World} _.
Arguments search_for_item {World} _.
Arguments add_items_to_playlist {World} _.

(** One call made through [safe_call], kept for the proofs only: the label,
    the arguments and what the callable did. *)
Record Call : Type := {
  call_label : string;
  call_args : list pyval;
  call_outcome : outcome pyval
}.

(** [st.session_state.playlist_info] and [st.session_state.errors], the world,
    and the calls made so far. *)
Record State (World : Type) : Type := {
  playlist_info : pydict;
  errors : list pyval;
  world : World;
  calls : list Call
}.
Arguments playlist_info {World} _.
Arguments errors {World} _.
Arguments world {World} _.
Arguments calls {World} _.

(** How a stretch of the script ends: it falls through with a value, it calls
    [st.stop()], or an exception nobody catches ends the script run. *)
Inductive result (A : Type) : Type :=
| Done (a : A)
| Stopped
| Crashed (e : exn).
Arguments Done {A} a.
Arguments Stopped {A}.
Arguments Crashed {A} e.

Definition M (World A : Type) : Type := State World -> result A * State World.

Definition ret {W A} (a : A) : M W A := fun st => (Done a, st).

Definition bind {W A B} (m : M W A) (f : A -> M W B) : M W B :=
  fun st =>
    match m st with
    | (Done a, st') => f a st'
    | (Stopped, st') => (Stopped, st')
    | (Crashed e, st') => (Crashed e, st')
    end.

Declare Scope script_scope.
Delimit Scope script_scope with script.
Notation "x <- c ;; k" := (bind c (fun x => k))
  (at level 61, c at next level, right associativity) : script_scope.
Notation "' pat <- c ;; k" := (bind c (fun x => match x with pat => k end))
  (at level 61, pat pattern, c at next level, right associativity)
  : script_scope.
Notation "c ;; k" := (bind c (fun _ => k))
  (at level 61, right associativity) : script_scope.

Definition st_stop {W A} : M W A := fun st => (Stopped, st).

Definition crash {W A} (e : exn) : M W A := fun st => (Crashed e, st).

(** An expression that may raise, outside any [try]. *)
Definition lift {W A} (o : outcome A) : M W A :=
  match o with
  | Return a => ret a
  | Raise e => crash e
  end.

(** [try: body except Exception as exc: handler(exc)]; [st.stop()] is not an
    [Exception] and passes through. *)
Definition try_except {W A} (body : M W A) (handler : exn -> M W A) : M W A :=
  fun st =>
    match body st with
    | (Crashed e, st') => handler e st'
    | r => r
    end.

(** [st.session_state.errors = v] *)
Definition set_errors {W} (v : list pyval) : M W unit :=
  fun st => (Done tt, {| playlist_info := playlist_info st; errors := v;
                         world := world st; calls := calls st |}).

(** [st.session_state.errors.append(e)] *)
Definition append_error {W} (e : pyval) : M W unit :=
  fun st => (Done tt, {| playlist_info := playlist_info st;
                         errors := (errors st ++ [e])%list;
                         world := world st; calls := calls st |}).

(** [st.session_state.playlist_info = d] *)
Definition set_playlist_info {W} (d : pydict) : M W unit :=
  fun st => (Done tt, {| playlist_info := d; errors := errors st;
                         world := world st; calls := calls st |}).

Section Script.
Context {rt : Runtime} {World : Type}.
Variable tools : Tools World.

(** *** [safe_call] *)

Definition error_entry (tool_name : string) (exc : exn) : pydict :=
  [("tool", PStr tool_name);
   ("exception", PStr (exn_str exc));
   ("traceback", PStr (format_exc exc))].

(** The call under [try], its value under ["result"]; and under
    [except Exception as e] the entry of [e], under ["error"]. *)
Definition safe_call (tool_name : string) (func : callable World)
    (args : list pyval) : M World pydict :=
  fun st =>
    let '(o, w) := func args (world st) in
    let st' := {| playlist_info := playlist_info st; errors := errors st;
                  world := w;
                  calls := (calls st ++ [{| call_label := tool_name;
                                            call_args := args;
                                            call_outcome := o |}])%list |} in
    match o with
    | Return result => (Done [("result", result)], st')
    | Raise exc => (Done [("error", PDict (error_entry tool_name exc))], st')
    end.

(** [call[k]] on the dict [safe_call] returned. *)
Definition call_item (call : pydict) (k : string) : M World pyval :=
  lift (py_item (PDict call) k).

(** *** Tool 1: OpenAI - generate songs *)

Definition system_prompt : string :=
  "You are an AI music assistant that transforms a user's idea, mood, or theme "
  ++ "into a curated Spotify playlist. You must respond with a JSON object that "
  ++ "contains a short and catchy playlist title and a list of real songs likely to exist on Spotify.".

Definition user_prompt (playlist_description : string) (limit : Z) : string :=
  "Generate a playlist based on the following description: '"
  ++ playlist_description ++ "'." ++ newline ++ newline
  ++ "Return a JSON object with this format:" ++ newline ++ newline
  ++ "{" ++ newline
  ++ "  " ++ dquote ++ "playlist_title" ++ dquote ++ ": "
  ++ dquote ++ "string" ++ dquote ++ "," ++ newline
  ++ "  " ++ dquote ++ "songs" ++ dquote ++ ": [" ++ newline
  ++ "    { " ++ dquote ++ "title" ++ dquote ++ ": "
  ++ dquote ++ "string" ++ dquote ++ ", "
  ++ dquote ++ "artist" ++ dquote ++ ": "
  ++ dquote ++ "string" ++ dquote ++ " }, ... up to "
  ++ str_of_Z limit ++ " songs" ++ newline
  ++ "  ]" ++ newline
  ++ "}" ++ newline ++ newline
  ++ "Make sure the playlist_title is engaging, under 6 words, and fits the theme. ".

Definition messages (playlist_description : string) (limit : Z) : pyval :=
  PList [PDict [("role", PStr "system"); ("content", PStr system_prompt)];
         PDict [("role", PStr "user");
                ("content", PStr (user_prompt playlist_description limit))]].

(** The fallback title, [f"AI: {playlist_description[:40]}"]. *)
Definition default_title (playlist_description : string) : pyval :=
  PStr ("AI: " ++ str_prefix 40 playlist_description).

(** [json.loads(content)] on a value: text is decoded, anything else is a
    [TypeError]; a decoding failure is kept apart, the one exception the
    script's [except] clause names. *)
Definition loads_value (content : pyval) : outcome (pyval + string) :=
  match content with
  | PStr s => Return (json_loads s)
  | _ => Raise (Exn TypeError
                    ("the JSON object must be str, bytes or bytearray, not "
                     ++ type_name content))
  end.

(** [k in s] for a text [k]: a key of a dict, a piece of a text, an element
    of a list. *)
Definition py_contains (k : string) (s : pyval) : outcome bool :=
  match s with
  | PDict d => Return (dict_mem k d)
  | PStr t => Return (str_contains k t)
  | PList l =>
      Return (existsb (fun x => match x with
                                | PStr t => String.eqb t k
                                | _ => false
                                end) l)
  | _ => Raise (Exn TypeError
                    ("argument of type '" ++ type_name s ++ "' is not iterable"))
  end.

Definition chars (s : string) : list pyval := map PStr (split_chars s).

(** What [for s in v] walks over. *)
Definition py_iter (v : pyval) : outcome (list pyval) :=
  match v with
  | PList l => Return l
  | PDict d => Return (map (fun kv => PStr (fst kv)) d)
  | PStr s => Return (chars s)
  | _ => Raise (Exn TypeError ("'" ++ type_name v ++ "' object is not iterable"))
  end.

(** The comprehension
    [[Song(title=s["title"], artist=s["artist"]) for s in songs_data
      if "title" in s and "artist" in s]], element by element. *)
Fixpoint song_comprehension (songs_data : list pyval) : outcome (list Song) :=
  match songs_data with
  | [] => Return []
  | s :: rest =>
      (has_title <~ py_contains "title" s ;;
       keep <~ (if has_title : bool then py_contains "artist" s
                else Return false) ;;
       if keep : bool then
         t <~ py_item s "title" ;;
         a <~ py_item s "artist" ;;
         songs <~ song_comprehension rest ;;
         Return ({| title := t; artist := a |} :: songs)
       else song_comprehension rest)%outcome
  end.

(** The [try] block after a call that gave a result: the title and the songs
    the run goes on with.  Only the decoding failure is caught. *)
Definition read_completion (openai_call : pydict) (playlist_description : string)
  : M World (pyval * list Song) :=
  (result <- call_item openai_call "result" ;;
   content <- lift (choices <~ py_item result "choices" ;;
                    choice <~ py_item0 choices ;;
                    message <~ py_item choice "message" ;;
                    py_item message "content")%outcome ;;
   decoded <- lift (loads_value content) ;;
   match decoded with
   | inr _ => ret (default_title playlist_description, [])
   | inl parsed =>
       playlist_title <- lift (py_get parsed "playlist_title"
                                      (default_title playlist_description)) ;;
       songs_data <- lift (py_get parsed "songs" (PList [])) ;;
       song_objects <- lift (items <~ py_iter songs_data ;;
                             song_comprehension items)%outcome ;;
       ret (playlist_title, song_objects)
   end)%script.

(** *** Tool 2: Spotify - get current user profile *)

(** The [if "error" in call:] block of stages 2 and 3: record the error and
    stop the script.  (The [st.error] and [st.text] lines only display.) *)
Definition stop_on_error (call : pydict) : M World unit :=
  (if dict_mem "error" call then
     err <- call_item call "error" ;;
     append_error err ;;
     st_stop
   else ret tt)%script.

Definition tool2_get_user_id : M World pyval :=
  (profile_call <- safe_call "Spotify (get_current_user_profile)"
                             (get_current_user_profile tools) [] ;;
   stop_on_error profile_call ;;
   user_profile <- call_item profile_call "result" ;;
   user_id <- lift (py_get user_profile "id" PNone) ;;
   if negb (truthy user_id) then st_stop else ret user_id)%script.

(** *** Tool 3: Create playlist *)

(** [v[:40]] *)
Definition py_slice_40 (v : pyval) : outcome pyval :=
  match v with
  | PStr s => Return (PStr (str_prefix 40 s))
  | PList l => Return (PList (firstn 40 l))
  | PDict _ => Raise (Exn TypeError "unhashable type: 'slice'")
  | _ => Raise (not_subscriptable v)
  end.

Definition no_playlist_id_entry : pyval :=
  PDict [("tool", PStr "create_playlist");
         ("exception", PStr "no playlist id returned")].

Definition tool3_create_playlist (user_id playlist_title : pyval)
  : M World (pyval * string) :=
  (head <- lift (py_slice_40 playlist_title) ;;
   let playlist_name := "AI: " ++ py_str head in
   create_playlist_call <- safe_call "Spotify (create_playlist)"
                                     (create_playlist tools)
                                     [user_id; PStr playlist_name] ;;
   stop_on_error create_playlist_call ;;
   playlist_response <- call_item create_playlist_call "result" ;;
   playlist_id <- lift (py_get playlist_response "id" PNone) ;;
   if negb (truthy playlist_id) then
     append_error no_playlist_id_entry ;;
     st_stop
   else ret (playlist_id, playlist_name))%script.

(** *** Tool 4: Search for each song -> get URIs *)

Definition not_found_entry (s : Song) : pyval :=
  PDict [("song", PStr (Song_str s));
         ("tool", PStr "search_for_item");
         ("exception", PStr "no track uri found")].

(** [{"song": str(s), **err}] *)
Definition song_error_entry (s : Song) (err : pyval) : outcome pyval :=
  match err with
  | PDict d => Return (PDict (dict_merge [("song", PStr (Song_str s))] d))
  | _ => Raise (Exn TypeError
                    ("'" ++ type_name err ++ "' object is not a mapping"))
  end.

(** One turn of the loop over [song_objects]; [track_uris] is the list built
    so far. *)
Definition search_step (track_uris : list pyval) (s : Song)
  : M World (list pyval) :=
  (let q := "track:" ++ py_str (title s) ++ " artist:" ++ py_str (artist s) in
   search_call <- safe_call "Spotify (search_for_item)"
                            (search_for_item tools) [PStr q] ;;
   if dict_mem "error" search_call then
     err <- call_item search_call "error" ;;
     entry <- lift (song_error_entry s err) ;;
     append_error entry ;;
     ret track_uris
   else
     track_data <- call_item search_call "result" ;;
     uri <- lift (extract_first_track_uri track_data) ;;
     if truthy uri then ret (track_uris ++ [uri])%list
     else
       append_error (not_found_entry s) ;;
       ret track_uris)%script.

(** A [for] loop that carries a local variable. *)
Fixpoint for_fold {A B} (body : B -> A -> M World B) (l : list A) (acc : B)
  : M World B :=
  match l with
  | [] => ret acc
  | x :: l' => (acc' <- body acc x ;; for_fold body l' acc')%script
  end.

Definition tool4_search_songs (song_objects : list Song) : M World (list pyval) :=
  for_fold search_step song_objects [].

(** *** Tool 5: Add tracks in batches *)

(** The body of the loop over the chunks. *)
Definition add_chunk (playlist_id : pyval) (_ : unit) (chunk : list pyval)
  : M World unit :=
  (add_call <- safe_call "Spotify (add_items_to_playlist)"
                         (add_items_to_playlist tools)
                         [playlist_id; PList chunk] ;;
   if dict_mem "error" add_call then
     err <- call_item add_call "error" ;;
     append_error err
   else ret tt)%script.

Definition unexpected_entry (exc : exn) : pyval :=
  PDict [("tool", PStr "add_items_to_playlist_unexpected");
         ("exception", PStr (exn_str exc));
         ("traceback", PStr (format_exc exc))].

Definition tool5_add_tracks (playlist_id : pyval) (track_uris : list pyval)
  : M World unit :=
  if truthy (PList track_uris) then
    try_except
      (chunks <- lift (chunked track_uris SPOTIFY_ADD_BATCH_SIZE) ;;
       for_fold (add_chunk playlist_id) chunks tt)%script
      (fun exc => append_error (unexpected_entry exc))
  else ret tt.

(** *** Persist results to session state *)

Definition summary (playlist_name playlist_description : string)
    (song_objects : list Song) (track_uris : list pyval) (playlist_id : pyval)
  : pydict :=
  [("playlist_name", PStr playlist_name);
   ("playlist_description", PStr playlist_description);
   ("songs", PList (map (fun s => PDict [("title", title s);
                                         ("artist", artist s)])
                        song_objects));
   ("resolved_track_count", PInt (Z.of_nat (List.length track_uris)));
   ("playlist_id", playlist_id)].

(** *** The block under [if st.button("Generate Playlist"):]

    The value is what the local [song_objects] holds when the block ends
    ([None]: never assigned).  [Done] means the script goes on to the display
    lines that close it. *)
Definition generate_playlist (playlist_description : string) (limit : Z)
  : M World (option (list Song)) :=
  (set_errors [] ;;
   if negb (truthy (PStr playlist_description)) || negb (truthy (PInt limit))
   then ret None
   else
     openai_call <- safe_call "OpenAI (create_chat_completion)"
                              (create_chat_completion tools)
                              [messages playlist_description limit] ;;
     if dict_mem "error" openai_call then
       err <- call_item openai_call "error" ;;
       append_error err ;;
       ret (Some [])
     else
       ' (playlist_title, song_objects) <-
           read_completion openai_call playlist_description ;;
       user_id <- tool2_get_user_id ;;
       ' (playlist_id, playlist_name) <-
           tool3_create_playlist user_id playlist_title ;;
       track_uris <- tool4_search_songs song_objects ;;
       tool5_add_tracks playlist_id track_uris ;;
       set_playlist_info (summary playlist_name playlist_description
                                  song_objects track_uris playlist_id) ;;
       ret (Some song_objects))%script.

End Script.

(* ===================================================================== *)
(** ** The display lines that close the script *)
(* ===================================================================== *)

(** What the closing lines put on the page: [st.subheader], [st.write] and
    [st.json]. *)
Inductive element : Type :=
| Subheader (text : string)
| Write (text : string)
| Json (v : pyval).

Section Display.
Context {rt : Runtime}.

(** [st.write(f"- {s['title']} — {s['artist']}")] *)
Definition song_line (s : pyval) : outcome element :=
  (t <~ py_item s "title" ;;
   a <~ py_item s "artist" ;;
   Return (Write ("- " ++ py_str t ++ " — " ++ py_str a)))%outcome.

(** The loop over [info.get("songs", [])]. *)
Fixpoint song_lines (songs : list pyval) : outcome (list element) :=
  match songs with
  | [] => Return []
  | s :: rest =>
      (line <~ song_line s ;;
       lines <~ song_lines rest ;;
       Return (line :: lines))%outcome
  end.

(** The block under [if st.session_state.playlist_info:]. *)
Definition show_playlist (info : pydict) : outcome (list element) :=
  if truthy (PDict info) then
    (songs <~ py_iter (dict_get_default "songs" (PList []) info) ;;
     lines <~ song_lines songs ;;
     Return ([Subheader "Generated Playlist";
              Write ("**Name:** " ++ py_str (dict_get "playlist_name" info));
              Write ("**Description used:** "
                     ++ py_str (dict_get "playlist_description" info));
              Write ("**Resolved tracks added (approx):** "
                     ++ py_str (dict_get "resolved_track_count" info));
              Write "**Songs returned by OpenAI:**"] ++ lines)%list)%outcome
  else Return [].

(** The block under [if st.session_state.errors:]. *)
Definition show_errors (errs : list pyval) : list element :=
  if truthy (PList errs) then Subheader "Errors / Warnings" :: map Json errs
  else [].

(** The elements the closing lines show when they run to their end. *)
Definition display {W} (st : State W) : outcome (list element) :=
  (shown <~ show_playlist (playlist_info st) ;;
   Return (shown ++ show_errors (errors st))%list)%outcome.

End Display.

(** One run of the script for a logged-in user, from the button on: the
    block under the button when it was clicked (with the description and the
    count entered), then the closing lines.  The value is what those lines
    show. *)
Definition script {rt : Runtime} {W} (tools : Tools W)
    (click : option (string * Z)) : M W (list element) :=
  (match click with
   | Some (playlist_description, limit) =>
       generate_playlist tools playlist_description limit ;; ret tt
   | None => ret tt
   end ;;
   fun st => lift (display st) st)%script.

(* ===================================================================== *)
(** ** The tools of tools/ *)
(* ===================================================================== *)

(** What a tool hands to [requests.get] or [requests.post]. *)
Record Request : Type := {
  req_method : string;
  req_url : string;
  req_headers : pydict;
  req_params : pydict;
  req_json : pyval
}.

(** What the three lines [requests.post(...)], [response.raise_for_status()],
    [response.json()] come to: the decoded body, or the exception one of them
    raised (a connection failure, an HTTP error status, a body that is not
    JSON: all of class [RequestException]). *)
Inductive http_result : Type :=
| HttpJson (body : pyval)
| HttpRaised (e : exn).

(** [f() missing ... required positional argument(s): ...] and
    [f() takes ... but ... were given], the [TypeError] of a call whose
    argument count does not fit the signature. *)
Definition quoted (name : string) : string := "'" ++ name ++ "'".

Fixpoint names_text (names : list string) : string :=
  match names with
  | [] => ""
  | [a] => quoted a
  | [a; b] => quoted a ++ ", and " ++ quoted b
  | a :: rest => quoted a ++ ", " ++ names_text rest
  end.

Definition missing_text (names : list string) : string :=
  match names with
  | [a; b] => quoted a ++ " and " ++ quoted b
  | _ => names_text names
  end.

Definition plural (n : nat) (word : string) : string :=
  if (n =? 1)%nat then word else word ++ "s".

Definition str_of_nat (n : nat) : string := str_of_Z (Z.of_nat n).

Definition arity_error (fname : string) (required : list string)
    (optional : nat) (given : nat) : exn :=
  let r := List.length required in
  if (given <? r)%nat then
    let missing := skipn given required in
    Exn TypeError
        (fname ++ "() missing " ++ str_of_nat (List.length missing)
         ++ " required positional " ++ plural (List.length missing) "argument"
         ++ ": " ++ missing_text missing)
  else
    Exn TypeError
        (fname ++ "() takes "
         ++ (if (optional =? 0)%nat then str_of_nat r
             else "from " ++ str_of_nat r ++ " to " ++ str_of_nat (r + optional))
         ++ " positional "
         ++ (if (optional =? 0)%nat then plural r "argument" else "arguments")
         ++ " but " ++ str_of_nat given
         ++ (if (given =? 1)%nat then " was given" else " were given")).

Section RepoTools.
Context {rt : Runtime} {World : Type}.

(** The HTTP exchange, and [os.getenv("OPENAI_API_KEY")]. *)
Variable send : Request -> World -> http_result * World.
Variable openai_api_key : pyval.

(** The [try]/[except requests.exceptions.RequestException] every tool ends
    with: the decoded body on success; on a request failure the cause is
    printed and a dict with a fixed text is returned; any other exception
    goes up. *)
Definition fetch (req : Request) (error_text : string)
  : World -> outcome pyval * World :=
  fun w =>
    match send req w with
    | (HttpJson body, w') => (Return body, w')
    | (HttpRaised e, w') =>
        match exn_class_of e with
        | RequestException => (Return (PDict [("error", PStr error_text)]), w')
        | _ => (Raise e, w')
        end
    end.

Definition raise_arity (fname : string) (required : list string)
    (optional : nat) (args : list pyval) : World -> outcome pyval * World :=
  fun w => (Raise (arity_error fname required optional (List.length args)), w).

Definition bearer (token : pyval) : pyval := PStr ("Bearer " ++ py_str token).

(** [tools/open_ai_generate_songs.py] *)
Definition chat_request (messages : pyval) : Request :=
  {| req_method := "POST";
     req_url := "https://api.openai.com/v1/chat/completions";
     req_headers := [("Content-Type", PStr "application/json");
                     ("Authorization", bearer openai_api_key)];
     req_params := [];
     req_json := PDict [("model", PStr "gpt-4"); ("messages", messages)] |}.

Definition chat_error_text : string :=
  "An error occurred while creating chat completion.".

Definition repo_create_chat_completion : callable World :=
  fun args =>
    match args with
    | [messages] => fetch (chat_request messages) chat_error_text
    | _ => raise_arity "create_chat_completion" ["messages"] 0 args
    end.

(** [tools/get_spotify_user_profile.py] *)
Definition repo_get_current_user_profile : callable World :=
  fun args =>
    match args with
    | [spotify_token] =>
        fetch {| req_method := "GET";
                 req_url := "https://api.spotify.com/v1/me";
                 req_headers := [("Authorization", bearer spotify_token)];
                 req_params := [];
                 req_json := PNone |}
              "An error occurred while getting the user profile."
    | _ => raise_arity "get_current_user_profile" ["spotify_token"] 0 args
    end.

(** [tools/create_spotify_playlist.py] *)
Definition repo_create_playlist : callable World :=
  fun args =>
    match args with
    | [user_id; playlist_name; spotify_token] =>
        let headers := [("Content-Type", PStr "application/json")] in
        let headers :=
          if truthy spotify_token
          then dict_set "Authorization" (bearer spotify_token) headers
          else headers in
        fetch {| req_method := "POST";
                 req_url := "https://api.spotify.com/v1/users/"
                            ++ py_str user_id ++ "/playlists";
                 req_headers := headers;
                 req_params := [];
                 req_json := PDict [("name", playlist_name);
                                    ("public", PBool false);
                                    ("description", PStr "test description")] |}
              "An error occurred while creating the playlist."
    | _ => raise_arity "create_playlist"
                       ["user_id"; "playlist_name"; "spotify_token"] 0 args
    end.

(** [tools/search_spotify_song.py]; [item_type] defaults to ["track"]. *)
Definition search_request (q spotify_token item_type : pyval) : Request :=
  {| req_method := "GET";
     req_url := "https://api.spotify.com/v1/search";
     req_headers := [("Authorization", bearer spotify_token)];
     req_params := [("q", q); ("type", item_type)];
     req_json := PNone |}.

Definition search_error_text : string :=
  "An error occurred while searching for the item.".

Definition repo_search_for_item : callable World :=
  fun args =>
    match args with
    | [q; spotify_token] =>
        fetch (search_request q spotify_token (PStr "track")) search_error_text
    | [q; spotify_token; item_type] =>
        fetch (search_request q spotify_token item_type) search_error_text
    | _ => raise_arity "search_for_item" ["q"; "spotify_token"] 1 args
    end.

(** [tools/add_song_to_spotify_playlist.py] *)
Definition repo_add_items_to_playlist : callable World :=
  fun args =>
    match args with
    | [playlist_id; uris; spotify_token] =>
        fetch {| req_method := "POST";
                 req_url := "https://api.spotify.com/v1/playlists/"
                            ++ py_str playlist_id ++ "/tracks";
                 req_headers := [("Authorization", bearer spotify_token);
                                 ("Content-Type", PStr "application/json")];
                 req_params := [];
                 req_json := PDict [("uris", uris)] |}
              "An error occurred while adding items to the playlist."
    | _ => raise_arity "add_items_to_playlist"
                       ["playlist_id"; "uris"; "spotify_token"] 0 args
    end.

(** The tools as app.py imports them. *)
Definition repo_tools : Tools World :=
  {| create_chat_completion := repo_create_chat_completion;
     get_current_user_profile := repo_get_current_user_profile;
     create_playlist := repo_create_playlist;
     search_for_item := repo_search_for_item;
     add_items_to_playlist := repo_add_items_to_playlist |}.

End RepoTools.

(* ===================================================================== *)
(** ** A runtime and worlds for the worked examples *)
(* ===================================================================== *)

Module Examples.

(** A decoder for the part of JSON the examples are written in: [null],
    [true], [false], integers, text without escapes, arrays and objects, with
    blanks between tokens.  Every theorem below holds for any decoder; this
    one only runs the examples. *)
Definition is_blank (c : ascii) : bool :=
  let n := nat_of_ascii c in
  ((n =? 32) || (n =? 9) || (n =? 10) || (n =? 13))%nat.

Fixpoint skip_blanks (s : string) : string :=
  match s with
  | String c s' => if is_blank c then skip_blanks s' else s
  | EmptyString => s
  end.

Definition is_digit (c : ascii) : bool :=
  let n := nat_of_ascii c in ((48 <=? n) && (n <=? 57))%nat.

(** The digits at the head of [s] as a number, and what follows them. *)
Fixpoint read_digits (s : string) (acc : Z) : Z * string :=
  match s with
  | String c s' =>
      if is_digit c
      then read_digits s' (10 * acc + Z.of_nat (nat_of_ascii c - 48))%Z
      else (acc, s)
  | EmptyString => (acc, s)
  end.

(** The text up to the closing quote, and what follows the quote. *)
Fixpoint read_text (s : string) : option (string * string) :=
  match s with
  | EmptyString => None
  | String c s' =>
      if Ascii.eqb c (ascii_of_nat 34) then Some (EmptyString, s')
      else if Ascii.eqb c (ascii_of_nat 92) then None
      else match read_text s' with
           | Some (t, rest) => Some (String c t, rest)
           | None => None
           end
  end.

Definition after_prefix (p s : string) : option string :=
  if prefix p s
  then Some (substring (String.length p) (String.length s - String.length p) s)
  else None.

Fixpoint read_value (fuel : nat) (s : string) : option (pyval * string) :=
  match fuel with
  | O => None
  | S fuel' =>
      match skip_blanks s with
      | EmptyString => None
      | String c rest as s1 =>
          if Ascii.eqb c (ascii_of_nat 34) then
            match read_text rest with
            | Some (t, rest') => Some (PStr t, rest')
            | None => None
            end
          else if Ascii.eqb c "["%char then
            match skip_blanks rest with
            | String "]"%char rest' => Some (PList [], rest')
            | _ => read_elements fuel' rest []
            end
          else if Ascii.eqb c "{"%char then
            match skip_blanks rest with
            | String "}"%char rest' => Some (PDict [], rest')
            | _ => read_members fuel' rest []
            end
          else if Ascii.eqb c "-"%char then
            match rest with
            | String d _ =>
                if is_digit d
                then let '(n, rest') := read_digits rest 0%Z in
                     Some (PInt (- n), rest')
                else None
            | EmptyString => None
            end
          else if is_digit c then
            let '(n, rest') := read_digits s1 0%Z in Some (PInt n, rest')
          else
            match after_prefix "null" s1, after_prefix "true" s1,
                  after_prefix "false" s1 with
            | Some rest', _, _ => Some (PNone, rest')
            | _, Some rest', _ => Some (PBool true, rest')
            | _, _, Some rest' => Some (PBool false, rest')
            | _, _, _ => None
            end
      end
  end
with read_elements (fuel : nat) (s : string) (acc : list pyval)
  : option (pyval * string) :=
  match fuel with
  | O => None
  | S fuel' =>
      match read_value fuel' s with
      | Some (v, rest) =>
          match skip_blanks rest with
          | String ","%char rest' => read_elements fuel' rest' (acc ++ [v])%list
          | String "]"%char rest' => Some (PList (acc ++ [v])%list, rest')
          | _ => None
          end
      | None => None
      end
  end
with read_members (fuel : nat) (s : string) (acc : pydict)
  : option (pyval * string) :=
  match fuel with
  | O => None
  | S fuel' =>
      match skip_blanks s with
      | String c rest =>
          if Ascii.eqb c (ascii_of_nat 34) then
            match read_text rest with
            | Some (k, rest1) =>
                match skip_blanks rest1 with
                | String ":"%char rest2 =>
                    match read_value fuel' rest2 with
                    | Some (v, rest3) =>
                        match skip_blanks rest3 with
                        | String ","%char rest4 =>
                            read_members fuel' rest4 (dict_set k v acc)
                        | String "}"%char rest4 =>
                            Some (PDict (dict_set k v acc), rest4)
                        | _ => None
                        end
                    | None => None
                    end
                | _ => None
                end
            | None => None
            end
          else None
      | EmptyString => None
      end
  end.

Definition decode (s : string) : pyval + string :=
  match read_value (S (String.length s)) s with
  | Some (v, rest) =>
      match skip_blanks rest with
      | EmptyString => inl v
      | _ => inr "Extra data"
      end
  | None => inr "Expecting value"
  end.

(** The traceback text and the text of compound values are stand-ins: no
    example reads them. *)
#[local] Instance runtime : Runtime := {|
  json_loads := decode;
  repr_compound := fun v => "<" ++ type_name v ++ ">";
  format_exc := fun e => "Traceback (most recent call last): " ++ exn_str e
|}.

(** [q "title"] is the JSON text of the string: the name between quotes. *)
Definition q (s : string) : string := dquote ++ s ++ dquote.

(** A world that answers HTTP exchanges from a script, in order; when the
    script runs out the connection fails. *)
Definition Wire : Type := list http_result.

Definition refused : exn := Exn RequestException "connection refused".

Definition wire_send (_ : Request) (w : Wire) : http_result * Wire :=
  match w with
  | r :: w' => (r, w')
  | [] => (HttpRaised refused, [])
  end.

(** The repository's tools on that world, with no API key in the
    environment. *)
Definition wired_tools : Tools Wire := repo_tools wire_send PNone.

(** Stand-ins for the five collaborators that answer from a script whatever
    they are asked, one outcome per call. *)
Definition Script : Type := list (outcome pyval).

Definition scripted : callable Script :=
  fun _ w =>
    match w with
    | o :: w' => (o, w')
    | [] => (Raise (Exn OtherException "script exhausted"), [])
    end.

Definition scripted_tools : Tools Script :=
  {| create_chat_completion := scripted;
     get_current_user_profile := scripted;
     create_playlist := scripted;
     search_for_item := scripted;
     add_items_to_playlist := scripted |}.

(** The session a first click finds: the script's opening lines put an empty
    dict and an empty list in it. *)
Definition fresh {W} (w : W) : State W :=
  {| playlist_info := []; errors := []; world := w; calls := [] |}.

(** A chat completion whose message content is [content]. *)
Definition completion (content : pyval) : pyval :=
  PDict [("choices", PList [PDict [("message",
                                    PDict [("role", PStr "assistant");
                                           ("content", content)])]])].

Definition song_json (t a : string) : string :=
  "{" ++ q "title" ++ ":" ++ q t ++ "," ++ q "artist" ++ ":" ++ q a ++ "}".

Definition rainy_mood : string :=
  "{" ++ q "playlist_title" ++ ":" ++ q "Rainy Mood" ++ ","
  ++ q "songs" ++ ":[" ++ song_json "A" "X" ++ "," ++ song_json "B" "Y"
  ++ "," ++ song_json "C" "Z" ++ "]}".

Definition found (uri : string) : pyval :=
  PDict [("tracks", PDict [("items", PList [PDict [("uri", PStr uri)]])])].

Definition nothing_found : pyval :=
  PDict [("tracks", PDict [("items", PList [])])].

End Examples.

(* ===================================================================== *)
(** ** The vocabulary of the properties *)
(* ===================================================================== *)

(** *** Chunks *)

(** The chunk that starts at index [i], for chunks of [step] elements. *)
Definition chunk_at {A} (l : list A) (step i : nat) : list A :=
  slice l i (i + step).

(** *** Search responses *)

(** What the extractor is meant to read off a search response of the shape
    the search endpoint promises, [{tracks: {items: [{uri, ...}, ...]}}] with
    any level absent or empty: [first_uri r v] says that the response [r]
    yields [v]. *)
Inductive first_uri : pyval -> pyval -> Prop :=
| no_response r :
    truthy r = false -> first_uri r PNone
| no_tracks d :
    truthy (dict_get "tracks" d) = false -> first_uri (PDict d) PNone
| no_items d t :
    dict_get "tracks" d = PDict t ->
    truthy (dict_get_default "items" (PList []) t) = false ->
    first_uri (PDict d) PNone
| first_item d t item rest :
    dict_get "tracks" d = PDict t ->
    dict_get "items" t = PList (PDict item :: rest) ->
    first_uri (PDict d) (dict_get "uri" item).

(** *** Items of the song list *)

Definition title_keys : list string := ["title"; "name"; "track"].
Definition artist_keys : list string := ["artist"; "artists"].

(** An object carries a field when one of the field's keys holds a value
    that is not empty ([None], [""], [0], [[]] and [{}] count as nothing). *)
Definition carries (keys : list string) (d : pydict) : bool :=
  existsb (fun k => truthy (dict_get k d)) keys.

(** The value the field is read from: the first key, in the order the parser
    accepts them, that holds something. *)
Fixpoint first_present (keys : list string) (d : pydict) : pyval :=
  match keys with
  | [] => PNone
  | k :: keys' =>
      if truthy (dict_get k d) then dict_get k d else first_present keys' d
  end.

(** A well-formed item: an object carrying a title and an artist. *)
Definition well_formed (item : pyval) : bool :=
  match item with
  | PDict d => carries title_keys d && carries artist_keys d
  | _ => false
  end.

(** An item with no title or no artist (an item that is not an object has
    neither). *)
Definition lacks_field (item : pyval) : bool :=
  match item with
  | PDict d => negb (carries title_keys d) || negb (carries artist_keys d)
  | _ => true
  end.

(** The Song a well-formed item stands for. *)
Definition song_of {rt : Runtime} (d : pydict) : Song :=
  {| title := PStr (strip (py_str (first_present title_keys d)));
     artist := PStr (strip (py_str (first_present artist_keys d))) |}.

(** What the parser's loop makes of a list of items on its own. *)
Definition songs_of {rt : Runtime} (items : list pyval) : list Song :=
  fold_left parse_step items [].

(** *** Triples for the script *)

(** [triple P m Q E]: from a state in [P], [m] ends in [Q] when it falls
    through and in [E] when it stops or crashes. *)
Definition triple {W A} (P : State W -> Prop) (m : M W A)
    (Q : A -> State W -> Prop) (E : State W -> Prop) : Prop :=
  forall st, P st ->
    match m st with
    | (Done a, st') => Q a st'
    | (Stopped, st') => E st'
    | (Crashed _, st') => E st'
    end.

(** [keeps I m]: [m] carries the invariant [I] to wherever it ends. *)
Definition keeps {W A} (I : State W -> Prop) (m : M W A) : Prop :=
  triple I m (fun _ => I) I.

(** *** Session state across a run *)

(** The summary is [info]. *)
Definition same_info {W} (info : pydict) (st : State W) : Prop :=
  playlist_info st = info.

(** The session with its error list emptied. *)
Definition with_no_errors {W} (st : State W) : State W :=
  {| playlist_info := playlist_info st; errors := [];
     world := world st; calls := calls st |}.

(** The summary after a run: the one it found, or the one it wrote on
    reaching the end. *)
Definition summary_kept_or_written {W} (description : string) (before : pydict)
    (r : result (option (list Song))) (st' : State W) : Prop :=
  playlist_info st' = before
  \/ exists playlist_name song_objects track_uris playlist_id,
       r = Done (Some song_objects)
       /\ playlist_info st'
          = summary playlist_name description song_objects track_uris
                    playlist_id.

(** The state after one more call. *)
Definition after_call {W} (st : State W) (w : W) (c : Call) : State W :=
  {| playlist_info := playlist_info st; errors := errors st;
     world := w; calls := (calls st ++ [c])%list |}.

(** *** Calls and error entries *)

(** An entry of the error list names its origin and its cause: it is a dict
    with a text under [tool] and a text under [exception]. *)
Definition names_tool_and_cause (entry : pyval) : Prop :=
  exists d tool cause,
    entry = PDict d
    /\ assoc "tool" d = Some (PStr tool)
    /\ assoc "exception" d = Some (PStr cause).

(** [entry] is the record of the call [c], which raised: it carries the
    label the call was made under and the text of the exception. *)
Definition entry_for (c : Call) (entry : pyval) : Prop :=
  match call_outcome c with
  | Return _ => False
  | Raise e =>
      exists d,
        entry = PDict d
        /\ assoc "tool" d = Some (PStr (call_label c))
        /\ assoc "exception" d = Some (PStr (exn_str e))
  end.

(** The call [c] is accounted for in [errs]: it returned, or it raised and
    its record is in the list. *)
Definition recorded (errs : list pyval) (c : Call) : Prop :=
  match call_outcome c with
  | Return _ => True
  | Raise _ => exists entry, In entry errs /\ entry_for c entry
  end.

(** Every entry names tool and cause, and every call made since [base]
    (the calls made before the run began) is accounted for. *)
Definition accounted {W} (base : list Call) (st : State W) : Prop :=
  Forall names_tool_and_cause (errors st)
  /\ exists new, calls st = (base ++ new)%list
                 /\ Forall (recorded (errors st)) new.

(** The same with the last call, [c], still to be recorded. *)
Definition pending {W} (base : list Call) (c : Call) (st : State W) : Prop :=
  Forall names_tool_and_cause (errors st)
  /\ exists new, calls st = (base ++ new ++ [c])%list
                 /\ Forall (recorded (errors st)) new.

(** The entries the add-tracks loop appends for a run of calls: one for each
    call that raised, in order. *)
Definition failure_entries {rt : Runtime} (cs : list Call) : list pyval :=
  flat_map (fun c => match call_outcome c with
                     | Raise e => [PDict (error_entry (call_label c) e)]
                     | Return _ => []
                     end) cs.

Definition add_label : string := "Spotify (add_items_to_playlist)".

(** The arguments of the add-tracks call of each chunk. *)
Definition add_args (playlist_id : pyval) (chunks : list (list pyval))
  : list (list pyval) :=
  map (fun chunk => [playlist_id; PList chunk]) chunks.

(** Calling [f] once for each list of arguments, in order, each call in the
    world the call before it left, whatever that call did: the calls, and
    the world after the last. *)
Fixpoint call_each {W} (label : string) (f : callable W)
    (argss : list (list pyval)) (w : W) : list Call * W :=
  match argss with
  | [] => ([], w)
  | args :: rest =>
      let '(o, w1) := f args w in
      let '(cs, w2) := call_each label f rest w1 in
      ({| call_label := label; call_args := args; call_outcome := o |} :: cs,
       w2)
  end.

(** The session after such calls: they are logged, each one that raised has
    its entry, and the summary is untouched. *)
Definition after_calls {rt : Runtime} {W} (st : State W)
    (made : list Call * W) : State W :=
  {| playlist_info := playlist_info st;
     errors := (errors st ++ failure_entries (fst made))%list;
     world := snd made;
     calls := (calls st ++ fst made)%list |}.

(** The [TypeError] of a call that leaves out [spotify_token]. *)
Definition missing_token (fname : string) : exn :=
  Exn TypeError
      (fname ++ "() missing 1 required positional argument: 'spotify_token'").

(** *** Text without blanks at its ends *)

(** Bytes that are all continuation bytes. *)
Fixpoint all_continuation (s : string) : bool :=
  match s with
  | EmptyString => true
  | String c s' => is_continuation c && all_continuation s'
  end.

(** One character: a byte and the continuation bytes after it. *)
Definition is_char (ch : string) : bool :=
  match ch with
  | EmptyString => false
  | String _ k => all_continuation k
  end.

(** The characters of one text: each is one character, and each after the
    first opens with a byte that is not a continuation byte. *)
Definition grouped (chs : list string) : Prop :=
  match chs with
  | [] => True
  | ch :: rest =>
      is_char ch = true
      /\ Forall (fun x => is_char x = true
                          /\ starts_with_continuation x = false) rest
  end.

(** Characters that do not begin with one [strip] removes. *)
Definition starts_clean (chs : list string) : Prop :=
  match chs with
  | [] => True
  | ch :: _ => is_space_char ch = false
  end.

(** A text made of nothing but characters [strip] removes. *)
Definition blank (s : string) : bool :=
  forallb is_space_char (split_chars s).

(** A Song as the parser builds them: both fields are text, and [strip]
    leaves each as it is. *)
Definition stripped_song (s : Song) : Prop :=
  exists t a,
    title s = PStr t /\ artist s = PStr a /\ strip t = t /\ strip a = a.

(** *** The stages of a run *)

Definition search_label : string := "Spotify (search_for_item)".

(** The query stage 4 sends for a Song. *)
Definition search_query {rt : Runtime} (s : Song) : string :=
  "track:" ++ py_str (title s) ++ " artist:" ++ py_str (artist s).

(** What stage 4 leaves behind when its loop runs to the end: one search per
    Song, in order, and for each Song either one identifier more or one
    entry more. *)
Definition resolved_or_recorded {rt : Runtime} {W} (song_objects : list Song)
    (track_uris : list pyval) (st st' : State W) : Prop :=
  exists new_calls new_errors,
    calls st' = (calls st ++ new_calls)%list
    /\ map call_label new_calls = map (fun _ => search_label) song_objects
    /\ map call_args new_calls
       = map (fun s => [PStr (search_query s)]) song_objects
    /\ errors st' = (errors st ++ new_errors)%list
    /\ List.length track_uris + List.length new_errors
       = List.length song_objects
    /\ Forall (fun uri => truthy uri = true) track_uris
    /\ playlist_info st' = playlist_info st.

(** The message content of a chat completion,
    [result["choices"][0]["message"]["content"]]. *)
Definition completion_content (result : pyval) : outcome pyval :=
  (choices <~ py_item result "choices" ;;
   choice <~ py_item0 choices ;;
   message <~ py_item choice "message" ;;
   py_item message "content")%outcome.

(** An entry of [songs] that the run keeps: an object with both keys,
    whatever they hold. *)
Definition has_both_keys (d : pydict) : bool :=
  dict_mem "title" d && dict_mem "artist" d.

Definition song_of_entry (d : pydict) : Song :=
  {| title := dict_get "title" d; artist := dict_get "artist" d |}.

(** The Songs the run keeps from a list of entries that are all objects. *)
Fixpoint kept_songs (entries : list pydict) : list Song :=
  match entries with
  | [] => []
  | d :: rest =>
      if has_both_keys d then song_of_entry d :: kept_songs rest
      else kept_songs rest
  end.

(** A value that is neither text nor a container: [None], a boolean or a
    number. *)
Definition is_scalar (v : pyval) : bool :=
  match v with
  | PNone | PBool _ | PInt _ | PFloat _ => true
  | _ => false
  end.

(** *** More example texts *)

(** A [songs] array with an entry under [name], an entry with an empty title
    and a complete entry; and one with a [null] between two complete
    entries. *)
Definition mixed_songs : string :=
  "{" ++ Examples.q "songs" ++ ":[{" ++ Examples.q "name" ++ ":"
  ++ Examples.q "A" ++ "," ++ Examples.q "artist" ++ ":" ++ Examples.q "X"
  ++ "}," ++ Examples.song_json "" " Y " ++ ","
  ++ Examples.song_json "C" "Z" ++ "]}".

Definition songs_with_null : string :=
  "{" ++ Examples.q "songs" ++ ":[" ++ Examples.song_json "A" "X"
  ++ ",null," ++ Examples.song_json "C" "Z" ++ "]}".

(** *** Labels and tools *)

Definition openai_label : string := "OpenAI (create_chat_completion)".
Definition profile_label : string := "Spotify (get_current_user_profile)".
Definition create_label : string := "Spotify (create_playlist)".

(** The call stage 3 makes for a title that is text: the name is the prefix
    ["AI: "] and the first 40 characters of the title. *)
Definition create_call {W} (tools : Tools W) (user_id : pyval)
    (playlist_title : string) (w : W) : Call :=
  let args := [user_id; PStr ("AI: " ++ str_prefix 40 playlist_title)] in
  {| call_label := create_label;
     call_args := args;
     call_outcome := fst (create_playlist tools args w) |}.

(** A callable that never lets a request failure out as an exception. *)
Definition never_raises_request {W} (f : callable W) : Prop :=
  forall args w e w',
    f args w = (Raise e, w') -> exn_class_of e <> RequestException.

(** *** The order of the calls *)

(** The stage a call belongs to, read off the label it was made under
    (0: no stage of the run). *)
Definition stage_rank (label : string) : nat :=
  if String.eqb label openai_label then 1
  else if String.eqb label profile_label then 2
  else if String.eqb label create_label then 3
  else if String.eqb label search_label then 4
  else if String.eqb label add_label then 5
  else 0.

Definition rank (c : Call) : nat := stage_rank (call_label c).

(** [c2] may come after [c1]: it belongs to a later stage, or to the same
    stage when that stage is one of the two loops. *)
Definition may_follow (c1 c2 : Call) : Prop :=
  rank c1 < rank c2 \/ (rank c1 = rank c2 /\ 4 <= rank c1).

(** Calls in the order of the stages: the language model, the profile and
    the playlist creation at most once each and in that order, then the
    searches, then the additions. *)
Definition in_stage_order (cs : list Call) : Prop :=
  StronglySorted may_follow cs /\ Forall (fun c => 1 <= rank c) cs.

(** The calls made since [base] are in stage order and none is of a stage
    after [k]. *)
Definition staged {W} (base : list Call) (k : nat) (st : State W) : Prop :=
  exists new,
    calls st = (base ++ new)%list
    /\ in_stage_order new
    /\ Forall (fun c => rank c <= k) new.

(** *** The page *)

(** The header lines of a written summary. *)
Definition summary_header (playlist_name playlist_description : string)
    (resolved : nat) : list element :=
  [Subheader "Generated Playlist";
   Write ("**Name:** " ++ playlist_name);
   Write ("**Description used:** " ++ playlist_description);
   Write ("**Resolved tracks added (approx):** " ++ str_of_Z (Z.of_nat resolved));
   Write "**Songs returned by OpenAI:**"].

(** A summary as a run writes it: the identifier is not empty, no more
    identifiers were resolved than there are Songs, and each is not empty. *)
Definition written_summary (playlist_description : string)
    (info : pydict) (song_objects : list Song) : Prop :=
  exists playlist_name track_uris playlist_id,
    info = summary playlist_name playlist_description song_objects track_uris
                   playlist_id
    /\ truthy playlist_id = true
    /\ List.length track_uris <= List.length song_objects
    /\ Forall (fun uri => truthy uri = true) track_uris.

(** A session the closing lines can show: no summary yet, or one a run
    wrote. *)
Definition displayable {W} (st : State W) : Prop :=
  playlist_info st = []
  \/ exists description song_objects,
       written_summary description (playlist_info st) song_objects.

(** An entry that names the Song it is about: under [song] it carries the
    text of one of the Songs, [title — artist]. *)
Definition names_song {rt : Runtime} (song_objects : list Song) (entry : pyval)
  : Prop :=
  exists d s,
    entry = PDict d
    /\ In s song_objects
    /\ assoc "song" d = Some (PStr (Song_str s)).

(** The line the page shows for a Song. *)
Definition line_of {rt : Runtime} (s : Song) : element :=
  Write ("- " ++ Song_str s).

(** *** Sessions *)

(** The session the opening lines of the script leave at the first load: an
    empty dict for the summary and an empty error list. *)
Definition first_load {W} (w : W) : State W :=
  {| playlist_info := []; errors := []; world := w; calls := [] |}.

(** The session [st] when the script runs again, the world being [w] by
    then. *)
Definition at_world {W} (st : State W) (w : W) : State W :=
  {| playlist_info := playlist_info st; errors := errors st;
     world := w; calls := calls st |}.

(** The session after a history of runs of the script, each with or without
    a click and each in the world of its time, however each one ended. *)
Fixpoint session_after {rt : Runtime} {W} (tools : Tools W)
    (history : list (option (string * Z) * W)) (st : State W) : State W :=
  match history with
  | [] => st
  | (click, w) :: rest =>
      session_after tools rest (snd (script tools click (at_world st w)))
  end.

(** The searches among some calls. *)
Definition searches (cs : list Call) : list Call :=
  filter (fun c => String.eqb (call_label c) search_label) cs.

(** The songs a summary holds. *)
Definition summary_songs (info : pydict) : list pyval :=
  match dict_get_default "songs" (PList []) info with
  | PList songs => songs
  | _ => []
  end.

(* ===================================================================== *)
(** ** The Batch Adder's chunking *)
(* ===================================================================== *)

Section Chunking.
Variable A : Type.
Variable l : list A.
Variable step : nat.
Hypothesis step_pos : 0 < step.

Lemma chunk_at_firstn i : chunk_at l step i = firstn step (skipn i l).
Proof.
  unfold chunk_at, slice. f_equal. lia.
Qed.

(** From [start] on, the chunks glue back to the rest of the list. *)
Lemma concat_chunks_from fuel :
  forall start, List.length l - start <= fuel ->
    List.concat (map (chunk_at l step) (range_from fuel start (List.length l) step))
    = skipn start l.
Proof.
  induction fuel as [|fuel IH]; intros start Hfuel; cbn [range_from].
  - cbn. symmetry. apply skipn_all2. lia.
  - destruct (Nat.ltb_spec start (List.length l)) as [Hlt|Hge].
    + cbn [map List.concat]. rewrite IH by lia.
      rewrite chunk_at_firstn.
      replace (start + step) with (step + start) by lia.
      rewrite <- skipn_skipn. apply firstn_skipn.
    + cbn. symmetry. apply skipn_all2. lia.
Qed.

(** The [k]-th start is [k] steps on. *)
Lemma nth_range_from fuel :
  forall start k, k < List.length (range_from fuel start (List.length l) step) ->
    nth_error (range_from fuel start (List.length l) step) k
    = Some (start + k * step).
Proof.
  induction fuel as [|fuel IH]; intros start k Hk; cbn [range_from] in *.
  - cbn in Hk. lia.
  - destruct (Nat.ltb_spec start (List.length l)) as [Hlt|Hge].
    + destruct k as [|k]; cbn [nth_error].
      * f_equal. lia.
      * cbn [List.length] in Hk. rewrite IH by lia. f_equal. lia.
    + cbn in Hk. lia.
Qed.

(** The number of starts is the least [n] with [n * step] covering what is
    left. *)
Lemma length_range_from fuel :
  forall start, List.length l - start <= fuel ->
    let n := List.length (range_from fuel start (List.length l) step) in
    List.length l - start <= n * step
    /\ (0 < n -> (n - 1) * step < List.length l - start).
Proof.
  induction fuel as [|fuel IH]; intros start Hfuel; cbn [range_from].
  - cbn. lia.
  - destruct (Nat.ltb_spec start (List.length l)) as [Hlt|Hge].
    + cbn [List.length]. destruct (IH (start + step)) as [Hcover Hleast]; [lia|].
      cbn zeta in Hcover, Hleast.
      set (n := List.length
                  (range_from fuel (start + step) (List.length l) step)) in *.
      split; [nia|]. intros _.
      destruct n as [|n]; [cbn; lia|].
      specialize (Hleast ltac:(lia)). nia.
    + cbn. lia.
Qed.

End Chunking.

Lemma ceil_div_unique (L B n : Z) :
  (0 < B)%Z -> (L <= n * B)%Z -> ((n - 1) * B < L)%Z ->
  ((L + B - 1) / B = n)%Z.
Proof.
  intros HB Hcover Hleast. symmetry.
  apply Z.div_unique with (r := (L + B - 1 - B * n)%Z); lia.
Qed.

(** C2. For every list of length L and every batch size B > 0, [chunked]
    yields exactly ceil(L/B) chunks, each of at most B elements; the k-th
    chunk is the B elements that follow the first k*B (contiguous, in input
    order), and the chunks concatenated in order are the list. *)
Theorem C2_chunked_partitions (A : Type) (l : list A) (B : Z) :
  (0 < B)%Z ->
  exists chunks,
    chunked l B = Return chunks
    /\ Z.of_nat (List.length chunks) = ((Z.of_nat (List.length l) + B - 1) / B)%Z
    /\ Forall (fun c => (Z.of_nat (List.length c) <= B)%Z) chunks
    /\ (forall k, k < List.length chunks ->
          nth_error chunks k
          = Some (firstn (Z.to_nat B) (skipn (k * Z.to_nat B) l)))
    /\ List.concat chunks = l.
Proof.
  intros HB.
  assert (Hstep : 0 < Z.to_nat B) by lia.
  unfold chunked, py_range0.
  destruct (Z.eqb_spec B 0) as [|_]; [lia|].
  destruct (Z.ltb_spec B 0) as [|_]; [lia|].
  cbn [obind].
  set (starts := range_from (List.length l) 0 (List.length l) (Z.to_nat B)).
  eexists. split; [reflexivity|].
  pose proof (length_range_from A l (Z.to_nat B) Hstep (List.length l) 0
                ltac:(lia)) as [Hcover Hleast].
  cbn zeta in Hcover, Hleast. fold starts in Hcover, Hleast.
  repeat split.
  - rewrite length_map. symmetry.
    destruct (List.length starts) as [|n] eqn:Hn.
    + apply Z.div_small. lia.
    + apply ceil_div_unique; [lia| |].
      * nia.
      * specialize (Hleast ltac:(lia)). nia.
  - apply Forall_forall. intros c Hc. apply in_map_iff in Hc.
    destruct Hc as [i [<- _]]. unfold slice.
    pose proof (firstn_le_length (i + Z.to_nat B - i) (skipn i l)). lia.
  - intros k Hk. rewrite length_map in Hk.
    rewrite nth_error_map.
    unfold starts. rewrite nth_range_from by (exact Hstep || exact Hk).
    cbn [option_map]. f_equal. unfold slice. f_equal. lia.
  - unfold starts.
    rewrite (concat_chunks_from A l (Z.to_nat B) Hstep) by lia.
    reflexivity.
Qed.

(** Five identifiers in batches of two: three chunks. *)
Lemma C2_chunked_witness :
  exists chunks,
    chunked [1; 2; 3; 4; 5] 2%Z = Return chunks
    /\ Z.of_nat (List.length chunks) = ((5 + 2 - 1) / 2)%Z
    /\ Forall (fun c => (Z.of_nat (List.length c) <= 2)%Z) chunks
    /\ (forall k, k < List.length chunks ->
          nth_error chunks k
          = Some (firstn 2 (skipn (k * 2) [1; 2; 3; 4; 5])))
    /\ List.concat chunks = [1; 2; 3; 4; 5].
Proof.
  apply (C2_chunked_partitions nat [1; 2; 3; 4; 5] 2%Z). lia.
Defined.

(* ===================================================================== *)
(** ** The track-URI extractor *)
(* ===================================================================== *)

Lemma dict_get_default_found k dflt d v :
  dict_get k d = v -> v <> PNone -> dict_get_default k dflt d = v.
Proof.
  unfold dict_get, dict_get_default.
  destruct (assoc k d); intros; congruence.
Qed.

(** C10, as amended. On a response of the promised shape the extractor does
    not raise: it returns None when [tracks] or [items] is absent or empty,
    and otherwise the [uri] of the first item (None when that item has no
    [uri]), whatever the later items are. *)
Theorem C10_first_track_uri_on_shape (r v : pyval) :
  first_uri r v -> extract_first_track_uri r = Return v.
Proof.
  intros H. unfold extract_first_track_uri.
  destruct H as [r Hr | d Ht | d t Ht Hi | d t item rest Ht Hi].
  - rewrite Hr. reflexivity.
  - destruct (truthy (PDict d)); cbn [negb]; [|reflexivity].
    cbn [py_get obind]. fold (dict_get "tracks" d). rewrite Ht. reflexivity.
  - destruct (truthy (PDict d)); cbn [negb]; [|reflexivity].
    cbn [py_get obind]. fold (dict_get "tracks" d). rewrite Ht.
    destruct (truthy (PDict t)); cbn [negb]; [|reflexivity].
    cbn [py_get obind]. rewrite Hi. reflexivity.
  - destruct (truthy (PDict d)) eqn:Hd; cbn [negb].
    + cbn [py_get obind]. fold (dict_get "tracks" d). rewrite Ht.
      destruct (truthy (PDict t)) eqn:Htt; cbn [negb].
      * cbn [py_get obind].
        rewrite (dict_get_default_found "items" (PList []) t _ Hi)
          by discriminate.
        reflexivity.
      * destruct t; [discriminate Hi | discriminate Htt].
    + destruct d; [discriminate Ht | discriminate Hd].
Qed.

(** Two items: the first one's identifier comes back. *)
Lemma C10_first_track_uri_witness :
  extract_first_track_uri
    (PDict [("tracks",
             PDict [("items", PList [PDict [("uri", PStr "spotify:track:1")];
                                     PDict [("uri", PStr "spotify:track:2")]])])])
  = Return (PStr "spotify:track:1").
Proof.
  apply (C10_first_track_uri_on_shape
           (PDict [("tracks",
                    PDict [("items",
                            PList [PDict [("uri", PStr "spotify:track:1")];
                                   PDict [("uri", PStr "spotify:track:2")]])])])
           (dict_get "uri" [("uri", PStr "spotify:track:1")])).
  apply (first_item _ [("items", PList [PDict [("uri", PStr "spotify:track:1")];
                                        PDict [("uri", PStr "spotify:track:2")]])]
                    [("uri", PStr "spotify:track:1")]
                    [PDict [("uri", PStr "spotify:track:2")]]);
    reflexivity.
Defined.

(** C10 as stated fails: a search response whose first item is null makes
    the extractor raise. *)
Lemma C10_null_first_item_raises :
  extract_first_track_uri
    (PDict [("tracks", PDict [("items", PList [PNone])])])
  = Raise (Exn AttributeError "'NoneType' object has no attribute 'get'").
Proof. reflexivity. Qed.

(** Outside that shape the presence checks do not protect the lookups: a
    [tracks] or first item that is not an object, or an [items] that cannot
    be indexed, raises. *)
Lemma extract_raises_on_other_shapes :
  extract_first_track_uri (PDict [("tracks", PList [PInt 1])])
  = Raise (Exn AttributeError "'list' object has no attribute 'get'")
  /\ extract_first_track_uri (PDict [("tracks", PDict [("items", PInt 3)])])
     = Raise (Exn TypeError "'int' object is not subscriptable")
  /\ extract_first_track_uri
       (PDict [("tracks", PDict [("items", PDict [("a", PNone)])])])
     = Raise (Exn KeyError "0")
  /\ extract_first_track_uri (PList [PNone])
     = Raise (Exn AttributeError "'list' object has no attribute 'get'").
Proof. repeat split; reflexivity. Qed.

(* ===================================================================== *)
(** ** The Song-List Parser *)
(* ===================================================================== *)

Section Parser.
Context {rt : Runtime}.

Lemma item_title_carries d :
  truthy (item_title d) = carries title_keys d.
Proof.
  unfold item_title, py_or, carries, title_keys. cbn [existsb].
  destruct (truthy (dict_get "title" d)) eqn:H1; cbn [orb].
  - rewrite H1. exact H1.
  - destruct (truthy (dict_get "name" d)) eqn:H2; cbn [orb].
    + exact H2.
    + rewrite orb_false_r. reflexivity.
Qed.

Lemma item_artist_carries d :
  truthy (item_artist d) = carries artist_keys d.
Proof.
  unfold item_artist, py_or, carries, artist_keys. cbn [existsb].
  destruct (truthy (dict_get "artist" d)) eqn:H1; cbn [orb].
  - exact H1.
  - rewrite orb_false_r. reflexivity.
Qed.

Lemma item_title_first_present d :
  carries title_keys d = true -> item_title d = first_present title_keys d.
Proof.
  unfold item_title, py_or, carries, title_keys.
  cbn [existsb first_present].
  destruct (truthy (dict_get "title" d)) eqn:H1; [rewrite H1; reflexivity|].
  destruct (truthy (dict_get "name" d)) eqn:H2; [reflexivity|].
  destruct (truthy (dict_get "track" d)) eqn:H3; [reflexivity|].
  discriminate.
Qed.

Lemma item_artist_first_present d :
  carries artist_keys d = true -> item_artist d = first_present artist_keys d.
Proof.
  unfold item_artist, py_or, carries, artist_keys.
  cbn [existsb first_present].
  destruct (truthy (dict_get "artist" d)) eqn:H1; [reflexivity|].
  destruct (truthy (dict_get "artists" d)) eqn:H2; [reflexivity|].
  discriminate.
Qed.

(** A turn of the loop only ever appends. *)
Lemma parse_step_appends songs item :
  parse_step songs item = (songs ++ parse_step [] item)%list.
Proof.
  unfold parse_step. destruct item; rewrite ?app_nil_r; try reflexivity.
  destruct (negb (truthy (item_title d)) || negb (truthy (item_artist d)));
    [rewrite app_nil_r|]; reflexivity.
Qed.

Lemma fold_parse_step items :
  forall songs,
    fold_left parse_step items songs = (songs ++ songs_of items)%list.
Proof.
  unfold songs_of.
  induction items as [|item items IH]; intros songs; cbn [fold_left].
  - rewrite app_nil_r. reflexivity.
  - rewrite IH. rewrite (IH (parse_step [] item)).
    rewrite (parse_step_appends songs item). rewrite app_assoc. reflexivity.
Qed.

Lemma songs_of_app l1 l2 :
  songs_of (l1 ++ l2) = (songs_of l1 ++ songs_of l2)%list.
Proof.
  unfold songs_of at 1. rewrite fold_left_app. fold (songs_of l1).
  apply fold_parse_step.
Qed.

Lemma songs_of_cons item items :
  songs_of (item :: items) = (parse_step [] item ++ songs_of items)%list.
Proof.
  unfold songs_of at 1. cbn [fold_left]. apply fold_parse_step.
Qed.

Lemma parse_step_well_formed d :
  well_formed (PDict d) = true -> parse_step [] (PDict d) = [song_of d].
Proof.
  cbn [well_formed]. intros H. apply andb_prop in H. destruct H as [Ht Ha].
  unfold parse_step.
  rewrite item_title_carries, item_artist_carries, Ht, Ha. cbn.
  rewrite (item_title_first_present d Ht), (item_artist_first_present d Ha).
  reflexivity.
Qed.

Lemma parse_step_lacks_field item :
  lacks_field item = true -> parse_step [] item = [].
Proof.
  unfold parse_step, lacks_field. destruct item; try reflexivity.
  rewrite item_title_carries, item_artist_carries. intros ->. reflexivity.
Qed.

(** On well-formed items the loop is a map: one Song per item, in place. *)
Lemma songs_of_well_formed items :
  forallb well_formed items = true ->
  List.length (songs_of items) = List.length items
  /\ forall i d, nth_error items i = Some (PDict d) ->
                 nth_error (songs_of items) i = Some (song_of d).
Proof.
  induction items as [|item items IH]; cbn [forallb]; intros H.
  - split; [reflexivity|]. intros [|i] d Hi; discriminate Hi.
  - apply andb_prop in H. destruct H as [Hitem Hrest].
    destruct (IH Hrest) as [IHlen IHnth].
    destruct item; try discriminate Hitem.
    rewrite songs_of_cons, (parse_step_well_formed d Hitem).
    cbn [app List.length]. split; [congruence|].
    intros [|i] d' Hi; cbn [nth_error] in *.
    + congruence.
    + apply IHnth, Hi.
Qed.

End Parser.

(** C6. When the text decodes to an array of at most N items, each an
    object carrying a title and an artist, the parser called with limit N
    returns one Song per item, the i-th Song made from the i-th item. *)
Theorem C6_parser_returns_every_well_formed_item {rt : Runtime}
    (raw_content : string) (limit : Z) (items : list pyval) :
  json_loads raw_content = inl (PList items) ->
  forallb well_formed items = true ->
  (Z.of_nat (List.length items) <= limit)%Z ->
  exists songs,
    parse_openai_song_list raw_content limit = Return songs
    /\ List.length songs = List.length items
    /\ forall i d, nth_error items i = Some (PDict d) ->
                   nth_error songs i = Some (song_of d).
Proof.
  intros Hjson Hwf Hlimit.
  exists (songs_of items).
  split; [|apply songs_of_well_formed, Hwf].
  unfold parse_openai_song_list. rewrite Hjson.
  unfold py_slice_to.
  destruct (Z.ltb_spec limit 0) as [|_]; [lia|].
  rewrite firstn_all2 by lia. reflexivity.
Qed.

(** Two items, the second under the keys [name] and [artists], limit 2. *)
Lemma C6_parser_witness :
  exists songs,
    parse_openai_song_list
      (rt := Examples.runtime)
      ("[" ++ Examples.song_json "Purple Rain" "Prince" ++ ", {"
       ++ Examples.q "name" ++ ": " ++ Examples.q " Riders on the Storm"
       ++ ", " ++ Examples.q "artists" ++ ": " ++ Examples.q "The Doors "
       ++ "}]") 2
    = Return songs
    /\ List.length songs = 2
    /\ forall i d,
         nth_error [PDict [("title", PStr "Purple Rain");
                           ("artist", PStr "Prince")];
                    PDict [("name", PStr " Riders on the Storm");
                           ("artists", PStr "The Doors ")]] i
         = Some (PDict d) ->
         nth_error songs i = Some (song_of (rt := Examples.runtime) d).
Proof.
  apply (C6_parser_returns_every_well_formed_item
           (rt := Examples.runtime) _ 2
           [PDict [("title", PStr "Purple Rain"); ("artist", PStr "Prince")];
            PDict [("name", PStr " Riders on the Storm");
                   ("artists", PStr "The Doors ")]]);
    [reflexivity | reflexivity | cbn; lia].
Defined.

(** C7. An item among the first N that has no title or no artist is skipped
    and the parse goes on: the Songs returned are those of the items before
    it followed by those of the items after it, each group parsed as it
    would be on its own. *)
Theorem C7_parser_skips_incomplete_items {rt : Runtime}
    (raw_content : string) (limit : Z) (parsed before after : list pyval)
    (item : pyval) :
  json_loads raw_content = inl (PList parsed) ->
  py_slice_to parsed limit = (before ++ item :: after)%list ->
  lacks_field item = true ->
  parse_openai_song_list raw_content limit
  = Return (songs_of before ++ songs_of after)%list.
Proof.
  intros Hjson Hslice Hitem.
  unfold parse_openai_song_list. rewrite Hjson, Hslice. f_equal.
  fold (songs_of (before ++ item :: after)).
  rewrite songs_of_app, songs_of_cons.
  rewrite (parse_step_lacks_field item Hitem). reflexivity.
Qed.

(** Three items of which the second has no artist: the first and the third
    come back. *)
Lemma C7_parser_witness :
  parse_openai_song_list
    (rt := Examples.runtime)
    ("[" ++ Examples.song_json "A" "X" ++ ",{" ++ Examples.q "title" ++ ":"
     ++ Examples.q "B" ++ "}," ++ Examples.song_json "C" "Z" ++ "]") 3
  = Return [{| title := PStr "A"; artist := PStr "X" |};
            {| title := PStr "C"; artist := PStr "Z" |}].
Proof.
  apply (C7_parser_skips_incomplete_items
           (rt := Examples.runtime) _ 3
           [PDict [("title", PStr "A"); ("artist", PStr "X")];
            PDict [("title", PStr "B")];
            PDict [("title", PStr "C"); ("artist", PStr "Z")]]
           [PDict [("title", PStr "A"); ("artist", PStr "X")]]
           [PDict [("title", PStr "C"); ("artist", PStr "Z")]]
           (PDict [("title", PStr "B")]));
    reflexivity.
Defined.

(** The cap counts items, not Songs: an incomplete item among the first N
    takes a place, and what lies beyond the first N is never read. *)
Lemma parser_cap_counts_items :
  parse_openai_song_list
    (rt := Examples.runtime)
    ("[" ++ Examples.song_json "A" "X" ++ ",{" ++ Examples.q "title" ++ ":"
     ++ Examples.q "B" ++ "}," ++ Examples.song_json "C" "Z" ++ "]") 2
  = Return [{| title := PStr "A"; artist := PStr "X" |}].
Proof. reflexivity. Qed.

(** X30. The other ways out of the parser: text that is not JSON, and JSON
    that is not an array, both raise [ValueError]. *)
Lemma parser_rejects_what_is_not_an_array {rt : Runtime}
    (raw_content : string) (limit : Z) :
  (forall msg, json_loads raw_content = inr msg ->
     parse_openai_song_list raw_content limit
     = Raise (Exn ValueError
                  ("Failed to decode JSON from OpenAI response: " ++ msg)))
  /\ (forall v, json_loads raw_content = inl v ->
        (forall items, v <> PList items) ->
        parse_openai_song_list raw_content limit
        = Raise (Exn ValueError "OpenAI response JSON is not a list.")).
Proof.
  unfold parse_openai_song_list. split.
  - intros msg ->. reflexivity.
  - intros v -> Hv. destruct v; try reflexivity. elim (Hv l). reflexivity.
Qed.

(* ===================================================================== *)
(** ** Reasoning about the script *)
(* ===================================================================== *)

Section Logic.
Context {W : Type}.

Lemma triple_ret {A} (P : State W -> Prop) (a : A) Q E :
  (forall st, P st -> Q a st) -> triple P (ret a) Q E.
Proof. intros H st HP. cbn. apply H, HP. Qed.

Lemma triple_bind {A B} (P : State W -> Prop) (m : M W A) (f : A -> M W B) Q R E :
  triple P m Q E -> (forall a, triple (Q a) (f a) R E) ->
  triple P (bind m f) R E.
Proof.
  intros Hm Hf st HP. unfold bind. specialize (Hm st HP).
  destruct (m st) as [[a| |e] st']; [|exact Hm|exact Hm].
  apply Hf, Hm.
Qed.

Lemma triple_weaken {A} (P P' : State W -> Prop) (m : M W A)
    (Q Q' : A -> State W -> Prop) E :
  triple P' m Q' E -> (forall st, P st -> P' st) ->
  (forall a st, Q' a st -> Q a st) -> triple P m Q E.
Proof.
  intros Hm HP HQ st Hst. specialize (Hm st (HP st Hst)).
  destruct (m st) as [[a| |e] st']; auto.
Qed.

Lemma keeps_ret {A} (I : State W -> Prop) (a : A) : keeps I (ret a).
Proof. apply triple_ret. auto. Qed.

Lemma keeps_bind {A B} (I : State W -> Prop) (m : M W A) (f : A -> M W B) :
  keeps I m -> (forall a, keeps I (f a)) -> keeps I (bind m f).
Proof. intros Hm Hf. eapply triple_bind; [exact Hm|exact Hf]. Qed.

Lemma keeps_stop {A} (I : State W -> Prop) : keeps I (@st_stop W A).
Proof. intros st H. exact H. Qed.

Lemma keeps_crash {A} (I : State W -> Prop) e : keeps I (@crash W A e).
Proof. intros st H. exact H. Qed.

Lemma keeps_lift {A} (I : State W -> Prop) (o : outcome A) : keeps I (lift o).
Proof. destruct o; [apply keeps_ret | apply keeps_crash]. Qed.

Lemma keeps_if {A} (I : State W -> Prop) (b : bool) (m1 m2 : M W A) :
  keeps I m1 -> keeps I m2 -> keeps I (if b then m1 else m2).
Proof. destruct b; auto. Qed.

Lemma keeps_try_except {A} (I : State W -> Prop) (body : M W A) handler :
  keeps I body -> (forall e, keeps I (handler e)) ->
  keeps I (try_except body handler).
Proof.
  intros Hb Hh st H. unfold try_except. specialize (Hb st H).
  destruct (body st) as [[a| |e] st']; [exact Hb|exact Hb|].
  apply Hh, Hb.
Qed.

Lemma keeps_for_fold {A B} (I : State W -> Prop) (body : B -> A -> M W B) (l : list A) :
  (forall acc x, keeps I (body acc x)) ->
  forall acc, keeps I (for_fold body l acc).
Proof.
  intros Hbody. induction l as [|x l IH]; intros acc; cbn [for_fold].
  - apply keeps_ret.
  - apply keeps_bind; [apply Hbody | exact IH].
Qed.

End Logic.

Create HintDb keeps.
#[export] Hint Resolve keeps_ret keeps_stop keeps_crash keeps_lift : keeps.

(** *** What leaves the summary alone *)

Section SummaryUntouched.
Context {rt : Runtime} {W : Type}.
Variable tools : Tools W.
Variable info : pydict.

Local Abbreviation unchanged := (same_info (W := W) info).

Lemma same_info_safe_call name f args : keeps unchanged (safe_call name f args).
Proof.
  intros st H. unfold safe_call.
  destruct (f args (world st)) as [[v|e] w]; exact H.
Qed.

Lemma same_info_append_error e : keeps unchanged (append_error e).
Proof. intros st H. exact H. Qed.

Lemma same_info_set_errors v : keeps unchanged (set_errors v).
Proof. intros st H. exact H. Qed.

Lemma same_info_stop_on_error call : keeps unchanged (stop_on_error call).
Proof.
  unfold stop_on_error, call_item. apply keeps_if; [|apply keeps_ret].
  apply keeps_bind; [apply keeps_lift|]. intros err.
  apply keeps_bind; [apply same_info_append_error|]. intros _. apply keeps_stop.
Qed.

Lemma same_info_read_completion call description :
  keeps unchanged (read_completion call description).
Proof.
  unfold read_completion, call_item.
  apply keeps_bind; [apply keeps_lift|]. intros result.
  apply keeps_bind; [apply keeps_lift|]. intros content.
  apply keeps_bind; [apply keeps_lift|]. intros [parsed|msg].
  - apply keeps_bind; [apply keeps_lift|]. intros playlist_title.
    apply keeps_bind; [apply keeps_lift|]. intros songs_data.
    apply keeps_bind; [apply keeps_lift|]. intros song_objects.
    apply keeps_ret.
  - apply keeps_ret.
Qed.

Lemma same_info_tool2 : keeps unchanged (tool2_get_user_id tools).
Proof.
  unfold tool2_get_user_id, call_item.
  apply keeps_bind; [apply same_info_safe_call|]. intros call.
  apply keeps_bind; [apply same_info_stop_on_error|]. intros _.
  apply keeps_bind; [apply keeps_lift|]. intros user_profile.
  apply keeps_bind; [apply keeps_lift|]. intros user_id.
  apply keeps_if; [apply keeps_stop | apply keeps_ret].
Qed.

Lemma same_info_tool3 user_id playlist_title :
  keeps unchanged (tool3_create_playlist tools user_id playlist_title).
Proof.
  unfold tool3_create_playlist, call_item.
  apply keeps_bind; [apply keeps_lift|]. intros head.
  apply keeps_bind; [apply same_info_safe_call|]. intros call.
  apply keeps_bind; [apply same_info_stop_on_error|]. intros _.
  apply keeps_bind; [apply keeps_lift|]. intros playlist_response.
  apply keeps_bind; [apply keeps_lift|]. intros playlist_id.
  apply keeps_if; [|apply keeps_ret].
  apply keeps_bind; [apply same_info_append_error|]. intros _. apply keeps_stop.
Qed.

Lemma same_info_search_step track_uris s :
  keeps unchanged (search_step tools track_uris s).
Proof.
  unfold search_step, call_item.
  apply keeps_bind; [apply same_info_safe_call|]. intros call.
  apply keeps_if.
  - apply keeps_bind; [apply keeps_lift|]. intros err.
    apply keeps_bind; [apply keeps_lift|]. intros entry.
    apply keeps_bind; [apply same_info_append_error|]. intros _.
    apply keeps_ret.
  - apply keeps_bind; [apply keeps_lift|]. intros track_data.
    apply keeps_bind; [apply keeps_lift|]. intros uri.
    apply keeps_if; [apply keeps_ret|].
    apply keeps_bind; [apply same_info_append_error|]. intros _.
    apply keeps_ret.
Qed.

Lemma same_info_add_chunk playlist_id u chunk :
  keeps unchanged (add_chunk tools playlist_id u chunk).
Proof.
  unfold add_chunk, call_item.
  apply keeps_bind; [apply same_info_safe_call|]. intros call.
  apply keeps_if; [|apply keeps_ret].
  apply keeps_bind; [apply keeps_lift|]. intros err.
  apply same_info_append_error.
Qed.

Lemma same_info_tool5 playlist_id track_uris :
  keeps unchanged (tool5_add_tracks tools playlist_id track_uris).
Proof.
  unfold tool5_add_tracks. apply keeps_if; [|apply keeps_ret].
  apply keeps_try_except.
  - apply keeps_bind; [apply keeps_lift|]. intros chunks.
    apply keeps_for_fold. intros acc x. apply same_info_add_chunk.
  - intros e. apply same_info_append_error.
Qed.

End SummaryUntouched.

(* ===================================================================== *)
(** ** What a run keeps of the session it starts from *)
(* ===================================================================== *)

(** Whatever the tools: a run starts by emptying the error list, so nothing
    of the earlier list reaches it; the summary is not emptied: it stays as
    the run found it unless this run reaches the end and writes its own. *)
Lemma errors_fresh_summary_kept_until_written {rt : Runtime} {W : Type}
    (tools : Tools W) (playlist_description : string) (limit : Z)
    (st : State W) :
  generate_playlist tools playlist_description limit st
  = generate_playlist tools playlist_description limit (with_no_errors st)
  /\ summary_kept_or_written
       playlist_description (playlist_info st)
       (fst (generate_playlist tools playlist_description limit st))
       (snd (generate_playlist tools playlist_description limit st)).
Proof.
  split; [reflexivity|].
  set (info := playlist_info st).
  assert (H : triple (fun s => playlist_info s = info)
                     (generate_playlist tools playlist_description limit)
                     (fun r s => summary_kept_or_written
                                   playlist_description info (Done r) s)
                     (fun s => playlist_info s = info)).
  { unfold generate_playlist.
    eapply triple_bind; [apply (same_info_set_errors info)|]. intros ?.
    destruct (negb (truthy (PStr playlist_description))
              || negb (truthy (PInt limit))).
    { apply triple_ret. intros s Hs. left. exact Hs. }
    eapply triple_bind; [apply (same_info_safe_call info)|]. intros call.
    destruct (dict_mem "error" call).
    { eapply triple_bind; [apply keeps_lift|]. intros err.
      eapply triple_bind; [apply (same_info_append_error info)|]. intros ?.
      apply triple_ret. intros s Hs. left. exact Hs. }
    eapply triple_bind; [apply (same_info_read_completion info)|].
    intros [playlist_title song_objects].
    eapply triple_bind; [apply (same_info_tool2 tools info)|]. intros user_id.
    eapply triple_bind; [apply (same_info_tool3 tools info)|].
    intros [playlist_id playlist_name].
    eapply triple_bind.
    { apply keeps_for_fold. intros acc x.
      apply (same_info_search_step tools info). }
    intros track_uris.
    eapply triple_bind; [apply (same_info_tool5 tools info)|]. intros ?.
    intros s Hs. cbn. right.
    exists playlist_name, song_objects, track_uris, playlist_id.
    split; reflexivity. }
  specialize (H st eq_refl). unfold summary_kept_or_written in *.
  destruct (generate_playlist tools playlist_description limit st)
    as [[r| |e] st']; cbn [fst snd].
  - destruct H as [H|(n & s & u & p & Hr & Hp)]; [left; exact H|].
    right. exists n, s, u, p. split; [exact Hr|exact Hp].
  - left. exact H.
  - left. exact H.
Qed.

(* ===================================================================== *)
(** ** Tool exceptions and the error list *)
(* ===================================================================== *)

Section Accounting.
Context {rt : Runtime} {W : Type}.
Variable tools : Tools W.

(** The calls made before the run began. *)
Variable base : list Call.

Local Abbreviation account := (accounted (W := W) base).
Local Abbreviation owed := (pending (W := W) base).

Lemma entry_for_names c entry : entry_for c entry -> names_tool_and_cause entry.
Proof.
  unfold entry_for, names_tool_and_cause.
  destruct (call_outcome c) as [v|e]; [contradiction|].
  intros (d & -> & Ht & Hc).
  exists d, (call_label c), (exn_str e). auto.
Qed.

Lemma recorded_more errs entry c :
  recorded errs c -> recorded (errs ++ [entry]) c.
Proof.
  unfold recorded. destruct (call_outcome c) as [v|e]; [trivial|].
  intros (x & Hin & Hx). exists x. split; [|exact Hx].
  apply in_or_app. left. exact Hin.
Qed.

Lemma accounted_append entry :
  names_tool_and_cause entry -> keeps account (append_error entry).
Proof.
  intros Hentry st [Hnames (new & Hcalls & Hrec)]. cbn. split.
  - apply Forall_app. split; [exact Hnames|]. constructor; [exact Hentry|].
    constructor.
  - exists new. split; [exact Hcalls|].
    eapply Forall_impl; [|exact Hrec]. intros c. apply recorded_more.
Qed.

Lemma accounted_set_playlist_info d :
  keeps account (set_playlist_info d).
Proof. intros st H. exact H. Qed.

(** Appending the record of the pending call settles the account. *)
Lemma pending_settled c entry :
  entry_for c entry ->
  triple (owed c) (append_error entry)
         (fun _ => account) account.
Proof.
  intros Hentry st [Hnames (new & Hcalls & Hrec)]. cbn. split.
  - apply Forall_app. split; [exact Hnames|].
    constructor; [eapply entry_for_names; exact Hentry|]. constructor.
  - exists (new ++ [c])%list. split; [exact Hcalls|].
    apply Forall_app. split.
    + eapply Forall_impl; [|exact Hrec]. intros c'. apply recorded_more.
    + constructor; [|constructor]. unfold recorded.
      unfold entry_for in Hentry.
      destruct (call_outcome c) as [v|e] eqn:Hc; [trivial|].
      exists entry. split; [apply in_or_app; right; left; reflexivity|].
      unfold entry_for. rewrite Hc. exact Hentry.
Qed.

Lemma pending_append {B} c entry (k : unit -> M W B) R :
  entry_for c entry ->
  triple account (k tt) R account ->
  triple (owed c) (bind (append_error entry) k) R account.
Proof.
  intros Hentry Hk.
  eapply triple_bind; [apply pending_settled, Hentry|].
  intros []. exact Hk.
Qed.

(** After [safe_call]: on a result the account is settled; on an error the
    call is pending until the caller appends its record. *)
Lemma accounted_safe_call {B} name f args (k : pydict -> M W B) R :
  (forall v, triple account (k [("result", v)]) R account) ->
  (forall e,
      triple (owed {| call_label := name; call_args := args;
                         call_outcome := Raise e |})
             (k [("error", PDict (error_entry name e))]) R account) ->
  triple account (bind (safe_call name f args) k) R account.
Proof.
  intros Hok Herr st [Hnames (new & Hcalls & Hrec)].
  unfold bind, safe_call. destruct (f args (world st)) as [[v|e] w].
  - apply Hok. cbn. split; [exact Hnames|].
    exists (new ++ [{| call_label := name; call_args := args;
                       call_outcome := Return v |}])%list.
    split; [rewrite Hcalls, app_assoc; reflexivity|].
    apply Forall_app. split; [exact Hrec|].
    constructor; [exact I|constructor].
  - apply Herr. cbn. split; [exact Hnames|].
    exists new. split; [|exact Hrec].
    rewrite Hcalls, app_assoc. reflexivity.
Qed.

Lemma call_item_error x : @call_item W [("error", x)] "error" = ret x.
Proof. reflexivity. Qed.

Lemma call_item_result v : @call_item W [("result", v)] "result" = ret v.
Proof. reflexivity. Qed.

Lemma bind_ret {A B} (a : A) (f : A -> M W B) : bind (ret a) f = f a.
Proof. reflexivity. Qed.

Lemma error_entry_for name args e :
  entry_for {| call_label := name; call_args := args; call_outcome := Raise e |}
            (PDict (error_entry name e)).
Proof.
  unfold entry_for. cbn. exists (error_entry name e).
  repeat split; reflexivity.
Qed.

(** Stages 2 and 3: the call, then [stop_on_error]. *)
Lemma accounted_call_then_stop {B} name f args (k : pydict -> M W B) R :
  (forall v, triple account (k [("result", v)]) R account) ->
  triple account
         (bind (safe_call name f args)
               (fun call => bind (stop_on_error call) (fun _ => k call)))
         R account.
Proof.
  intros Hk. apply accounted_safe_call.
  - intros v.
    change (triple account (k [("result", v)]) R account).
    apply Hk.
  - intros e.
    change (triple
              (owed {| call_label := name; call_args := args;
                          call_outcome := Raise e |})
              (bind (bind (append_error (PDict (error_entry name e)))
                          (fun _ : unit => @st_stop W unit))
                    (fun _ : unit => k [("error", PDict (error_entry name e))]))
              R account).
    apply triple_bind with (Q := fun _ _ => False); [|intros a st []].
    apply pending_append; [apply error_entry_for|].
    intros st H. exact H.
Qed.

Lemma names_no_playlist_id : names_tool_and_cause no_playlist_id_entry.
Proof.
  exists [("tool", PStr "create_playlist");
          ("exception", PStr "no playlist id returned")],
         "create_playlist", "no playlist id returned".
  repeat split; reflexivity.
Qed.

Lemma names_not_found s : names_tool_and_cause (not_found_entry s).
Proof.
  exists [("song", PStr (Song_str s)); ("tool", PStr "search_for_item");
          ("exception", PStr "no track uri found")],
         "search_for_item", "no track uri found".
  repeat split; reflexivity.
Qed.

Lemma names_unexpected e : names_tool_and_cause (unexpected_entry e).
Proof.
  exists [("tool", PStr "add_items_to_playlist_unexpected");
          ("exception", PStr (exn_str e));
          ("traceback", PStr (format_exc e))],
         "add_items_to_playlist_unexpected", (exn_str e).
  repeat split; reflexivity.
Qed.

Lemma accounted_read_completion call description :
  keeps account (read_completion call description).
Proof.
  unfold read_completion, call_item.
  apply keeps_bind; [apply keeps_lift|]. intros result.
  apply keeps_bind; [apply keeps_lift|]. intros content.
  apply keeps_bind; [apply keeps_lift|]. intros [parsed|msg].
  - apply keeps_bind; [apply keeps_lift|]. intros playlist_title.
    apply keeps_bind; [apply keeps_lift|]. intros songs_data.
    apply keeps_bind; [apply keeps_lift|]. intros song_objects.
    apply keeps_ret.
  - apply keeps_ret.
Qed.

Lemma accounted_tool2 : keeps account (tool2_get_user_id tools).
Proof.
  unfold tool2_get_user_id. apply accounted_call_then_stop. intros v.
  apply keeps_bind; [apply keeps_lift|]. intros user_profile.
  apply keeps_bind; [apply keeps_lift|]. intros user_id.
  apply keeps_if; [apply keeps_stop | apply keeps_ret].
Qed.

Lemma accounted_tool3 user_id playlist_title :
  keeps account (tool3_create_playlist tools user_id playlist_title).
Proof.
  unfold tool3_create_playlist.
  apply keeps_bind; [apply keeps_lift|]. intros head.
  apply accounted_call_then_stop. intros v.
  apply keeps_bind; [apply keeps_lift|]. intros playlist_response.
  apply keeps_bind; [apply keeps_lift|]. intros playlist_id.
  apply keeps_if; [|apply keeps_ret].
  apply keeps_bind; [apply accounted_append, names_no_playlist_id|].
  intros _. apply keeps_stop.
Qed.

Lemma song_error_entry_for s name args e :
  exists entry,
    song_error_entry s (PDict (error_entry name e)) = Return entry
    /\ entry_for {| call_label := name; call_args := args;
                    call_outcome := Raise e |} entry.
Proof.
  eexists. split; [reflexivity|].
  unfold entry_for. cbn [call_outcome call_label].
  eexists. split; [reflexivity|]. split; reflexivity.
Qed.

Lemma accounted_search_step track_uris s :
  keeps account (search_step tools track_uris s).
Proof.
  unfold search_step. apply accounted_safe_call.
  - intros v. cbv beta.
    change (dict_mem "error" [("result", v)]) with false. cbv iota.
    apply keeps_bind; [apply keeps_lift|]. intros track_data.
    apply keeps_bind; [apply keeps_lift|]. intros uri.
    apply keeps_if; [apply keeps_ret|].
    apply keeps_bind; [apply accounted_append, names_not_found|].
    intros _. apply keeps_ret.
  - intros e. cbv beta.
    match goal with
    | |- context [dict_mem "error" ?c] =>
        change (dict_mem "error" c) with true
    end.
    cbv iota. rewrite call_item_error, bind_ret.
    destruct (song_error_entry_for
                s "Spotify (search_for_item)"
                [PStr ("track:" ++ py_str (title s) ++ " artist:"
                       ++ py_str (artist s))] e) as (entry & -> & Hentry).
    cbn [lift]. rewrite bind_ret.
    apply pending_append; [exact Hentry|]. apply keeps_ret.
Qed.

Lemma accounted_add_chunk playlist_id u chunk :
  keeps account (add_chunk tools playlist_id u chunk).
Proof.
  unfold add_chunk. apply accounted_safe_call.
  - intros v. cbv beta.
    change (dict_mem "error" [("result", v)]) with false. cbv iota.
    apply keeps_ret.
  - intros e. cbv beta.
    match goal with
    | |- context [dict_mem "error" ?c] =>
        change (dict_mem "error" c) with true
    end.
    cbv iota. rewrite call_item_error, bind_ret.
    apply pending_settled, error_entry_for.
Qed.

Lemma accounted_tool5 playlist_id track_uris :
  keeps account (tool5_add_tracks tools playlist_id track_uris).
Proof.
  unfold tool5_add_tracks. apply keeps_if; [|apply keeps_ret].
  apply keeps_try_except.
  - apply keeps_bind; [apply keeps_lift|]. intros chunks.
    apply keeps_for_fold. intros acc x. apply accounted_add_chunk.
  - intros e. apply accounted_append, names_unexpected.
Qed.

(** From the reset of the error list on, the whole block keeps the
    account. *)
Lemma accounted_generate_playlist playlist_description limit :
  triple (fun st => calls st = base)
         (generate_playlist tools playlist_description limit)
         (fun _ => account) account.
Proof.
  unfold generate_playlist.
  apply triple_bind with (Q := fun _ => account).
  { intros st Hst. cbn. split; [constructor|].
    exists []. split; [rewrite app_nil_r; exact Hst | constructor]. }
  intros _. apply keeps_if; [apply keeps_ret|].
  apply accounted_safe_call.
  - intros v. cbv beta.
    change (dict_mem "error" [("result", v)]) with false. cbv iota.
    apply keeps_bind; [apply accounted_read_completion|].
    intros [playlist_title song_objects].
    apply keeps_bind; [apply accounted_tool2|]. intros user_id.
    apply keeps_bind; [apply accounted_tool3|].
    intros [playlist_id playlist_name].
    apply keeps_bind.
    { apply keeps_for_fold. intros acc x. apply accounted_search_step. }
    intros track_uris.
    apply keeps_bind; [apply accounted_tool5|]. intros _.
    apply keeps_bind; [apply accounted_set_playlist_info|]. intros _.
    apply keeps_ret.
  - intros e. cbv beta.
    match goal with
    | |- context [dict_mem "error" ?c] =>
        change (dict_mem "error" c) with true
    end.
    cbv iota. rewrite call_item_error, bind_ret.
    apply pending_append; [apply error_entry_for|]. apply keeps_ret.
Qed.

End Accounting.

(** A request failure is no exception to the caller: each tool, called with
    the arguments it declares, hands back a dict with a fixed text, and the
    cause stays behind. *)
Lemma request_failure_is_returned {rt : Runtime} {W : Type}
    (send : Request -> W -> http_result * W) (req : Request) (text : string)
    (w w' : W) (e : exn) :
  send req w = (HttpRaised e, w') ->
  exn_class_of e = RequestException ->
  fetch send req text w = (Return (PDict [("error", PStr text)]), w').
Proof.
  intros Hsend Hclass. unfold fetch. rewrite Hsend, Hclass. reflexivity.
Qed.

(** C1, on the code. The HTTP exchange of the language-model call fails
    (connection, status or body: a [RequestException] with cause [e]).  The
    run makes that one call, which returns the tool's fixed text instead of
    raising, and the run ends with an empty error list: the failure has no
    entry, and its cause is in none. *)
Theorem C1_request_failure_leaves_no_entry {rt : Runtime} {W : Type}
    (send : Request -> W -> http_result * W) (openai_api_key : pyval)
    (playlist_description : string) (limit : Z)
    (st : State W) (e : exn) (w' : W) :
  truthy (PStr playlist_description) = true ->
  truthy (PInt limit) = true ->
  send (chat_request openai_api_key (messages playlist_description limit))
       (world st) = (HttpRaised e, w') ->
  exn_class_of e = RequestException ->
  let st' := snd (generate_playlist (repo_tools send openai_api_key)
                                    playlist_description limit st) in
  errors st' = []
  /\ map call_outcome (skipn (List.length (calls st)) (calls st'))
     = [Return (PDict [("error", PStr chat_error_text)])].
Proof.
  intros Hd Hl Hsend Hclass.
  unfold generate_playlist, bind, set_errors, safe_call.
  rewrite Hd, Hl. cbn [negb orb world errors playlist_info calls].
  cbn [repo_tools create_chat_completion repo_create_chat_completion].
  rewrite (request_failure_is_returned send _ chat_error_text _ w' e Hsend Hclass).
  cbn. rewrite skipn_app, skipn_all, Nat.sub_diag. repeat split; reflexivity.
Qed.

(** A refused connection on the first click. *)
Lemma C1_request_failure_witness :
  let st' := snd (generate_playlist (rt := Examples.runtime)
                    Examples.wired_tools "songs about rain" 3
                    (Examples.fresh [HttpRaised Examples.refused])) in
  errors st' = []
  /\ map call_outcome (skipn (List.length (@nil Call)) (calls st'))
     = [Return (PDict [("error", PStr chat_error_text)])].
Proof.
  apply (C1_request_failure_leaves_no_entry
           (rt := Examples.runtime) Examples.wire_send PNone
           "songs about rain" 3
           (Examples.fresh [HttpRaised Examples.refused])
           Examples.refused []);
    reflexivity.
Defined.

(* ===================================================================== *)
(** ** Stage 1: when the language-model call fails *)
(* ===================================================================== *)

(** X28. The path app.py writes for a failed call: the callable raises, the
    error is recorded once under the label of the call, the song list is empty,
    nothing else is called, the summary is left alone and the script goes on
    to its display lines. *)
Lemma openai_exception_is_recorded {rt : Runtime} {W : Type}
    (tools : Tools W) (playlist_description : string) (limit : Z)
    (st : State W) (e : exn) (w' : W) :
  truthy (PStr playlist_description) = true ->
  truthy (PInt limit) = true ->
  create_chat_completion tools [messages playlist_description limit] (world st)
  = (Raise e, w') ->
  generate_playlist tools playlist_description limit st
  = (Done (Some []),
     {| playlist_info := playlist_info st;
        errors := [PDict (error_entry "OpenAI (create_chat_completion)" e)];
        world := w';
        calls := (calls st
                  ++ [{| call_label := "OpenAI (create_chat_completion)";
                         call_args := [messages playlist_description limit];
                         call_outcome := Raise e |}])%list |}).
Proof.
  intros Hd Hl Hcall.
  unfold generate_playlist, bind, set_errors, safe_call.
  rewrite Hd, Hl. cbn [negb orb world errors playlist_info calls].
  rewrite Hcall. reflexivity.
Qed.

(** C3, on the code. The language-model exchange fails (connection, HTTP
    status or body): the tool returns its error dict, [safe_call] passes it
    on as a result, and reading [choices] from it raises a [KeyError] that
    nothing catches.  The run ends there with an empty error list. *)
Theorem C3_request_failure_ends_run_unrecorded {rt : Runtime} {W : Type}
    (send : Request -> W -> http_result * W) (openai_api_key : pyval)
    (playlist_description : string) (limit : Z)
    (st : State W) (e : exn) (w' : W) :
  truthy (PStr playlist_description) = true ->
  truthy (PInt limit) = true ->
  send (chat_request openai_api_key (messages playlist_description limit))
       (world st) = (HttpRaised e, w') ->
  exn_class_of e = RequestException ->
  generate_playlist (repo_tools send openai_api_key)
                    playlist_description limit st
  = (Crashed (Exn KeyError "'choices'"),
     {| playlist_info := playlist_info st;
        errors := [];
        world := w';
        calls := (calls st
                  ++ [{| call_label := "OpenAI (create_chat_completion)";
                         call_args := [messages playlist_description limit];
                         call_outcome :=
                           Return (PDict [("error", PStr chat_error_text)]) |}])%list
     |}).
Proof.
  intros Hd Hl Hsend Hclass.
  unfold generate_playlist, bind, set_errors, safe_call.
  rewrite Hd, Hl. cbn [negb orb world errors playlist_info calls].
  cbn [repo_tools create_chat_completion repo_create_chat_completion].
  rewrite (request_failure_is_returned send _ chat_error_text _ w' e Hsend Hclass).
  reflexivity.
Qed.

(** A refused connection on the first click. *)
Lemma C3_request_failure_witness :
  generate_playlist (rt := Examples.runtime) Examples.wired_tools
                    "songs about rain" 3
                    (Examples.fresh [HttpRaised Examples.refused])
  = (Crashed (Exn KeyError "'choices'"),
     {| playlist_info := [];
        errors := [];
        world := [];
        calls := [{| call_label := "OpenAI (create_chat_completion)";
                     call_args := [messages "songs about rain" 3];
                     call_outcome :=
                       Return (PDict [("error", PStr chat_error_text)]) |}]
     |}).
Proof.
  apply (C3_request_failure_ends_run_unrecorded
           (rt := Examples.runtime) Examples.wire_send PNone
           "songs about rain" 3
           (Examples.fresh [HttpRaised Examples.refused])
           Examples.refused []);
    reflexivity.
Defined.

(* ===================================================================== *)
(** ** Stages 2 and 3: a response without an identifier *)
(* ===================================================================== *)

(** Stage 2 with a profile that has no usable [id], for tools whose
    profile call returns one: the script stops, and the error list is as it
    was.  (The repository's tool, called as app.py calls it, never returns:
    see [profile_stage_always_stops].) *)
Lemma missing_user_id_is_not_recorded {rt : Runtime} {W : Type}
    (tools : Tools W) (st : State W) (profile : pydict) (w' : W) :
  get_current_user_profile tools [] (world st) = (Return (PDict profile), w') ->
  truthy (dict_get "id" profile) = false ->
  tool2_get_user_id tools st
  = (Stopped,
     after_call st w' {| call_label := "Spotify (get_current_user_profile)";
                         call_args := [];
                         call_outcome := Return (PDict profile) |}).
Proof.
  intros Hcall Hid.
  unfold tool2_get_user_id, bind, safe_call. rewrite Hcall.
  cbn. fold (dict_get "id" profile). rewrite Hid. reflexivity.
Qed.

(** X29. Stage 3 with a playlist response that has no usable [id]: the
    script stops too, after appending an entry that says so. *)
Lemma missing_playlist_id_is_recorded {rt : Runtime} {W : Type}
    (tools : Tools W) (st : State W) (user_id : pyval) (playlist_title : string)
    (response : pydict) (w' : W) :
  create_playlist tools
    [user_id; PStr ("AI: " ++ str_prefix 40 playlist_title)] (world st)
  = (Return (PDict response), w') ->
  truthy (dict_get "id" response) = false ->
  tool3_create_playlist tools user_id (PStr playlist_title) st
  = (Stopped,
     {| playlist_info := playlist_info st;
        errors := (errors st ++ [no_playlist_id_entry])%list;
        world := w';
        calls := (calls st
                  ++ [{| call_label := "Spotify (create_playlist)";
                         call_args :=
                           [user_id;
                            PStr ("AI: " ++ str_prefix 40 playlist_title)];
                         call_outcome := Return (PDict response) |}])%list |}).
Proof.
  intros Hcall Hid.
  unfold tool3_create_playlist, bind, safe_call.
  cbn [py_slice_40 lift ret py_str world]. rewrite Hcall.
  cbn. fold (dict_get "id" response). rewrite Hid. reflexivity.
Qed.

(* ===================================================================== *)
(** ** Stage 5: the Batch Adder *)
(* ===================================================================== *)

Section BatchAdder.
Context {rt : Runtime} {W : Type}.
Variable tools : Tools W.
Variable playlist_id : pyval.

Lemma after_no_calls (st : State W) : after_calls st ([], world st) = st.
Proof. destruct st. unfold after_calls. cbn. rewrite !app_nil_r. reflexivity. Qed.

(** One turn of the loop: the tool is called, and the turn falls through
    whatever the call did. *)
Lemma add_chunk_once chunk st :
  add_chunk tools playlist_id tt chunk st
  = (Done tt,
     after_calls st (call_each add_label (add_items_to_playlist tools)
                               [[playlist_id; PList chunk]] (world st))).
Proof.
  unfold add_chunk, bind, safe_call, after_calls. cbn [call_each].
  destruct (add_items_to_playlist tools [playlist_id; PList chunk] (world st))
    as [[v|e] w]; cbn; rewrite ?app_nil_r; reflexivity.
Qed.

Lemma add_chunks_all chunks :
  forall st,
    for_fold (add_chunk tools playlist_id) chunks tt st
    = (Done tt,
       after_calls st (call_each add_label (add_items_to_playlist tools)
                                 (add_args playlist_id chunks) (world st))).
Proof.
  induction chunks as [|chunk chunks IH]; intros st; cbn [for_fold].
  - cbn. rewrite after_no_calls. reflexivity.
  - unfold bind. rewrite add_chunk_once, IH.
    cbn [add_args map call_each].
    destruct (add_items_to_playlist tools [playlist_id; PList chunk] (world st))
      as [o w1].
    cbn [after_calls fst snd world].
    fold (add_args playlist_id chunks).
    destruct (call_each add_label (add_items_to_playlist tools)
                        (add_args playlist_id chunks) w1) as [cs w2].
    unfold after_calls. cbn [fst snd playlist_info errors calls world].
    rewrite <- !app_assoc. unfold failure_entries. cbn [flat_map].
    rewrite app_nil_r. reflexivity.
Qed.

Lemma chunked_batches (track_uris : list pyval) :
  exists chunks, chunked track_uris SPOTIFY_ADD_BATCH_SIZE = Return chunks.
Proof.
  eexists. unfold chunked, py_range0.
  change (SPOTIFY_ADD_BATCH_SIZE =? 0)%Z with false.
  change (SPOTIFY_ADD_BATCH_SIZE <? 0)%Z with false.
  reflexivity.
Qed.

(** Stage 5 calls the tool once for every chunk. *)
Lemma tool5_calls_each_chunk (track_uris : list pyval) (st : State W) :
  exists chunks,
    chunked track_uris SPOTIFY_ADD_BATCH_SIZE = Return chunks
    /\ tool5_add_tracks tools playlist_id track_uris st
       = (Done tt,
          after_calls st (call_each add_label (add_items_to_playlist tools)
                                    (add_args playlist_id chunks) (world st))).
Proof.
  destruct (chunked_batches track_uris) as [chunks Hchunks].
  exists chunks. split; [exact Hchunks|]. unfold tool5_add_tracks.
  destruct track_uris as [|uri track_uris].
  - assert (chunks = []) as -> by (cbv in Hchunks; congruence).
    cbn. rewrite after_no_calls. reflexivity.
  - cbn [truthy]. unfold try_except, bind. rewrite Hchunks. cbn [lift ret].
    rewrite add_chunks_all. reflexivity.
Qed.

(** A call that returns leaves no entry, whatever it returns. *)
Lemma returned_value_is_not_recorded chunk st v w :
  add_items_to_playlist tools [playlist_id; PList chunk] (world st)
  = (Return v, w) ->
  errors (snd (add_chunk tools playlist_id tt chunk st)) = errors st.
Proof.
  intros H. rewrite add_chunk_once. cbn [call_each]. rewrite H.
  cbn. apply app_nil_r.
Qed.

End BatchAdder.

(** The repository's tool, called with the two arguments stage 5 passes,
    fails at every call, before any request is sent. *)
Lemma add_calls_as_called {rt : Runtime} {W : Type}
    (send : Request -> W -> http_result * W) (openai_api_key : pyval)
    (playlist_id : pyval) (chunks : list (list pyval)) (w : W) :
  call_each add_label
            (add_items_to_playlist (repo_tools send openai_api_key))
            (add_args playlist_id chunks) w
  = (map (fun chunk =>
            {| call_label := add_label;
               call_args := [playlist_id; PList chunk];
               call_outcome := Raise (missing_token "add_items_to_playlist") |})
         chunks, w).
Proof.
  induction chunks as [|chunk chunks IH]; [reflexivity|].
  cbn [add_args map call_each]. fold (add_args playlist_id chunks).
  change (add_items_to_playlist (repo_tools send openai_api_key)
            [playlist_id; PList chunk] w)
    with (@Raise pyval (missing_token "add_items_to_playlist"), w).
  cbv beta iota. rewrite IH. reflexivity.
Qed.


(** With stand-ins for the tool: two hundred and fifty identifiers make
    three chunks; the second call raises, the third is made all the same,
    and the error list gains the one entry of the second. *)
Lemma middle_chunk_fails_third_is_submitted :
  let uris := map (fun n => PInt (Z.of_nat n)) (seq 0 250) in
  let boom := Exn OtherException "boom" in
  let run := tool5_add_tracks (rt := Examples.runtime) Examples.scripted_tools
               (PStr "p1") uris
               (Examples.fresh [Return PNone; Raise boom; Return PNone]) in
  fst run = Done tt
  /\ map call_outcome (calls (snd run)) = [Return PNone; Raise boom; Return PNone]
  /\ map (fun c => match call_args c with
                   | [_; PList chunk] => List.length chunk
                   | _ => 0
                   end) (calls (snd run)) = [100; 100; 50]
  /\ errors (snd run)
     = [PDict (error_entry (rt := Examples.runtime) add_label boom)].
Proof. vm_compute. repeat split; reflexivity. Qed.

(** With the repository's tool: two hundred and fifty identifiers, three
    calls, three entries. *)
Lemma three_chunks_three_entries :
  let uris := map (fun n => PInt (Z.of_nat n)) (seq 0 250) in
  let run := tool5_add_tracks (rt := Examples.runtime) Examples.wired_tools
               (PStr "p1") uris (Examples.fresh []) in
  fst run = Done tt
  /\ map (fun c => match call_args c with
                   | [_; PList chunk] => List.length chunk
                   | _ => 0
                   end) (calls (snd run)) = [100; 100; 50]
  /\ errors (snd run)
     = repeat (PDict (error_entry (rt := Examples.runtime) add_label
                                  (missing_token "add_items_to_playlist"))) 3.
Proof. vm_compute. repeat split; reflexivity. Qed.

(* ===================================================================== *)
(** ** The requested count and the songs of a run *)
(* ===================================================================== *)

(** The only cap in app.py is the parser's: given an array of three and the
    count two, it stops at two.  The run does not call the parser. *)
Lemma parser_caps_the_same_songs :
  parse_openai_song_list
    (rt := Examples.runtime)
    ("[" ++ Examples.song_json "A" "X" ++ "," ++ Examples.song_json "B" "Y"
     ++ "," ++ Examples.song_json "C" "Z" ++ "]") 2
  = Return [{| title := PStr "A"; artist := PStr "X" |};
            {| title := PStr "B"; artist := PStr "Y" |}].
Proof. reflexivity. Qed.

(* ===================================================================== *)
(** ** The tools as app.py calls them *)
(* ===================================================================== *)

Section AsCalled.
Context {rt : Runtime} {W : Type}.
Variable send : Request -> W -> http_result * W.
Variable openai_api_key : pyval.

Local Abbreviation tools := (repo_tools send openai_api_key).

(** X26. Each Spotify tool declares a [spotify_token] parameter that app.py
    does not pass: the call raises before any request is sent. *)
Lemma spotify_tools_raise_as_called (w : W) (user_id name q pid uris : pyval) :
  get_current_user_profile tools [] w
  = (Raise (missing_token "get_current_user_profile"), w)
  /\ create_playlist tools [user_id; name] w
     = (Raise (missing_token "create_playlist"), w)
  /\ search_for_item tools [q] w
     = (Raise (missing_token "search_for_item"), w)
  /\ add_items_to_playlist tools [pid; uris] w
     = (Raise (missing_token "add_items_to_playlist"), w).
Proof. repeat split; reflexivity. Qed.

(** So stage 2 always takes its error branch: the [TypeError] is recorded
    and the script stops. *)
Lemma profile_stage_always_stops (st : State W) :
  tool2_get_user_id tools st
  = (Stopped,
     {| playlist_info := playlist_info st;
        errors := (errors st
                   ++ [PDict (error_entry
                                "Spotify (get_current_user_profile)"
                                (missing_token "get_current_user_profile"))])%list;
        world := world st;
        calls := (calls st
                  ++ [{| call_label := "Spotify (get_current_user_profile)";
                         call_args := [];
                         call_outcome :=
                           Raise (missing_token "get_current_user_profile") |}])%list
     |}).
Proof. reflexivity. Qed.

(** X27. With these tools no run writes a summary: whatever the services
    answer, the session's summary is the one the run found. *)
Lemma no_run_writes_the_summary (playlist_description : string) (limit : Z)
    (st : State W) :
  playlist_info (snd (generate_playlist tools playlist_description limit st))
  = playlist_info st.
Proof.
  set (info := playlist_info st).
  assert (H : keeps (fun s => playlist_info s = info)
                    (generate_playlist tools playlist_description limit)).
  { unfold generate_playlist.
    apply keeps_bind; [apply (same_info_set_errors info)|]. intros _.
    apply keeps_if; [apply keeps_ret|].
    apply keeps_bind; [apply (same_info_safe_call info)|]. intros call.
    apply keeps_if.
    { apply keeps_bind; [apply keeps_lift|]. intros err.
      apply keeps_bind; [apply (same_info_append_error info)|]. intros _.
      apply keeps_ret. }
    apply keeps_bind; [apply (same_info_read_completion info)|].
    intros [playlist_title song_objects].
    apply triple_bind with (Q := fun _ _ => False); [|intros a s []].
    intros s Hs. rewrite profile_stage_always_stops. exact Hs. }
  specialize (H st eq_refl).
  destruct (generate_playlist tools playlist_description limit st)
    as [[r| |e] st']; exact H.
Qed.

End AsCalled.

(* ===================================================================== *)
(** ** Further properties: [safe_call] and [chunked] *)
(* ===================================================================== *)

(** X1. Whatever the tools do, after a run every entry of the error list
    names a tool and a cause, and every call of the run that raised an
    [Exception] (language-model call, profile fetch, playlist creation,
    track search, add-tracks) has an entry carrying the label it was called
    under and the text of the exception. *)
Theorem raised_exceptions_are_recorded {rt : Runtime} {W : Type}
    (tools : Tools W) (playlist_description : string) (limit : Z)
    (st : State W) :
  let st' := snd (generate_playlist tools playlist_description limit st) in
  Forall names_tool_and_cause (errors st')
  /\ exists new,
       calls st' = (calls st ++ new)%list
       /\ Forall (recorded (errors st')) new.
Proof.
  pose proof (accounted_generate_playlist
                tools (calls st) playlist_description limit st eq_refl) as H.
  cbn zeta.
  destruct (generate_playlist tools playlist_description limit st)
    as [[r| |e] st']; exact H.
Qed.

(** For a callable that returns or raises an [Exception], [safe_call]
    returns a dict that holds exactly one of the keys [result] and [error],
    logs the one call, and leaves the error list and the summary as they
    were (recording the error is the caller's business). *)
Lemma safe_call_returns_one_tag {rt : Runtime} {W : Type}
    (tool_name : string) (func : callable W) (args : list pyval)
    (st : State W) :
  exists call st',
    safe_call tool_name func args st = (Done call, st')
    /\ dict_mem "result" call = negb (dict_mem "error" call)
    /\ (dict_mem "error" call = true <->
        exists e, fst (func args (world st)) = Raise e)
    /\ errors st' = errors st
    /\ playlist_info st' = playlist_info st
    /\ world st' = snd (func args (world st))
    /\ calls st'
       = (calls st ++ [{| call_label := tool_name; call_args := args;
                          call_outcome := fst (func args (world st)) |}])%list.
Proof.
  unfold safe_call. destruct (func args (world st)) as [[v|e] w]; cbn [fst snd].
  - eexists _, _. split; [reflexivity|]. cbn. repeat split; try reflexivity.
    + discriminate.
    + intros [e He]. discriminate He.
  - eexists _, _. split; [reflexivity|]. cbn. repeat split; try reflexivity.
    intros _. exists e. reflexivity.
Qed.

(** [chunked] with a positive size, written out. *)
Lemma chunked_positive {A} (l : list A) (B : Z) :
  (0 < B)%Z ->
  chunked l B
  = Return (map (chunk_at l (Z.to_nat B))
                (range_from (List.length l) 0 (List.length l) (Z.to_nat B))).
Proof.
  intros HB. unfold chunked, py_range0.
  destruct (Z.eqb_spec B 0) as [|_]; [lia|].
  destruct (Z.ltb_spec B 0) as [|_]; [lia|].
  reflexivity.
Qed.

(** X2. The sizes that are not positive: size 0 raises the [ValueError] of
    [range], and a negative size yields no chunk at all, whatever the list
    holds. *)
Theorem chunked_size_not_positive {A} (l : list A) (B : Z) :
  (B <= 0)%Z ->
  chunked l B
  = if (B =? 0)%Z
    then Raise (Exn ValueError "range() arg 3 must not be zero")
    else Return [].
Proof.
  intros HB. unfold chunked, py_range0.
  destruct (Z.eqb_spec B 0) as [|Hne]; [reflexivity|].
  destruct (Z.ltb_spec B 0) as [_|]; [reflexivity|lia].
Qed.

Lemma chunked_size_not_positive_witness :
  chunked [1; 2; 3] (-2)%Z = Return []
  /\ chunked [1; 2; 3] 0%Z
     = Raise (Exn ValueError "range() arg 3 must not be zero").
Proof.
  split.
  - apply (chunked_size_not_positive [1; 2; 3] (-2)%Z). lia.
  - apply (chunked_size_not_positive [1; 2; 3] 0%Z). lia.
Defined.

(** X3. With a positive size no chunk is empty, and every chunk but the last
    holds exactly [size] elements: the Batch Adder never submits an empty
    batch, and only its last batch can be short. *)
Theorem chunked_chunks_are_full {A} (l : list A) (B : Z)
    (chunks : list (list A)) :
  (0 < B)%Z ->
  chunked l B = Return chunks ->
  Forall (fun c => c <> []) chunks
  /\ forall k c, S k < List.length chunks -> nth_error chunks k = Some c ->
                 Z.of_nat (List.length c) = B.
Proof.
  intros HB Hchunks.
  assert (Hstep : 0 < Z.to_nat B) by lia.
  rewrite (chunked_positive l B HB) in Hchunks.
  injection Hchunks as <-.
  set (step := Z.to_nat B) in *.
  set (starts := range_from (List.length l) 0 (List.length l) step).
  pose proof (length_range_from A l step Hstep (List.length l) 0
                ltac:(lia)) as [_ Hleast].
  cbn zeta in Hleast. fold starts in Hleast.
  assert (Hnth : forall k c, k < List.length starts ->
             nth_error (map (chunk_at l step) starts) k = Some c ->
             c = firstn step (skipn (k * step) l)
             /\ k * step < List.length l).
  { intros k c Hk Hc. rewrite nth_error_map in Hc.
    unfold starts in Hc, Hk.
    rewrite (nth_range_from A l step Hstep) in Hc by exact Hk.
    cbn [option_map] in Hc. injection Hc as <-.
    rewrite (chunk_at_firstn A l step Hstep). split; [reflexivity|].
    fold starts in Hk. specialize (Hleast ltac:(lia)). nia. }
  split.
  - apply Forall_forall. intros c Hc.
    apply In_nth_error in Hc. destruct Hc as [k Hk].
    assert (Hlt : k < List.length starts).
    { rewrite <- (length_map (chunk_at l step)).
      apply nth_error_Some. congruence. }
    destruct (Hnth k c Hlt Hk) as [-> Hin].
    intros Hnil. apply (f_equal (@List.length A)) in Hnil.
    rewrite length_firstn, length_skipn in Hnil. cbn in Hnil. lia.
  - intros k c Hk Hc. rewrite length_map in Hk.
    destruct (Hnth k c ltac:(lia) Hc) as [-> _].
    rewrite length_firstn, length_skipn.
    specialize (Hleast ltac:(lia)). nia.
Qed.

(** Five identifiers in batches of two. *)
Lemma chunked_chunks_are_full_witness :
  Forall (fun c => c <> []) [[1; 2]; [3; 4]; [5]]
  /\ forall k c, S k < 3 -> nth_error [[1; 2]; [3; 4]; [5]] k = Some c ->
                 Z.of_nat (List.length c) = 2%Z.
Proof.
  apply (chunked_chunks_are_full [1; 2; 3; 4; 5] 2%Z [[1; 2]; [3; 4]; [5]]);
    [lia | reflexivity].
Defined.

(* ===================================================================== *)
(** ** Further properties: the parser and the extractor *)
(* ===================================================================== *)

Lemma songs_of_length {rt : Runtime} (items : list pyval) :
  List.length (songs_of items) <= List.length items.
Proof.
  induction items as [|item items IH]; [apply Nat.le_refl|].
  rewrite songs_of_cons, length_app. cbn [List.length].
  assert (List.length (parse_step [] item) <= 1).
  { unfold parse_step. destruct item; cbn; try lia.
    destruct (negb (truthy (item_title d)) || negb (truthy (item_artist d)));
      cbn; lia. }
  lia.
Qed.

(** X4. The cap of the parser: for a limit that is not negative and any
    array, whatever its items, the parser returns at most [limit] Songs, and
    never more Songs than the array has items. *)
Theorem parser_respects_the_limit {rt : Runtime}
    (raw_content : string) (limit : Z) (parsed : list pyval) :
  (0 <= limit)%Z ->
  json_loads raw_content = inl (PList parsed) ->
  exists songs,
    parse_openai_song_list raw_content limit = Return songs
    /\ (Z.of_nat (List.length songs) <= limit)%Z
    /\ List.length songs <= List.length parsed.
Proof.
  intros Hlimit Hjson. unfold parse_openai_song_list. rewrite Hjson.
  eexists. split; [reflexivity|].
  fold (songs_of (py_slice_to parsed limit)).
  pose proof (songs_of_length (py_slice_to parsed limit)) as Hlen.
  unfold py_slice_to in *.
  destruct (Z.ltb_spec limit 0) as [|_]; [lia|].
  rewrite length_firstn in Hlen. lia.
Qed.

(** Three items, limit 2. *)
Lemma parser_respects_the_limit_witness :
  exists songs,
    parse_openai_song_list
      (rt := Examples.runtime)
      ("[" ++ Examples.song_json "A" "X" ++ "," ++ Examples.song_json "B" "Y"
       ++ "," ++ Examples.song_json "C" "Z" ++ "]") 2
    = Return songs
    /\ (Z.of_nat (List.length songs) <= 2)%Z
    /\ List.length songs <= 3.
Proof.
  apply (parser_respects_the_limit
           (rt := Examples.runtime) _ 2
           [PDict [("title", PStr "A"); ("artist", PStr "X")];
            PDict [("title", PStr "B"); ("artist", PStr "Y")];
            PDict [("title", PStr "C"); ("artist", PStr "Z")]]);
    [lia | reflexivity].
Defined.

(** X5. A negative limit is a slice from the end, as in Python: with limit
    [-k] the parser reads all the items but the last [k], where a caller may
    have expected none. *)
Theorem parser_negative_limit_drops_from_the_end {rt : Runtime}
    (raw_content : string) (k : nat) (parsed : list pyval) :
  0 < k ->
  json_loads raw_content = inl (PList parsed) ->
  parse_openai_song_list raw_content (- Z.of_nat k)
  = Return (songs_of (firstn (List.length parsed - k) parsed)).
Proof.
  intros Hk Hjson. unfold parse_openai_song_list, py_slice_to. rewrite Hjson.
  destruct (Z.ltb_spec (- Z.of_nat k) 0) as [_|]; [|lia].
  rewrite Z.opp_involutive, Nat2Z.id. reflexivity.
Qed.

Lemma parser_negative_limit_witness :
  parse_openai_song_list
    (rt := Examples.runtime)
    ("[" ++ Examples.song_json "A" "X" ++ "," ++ Examples.song_json "B" "Y"
     ++ "," ++ Examples.song_json "C" "Z" ++ "]") (-1)
  = Return [{| title := PStr "A"; artist := PStr "X" |};
            {| title := PStr "B"; artist := PStr "Y" |}].
Proof.
  apply (parser_negative_limit_drops_from_the_end
           (rt := Examples.runtime) _ 1
           [PDict [("title", PStr "A"); ("artist", PStr "X")];
            PDict [("title", PStr "B"); ("artist", PStr "Y")];
            PDict [("title", PStr "C"); ("artist", PStr "Z")]]);
    [lia | reflexivity].
Defined.

(** X6. Whenever the extractor returns, the response had the shape
    [first_uri] describes and the value is the one read off it: None, or the
    [uri] of the first item.  On every other response it raises; it never
    returns anything taken from a later item. *)
Theorem extractor_returns_only_on_shape (r v : pyval) :
  extract_first_track_uri r = Return v -> first_uri r v.
Proof.
  unfold extract_first_track_uri.
  destruct (truthy r) eqn:Hr; cbn [negb].
  2: { intros H. injection H as <-. apply no_response, Hr. }
  destruct r as [| | | | |l|d]; try (cbn; discriminate).
  cbn [py_get obind]. fold (dict_get "tracks" d).
  destruct (truthy (dict_get "tracks" d)) eqn:Ht; cbn [negb].
  2: { intros H. injection H as <-. apply no_tracks, Ht. }
  destruct (dict_get "tracks" d) as [| | | | |l|t] eqn:Htracks;
    try (cbn; discriminate).
  cbn [py_get obind].
  destruct (truthy (dict_get_default "items" (PList []) t)) eqn:Hi; cbn [negb].
  2: { intros H. injection H as <-. eapply no_items; [exact Htracks|exact Hi]. }
  assert (Hitems : dict_get "items" t = dict_get_default "items" (PList []) t).
  { unfold dict_get, dict_get_default in *.
    destruct (assoc "items" t); [reflexivity|discriminate Hi]. }
  destruct (dict_get_default "items" (PList []) t) as [| | | |s|l|d'] eqn:Hv;
    try (cbn; discriminate).
  - cbn [py_item0 obind]. destruct (split_chars s); cbn; discriminate.
  - destruct l as [|first rest]; [discriminate Hi|].
    cbn [py_item0 obind].
    destruct first as [| | | | |l'|item]; try (cbn; discriminate).
    cbn [py_get]. intros H. injection H as <-.
    eapply first_item; [exact Htracks|exact Hitems].
Qed.

Lemma extractor_returns_only_on_shape_witness :
  first_uri (PDict [("tracks", PDict [("items", PList [PDict [("id", PStr "7")];
                                                       PDict [("uri", PStr "u2")]])])])
            PNone.
Proof.
  apply (extractor_returns_only_on_shape
           (PDict [("tracks",
                    PDict [("items", PList [PDict [("id", PStr "7")];
                                            PDict [("uri", PStr "u2")]])])])
           PNone).
  reflexivity.
Defined.

(* ===================================================================== *)
(** ** Further properties: stripped text *)
(* ===================================================================== *)

Lemma split_chars_head s :
  starts_with_continuation (hd EmptyString (split_chars s))
  = starts_with_continuation s.
Proof.
  destruct s as [|c s]; [reflexivity|]. cbn [split_chars].
  destruct (split_chars s) as [|ch chs]; [reflexivity|].
  destruct (starts_with_continuation ch); reflexivity.
Qed.

Lemma split_chars_nil s : split_chars s = [] -> s = EmptyString.
Proof.
  destruct s as [|c s]; [reflexivity|]. cbn [split_chars].
  destruct (split_chars s) as [|ch chs]; [discriminate|].
  destruct (starts_with_continuation ch); discriminate.
Qed.

Lemma split_chars_grouped s : grouped (split_chars s).
Proof.
  induction s as [|c s IH]; [exact I|]. cbn [split_chars].
  destruct (split_chars s) as [|ch chs]; [split; [reflexivity|constructor]|].
  destruct IH as [Hch Hchs].
  destruct (starts_with_continuation ch) eqn:Hc.
  - split; [|exact Hchs]. destruct ch as [|c' k]; [discriminate|].
    cbn in Hc, Hch |- *. rewrite Hc, Hch. reflexivity.
  - split; [reflexivity|]. constructor; [split; assumption|exact Hchs].
Qed.

Lemma split_continuation k t :
  all_continuation k = true -> k <> EmptyString ->
  starts_with_continuation (hd EmptyString (split_chars t)) = false ->
  split_chars (k ++ t) = k :: split_chars t.
Proof.
  induction k as [|c k IH]; [congruence|]. intros Hk _ Ht.
  cbn in Hk. apply andb_true_iff in Hk as [Hc Hk].
  cbn [append split_chars]. destruct k as [|c' k'].
  - cbn [append]. destruct (split_chars t) as [|ch chs]; [reflexivity|].
    cbn [hd] in Ht. rewrite Ht. reflexivity.
  - rewrite IH by (try assumption; discriminate).
    cbn in Hk |- *. apply andb_true_iff in Hk as [-> _]. reflexivity.
Qed.

Lemma split_char ch t :
  is_char ch = true ->
  starts_with_continuation (hd EmptyString (split_chars t)) = false ->
  split_chars (ch ++ t) = ch :: split_chars t.
Proof.
  destruct ch as [|c k]; [discriminate|]. cbn [is_char]. intros Hk Ht.
  cbn [append split_chars]. destruct k as [|c' k'].
  - cbn [append]. destruct (split_chars t) as [|x xs]; [reflexivity|].
    cbn [hd] in Ht. rewrite Ht. reflexivity.
  - rewrite split_continuation by (try assumption; discriminate).
    cbn in Hk |- *. apply andb_true_iff in Hk as [-> _]. reflexivity.
Qed.

Lemma split_join_opening chs :
  Forall (fun x => is_char x = true
                   /\ starts_with_continuation x = false) chs ->
  split_chars (join_chars chs) = chs.
Proof.
  induction 1 as [|ch chs [Hch Hopen] Hall IH]; [reflexivity|].
  cbn [join_chars fold_right]. fold (join_chars chs).
  rewrite split_char; [rewrite IH; reflexivity|exact Hch|].
  rewrite IH. destruct Hall as [|x xs [_ Hx] _]; [reflexivity|exact Hx].
Qed.

(** Joining the characters of a text and reading them again gives the same
    characters. *)
Lemma split_join chs : grouped chs -> split_chars (join_chars chs) = chs.
Proof.
  destruct chs as [|ch chs]; [reflexivity|]. intros [Hch Hall].
  cbn [join_chars fold_right]. fold (join_chars chs).
  rewrite split_char;
    [rewrite split_join_opening by exact Hall; reflexivity|exact Hch|].
  rewrite split_join_opening by exact Hall.
  destruct Hall as [|x xs [_ Hx] _]; [reflexivity|exact Hx].
Qed.

Lemma grouped_tail ch chs : grouped (ch :: chs) -> grouped chs.
Proof.
  intros [_ Hall]. destruct Hall as [|x xs [Hx _] Hxs]; [exact I|].
  split; assumption.
Qed.

Lemma lstrip_grouped chs : grouped chs -> grouped (lstrip_chars chs).
Proof.
  induction chs as [|ch chs IH]; [trivial|]. intros H. cbn [lstrip_chars].
  destruct (is_space_char ch); [|exact H].
  apply IH, (grouped_tail ch), H.
Qed.

Lemma rstrip_opening chs :
  Forall (fun x => is_char x = true
                   /\ starts_with_continuation x = false) chs ->
  Forall (fun x => is_char x = true
                   /\ starts_with_continuation x = false) (rstrip_chars chs).
Proof.
  induction 1 as [|ch chs Hch Hall IH]; [constructor|]. cbn [rstrip_chars].
  destruct (rstrip_chars chs) as [|x xs].
  - destruct (is_space_char ch); constructor; [exact Hch|constructor].
  - constructor; assumption.
Qed.

Lemma rstrip_grouped chs : grouped chs -> grouped (rstrip_chars chs).
Proof.
  destruct chs as [|ch chs]; [trivial|]. intros [Hch Hall].
  apply rstrip_opening in Hall. cbn [rstrip_chars].
  destruct (rstrip_chars chs) as [|x xs].
  - destruct (is_space_char ch); [exact I|]. split; [exact Hch|constructor].
  - split; assumption.
Qed.

Lemma lstrip_starts_clean chs : starts_clean (lstrip_chars chs).
Proof.
  induction chs as [|ch chs IH]; cbn [lstrip_chars]; [exact I|].
  destruct (is_space_char ch) eqn:Hc; [exact IH|]. cbn. exact Hc.
Qed.

Lemma lstrip_clean chs : starts_clean chs -> lstrip_chars chs = chs.
Proof.
  destruct chs as [|ch chs]; cbn; [reflexivity|]. intros ->. reflexivity.
Qed.

Lemma rstrip_starts_clean chs :
  starts_clean chs -> starts_clean (rstrip_chars chs).
Proof.
  destruct chs as [|ch chs]; cbn [rstrip_chars starts_clean]; [trivial|].
  intros Hc. destruct (rstrip_chars chs); [rewrite Hc|]; cbn; exact Hc.
Qed.

Lemma rstrip_idempotent chs :
  rstrip_chars (rstrip_chars chs) = rstrip_chars chs.
Proof.
  induction chs as [|ch chs IH]; [reflexivity|]. cbn [rstrip_chars].
  destruct (rstrip_chars chs) as [|x r] eqn:Hr.
  - destruct (is_space_char ch) eqn:Hc; [reflexivity|].
    cbn [rstrip_chars]. rewrite Hc. reflexivity.
  - cbn [rstrip_chars]. cbn [rstrip_chars] in IH. rewrite IH. reflexivity.
Qed.

Lemma strip_idempotent s : strip (strip s) = strip s.
Proof.
  unfold strip.
  rewrite split_join
    by apply rstrip_grouped, lstrip_grouped, split_chars_grouped.
  rewrite (lstrip_clean (rstrip_chars (lstrip_chars (split_chars s))))
    by apply rstrip_starts_clean, lstrip_starts_clean.
  rewrite rstrip_idempotent. reflexivity.
Qed.

Lemma lstrip_blank chs :
  lstrip_chars chs = [] <-> forallb is_space_char chs = true.
Proof.
  induction chs as [|ch chs IH]; cbn [lstrip_chars forallb]; [tauto|].
  destruct (is_space_char ch); cbn [andb]; [exact IH|]. split; discriminate.
Qed.

Lemma rstrip_empty chs : starts_clean chs -> rstrip_chars chs = [] -> chs = [].
Proof.
  destruct chs as [|ch chs]; [reflexivity|].
  cbn [starts_clean rstrip_chars]. intros Hc.
  destruct (rstrip_chars chs); [rewrite Hc|]; discriminate.
Qed.

Lemma join_chars_empty chs :
  grouped chs -> join_chars chs = EmptyString -> chs = [].
Proof.
  destruct chs as [|ch chs]; [reflexivity|]. intros [Hch _].
  destruct ch; discriminate.
Qed.

Lemma strip_blank s : strip s = EmptyString <-> blank s = true.
Proof.
  unfold strip, blank. rewrite <- lstrip_blank. split.
  - intros H. apply join_chars_empty in H;
      [|apply rstrip_grouped, lstrip_grouped, split_chars_grouped].
    revert H. apply rstrip_empty, lstrip_starts_clean.
  - intros ->. reflexivity.
Qed.

Lemma split_chars_append s1 s2 :
  starts_with_continuation s2 = false ->
  split_chars (s1 ++ s2) = (split_chars s1 ++ split_chars s2)%list.
Proof.
  intros H2. induction s1 as [|c s1 IH]; [reflexivity|].
  cbn [append split_chars]. rewrite IH.
  destruct (split_chars s1) as [|ch chs] eqn:H1; cbn [app];
    [|destruct (starts_with_continuation ch); reflexivity]. pose proof (split_chars_head s2) as Hh. rewrite H2 in Hh.
  destruct (split_chars s2) as [|x xs]; [reflexivity|].
  cbn [hd] in Hh. rewrite Hh. reflexivity.
Qed.

Lemma blank_append s1 s2 :
  starts_with_continuation s2 = false ->
  blank (s1 ++ s2) = blank s1 && blank s2.
Proof.
  intros H. unfold blank. rewrite split_chars_append by exact H.
  apply forallb_app.
Qed.

Lemma space_char_listed ch : is_space_char ch = true -> In ch space_chars.
Proof.
  unfold is_space_char. rewrite existsb_exists. intros [x [Hin Heq]].
  apply String.eqb_eq in Heq. subst x. exact Hin.
Qed.

(** No character [strip] removes opens with a continuation byte, and none
    is a space with continuation bytes after it. *)
Lemma space_char_opens ch :
  starts_with_continuation ch = true -> is_space_char ch = false.
Proof.
  intros Hc. destruct (is_space_char ch) eqn:Hs; [|reflexivity].
  apply space_char_listed in Hs. vm_compute in Hs.
  repeat (destruct Hs as [<-|Hs]; [discriminate Hc|]). contradiction.
Qed.

Lemma space_then_bytes c k : is_space_char (String " " (String c k)) = false.
Proof.
  destruct (is_space_char (String " " (String c k))) eqn:Hs; [|reflexivity].
  apply space_char_listed in Hs. vm_compute in Hs.
  repeat (destruct Hs as [Hs|Hs]; [discriminate Hs|]). contradiction.
Qed.

Lemma blank_after_space s : blank (" " ++ s) = blank s.
Proof.
  destruct (starts_with_continuation s) eqn:Hs.
  - pose proof (split_chars_head s) as Hh. rewrite Hs in Hh.
    unfold blank. cbn [append split_chars].
    destruct (split_chars s) as [|ch chs]; [discriminate Hh|].
    cbn [hd] in Hh. rewrite Hh. cbn [forallb].
    rewrite (space_char_opens ch Hh).
    destruct ch as [|c k]; [discriminate Hh|].
    rewrite space_then_bytes. reflexivity.
  - change (" " ++ s) with (" " ++ s). rewrite blank_append by exact Hs.
    reflexivity.
Qed.

(** X7. Every Song the parser returns holds text in both fields, with no
    whitespace character left at either end, whitespace being what
    [str.strip()] removes (the ASCII blanks and the Unicode spaces alike):
    stripping a field again changes nothing.  (A field can still be empty:
    a title made of whitespace only passes the presence test and is then
    stripped to nothing.) *)
Theorem parser_songs_are_stripped {rt : Runtime}
    (raw_content : string) (limit : Z) (songs : list Song) :
  parse_openai_song_list raw_content limit = Return songs ->
  Forall stripped_song songs.
Proof.
  unfold parse_openai_song_list.
  destruct (json_loads raw_content) as [[| | | | |parsed|]|msg];
    try discriminate.
  intros H. injection H as <-. fold (songs_of (py_slice_to parsed limit)).
  induction (py_slice_to parsed limit) as [|item items IH]; [constructor|].
  rewrite songs_of_cons. apply Forall_app. split; [|exact IH].
  unfold parse_step. destruct item; try constructor.
  destruct (negb (truthy (item_title d)) || negb (truthy (item_artist d)));
    constructor; [|constructor].
  eexists _, _. cbn [title artist].
  split; [reflexivity|]. split; [reflexivity|].
  split; apply strip_idempotent.
Qed.

(** A title padded with a no-break space and an em space, an artist padded
    with a blank, and a title of whitespace only. *)
Lemma parser_songs_are_stripped_witness :
  Forall stripped_song
         [{| title := PStr "Purple Rain"; artist := PStr "Prince" |};
          {| title := PStr ""; artist := PStr "X" |}].
Proof.
  apply (parser_songs_are_stripped
           (rt := Examples.runtime)
           ("[" ++ Examples.song_json
                     (utf8 [194; 160] ++ " Purple Rain" ++ utf8 [226; 128; 131])
                     " Prince"
            ++ "," ++ Examples.song_json (" " ++ utf8 [227; 128; 128] ++ " ") "X"
            ++ "]") 5).
  reflexivity.
Defined.

(** A title and an artist of one no-break space each: the query is the
    empty text. *)
Lemma no_break_spaces_give_the_empty_query {rt : Runtime} :
  to_query {| title := PStr (utf8 [194; 160]);
              artist := PStr (utf8 [194; 160]) |} = EmptyString.
Proof. reflexivity. Qed.

(** X8. [Song.to_query] carries no whitespace character at either end, and
    it is the empty text exactly when the title and the artist are both
    made of whitespace only (a title and an artist that are each one
    no-break space give the empty query). *)
Theorem to_query_is_stripped {rt : Runtime} (self : Song) :
  strip (to_query self) = to_query self
  /\ (to_query self = EmptyString <->
      blank (py_str (title self)) = true
      /\ blank (py_str (artist self)) = true).
Proof.
  unfold to_query. split; [apply strip_idempotent|].
  rewrite strip_blank, blank_append by reflexivity.
  rewrite blank_after_space, andb_true_iff. reflexivity.
Qed.

(* ===================================================================== *)
(** ** Further properties: stage 4, the Track Resolver loop *)
(* ===================================================================== *)

Section Resolver.
Context {rt : Runtime} {W : Type}.
Variable tools : Tools W.

(** One turn that falls through made one search, and either resolved one
    identifier or appended one entry. *)
Lemma search_step_done track_uris s st track_uris' st1 :
  search_step tools track_uris s st = (Done track_uris', st1) ->
  exists c,
    calls st1 = (calls st ++ [c])%list
    /\ call_label c = search_label
    /\ call_args c = [PStr (search_query s)]
    /\ playlist_info st1 = playlist_info st
    /\ ((exists uri, truthy uri = true
                     /\ track_uris' = (track_uris ++ [uri])%list
                     /\ errors st1 = errors st)
        \/ (track_uris' = track_uris
            /\ exists entry, errors st1 = (errors st ++ [entry])%list)).
Proof.
  unfold search_step, bind, safe_call. fold (search_query s).
  destruct (search_for_item tools [PStr (search_query s)] (world st))
    as [[v|e] w].
  - cbn. destruct (extract_first_track_uri v) as [uri|e]; cbn; [|discriminate].
    destruct (truthy uri) eqn:Huri; cbn; intros H; injection H as <- <-.
    + eexists. cbn. repeat split. left. exists uri. repeat split. exact Huri.
    + eexists. cbn. repeat split. right. split; [reflexivity|].
      eexists. reflexivity.
  - cbn. intros H. injection H as <- <-.
    eexists. cbn. repeat split. right. split; [reflexivity|].
    eexists. reflexivity.
Qed.

Lemma search_loop_done song_objects :
  forall track_uris st track_uris' st',
    for_fold (search_step tools) song_objects track_uris st
    = (Done track_uris', st') ->
    exists more,
      track_uris' = (track_uris ++ more)%list
      /\ resolved_or_recorded song_objects more st st'.
Proof.
  induction song_objects as [|s songs IH]; intros track_uris st uris' st';
    cbn [for_fold].
  - intros H. injection H as <- <-. exists []. rewrite app_nil_r.
    split; [reflexivity|]. exists [], []. cbn. rewrite !app_nil_r.
    repeat split; constructor.
  - unfold bind at 1.
    destruct (search_step tools track_uris s st) as [[acc| |e] st1] eqn:Hstep;
      try discriminate.
    intros Hrest.
    destruct (search_step_done _ _ _ _ _ Hstep)
      as (c & Hcalls & Hlabel & Hargs & Hinfo & Hcase).
    destruct (IH _ _ _ _ Hrest)
      as (more & -> & ncalls & nerrs & Hc & Hl & Ha & He & Hlen & Hall & Hi).
    destruct Hcase as [(uri & Huri & -> & Herr) | (-> & entry & Herr)].
    + exists (uri :: more). split; [rewrite <- app_assoc; reflexivity|].
      exists (c :: ncalls), nerrs. cbn [map List.length].
      rewrite Hc, Hcalls, <- app_assoc, Hlabel, Hargs, Hl, Ha, He, Herr.
      repeat split; try reflexivity; try lia; try congruence.
      constructor; [exact Huri|exact Hall].
    + exists more. split; [reflexivity|].
      exists (c :: ncalls), (entry :: nerrs). cbn [map List.length].
      rewrite Hc, Hcalls, <- !app_assoc, Hlabel, Hargs, Hl, Ha, He, Herr,
        <- app_assoc.
      repeat split; try reflexivity; try lia; try congruence.
Qed.

End Resolver.

(** X9. When the loop of stage 4 runs to its end it has made exactly one
    search per Song, in the order of the Songs and with the query built from
    title and artist, and every Song has given either one resolved
    identifier or one entry of the error list: resolved count plus new
    entries is the number of Songs. *)
Theorem every_song_is_resolved_or_recorded {rt : Runtime} {W : Type}
    (tools : Tools W) (song_objects : list Song) (st : State W)
    (track_uris : list pyval) (st' : State W) :
  tool4_search_songs tools song_objects st = (Done track_uris, st') ->
  resolved_or_recorded song_objects track_uris st st'.
Proof.
  intros H. destruct (search_loop_done tools _ _ _ _ _ H) as (more & -> & Hmore).
  exact Hmore.
Qed.

(** Three Songs: found, not found, search raising. *)
Lemma every_song_is_resolved_or_recorded_witness :
  resolved_or_recorded
    (rt := Examples.runtime)
    [{| title := PStr "A"; artist := PStr "X" |};
     {| title := PStr "B"; artist := PStr "Y" |};
     {| title := PStr "C"; artist := PStr "Z" |}]
    [PStr "spotify:track:a"]
    (Examples.fresh [Return (Examples.found "spotify:track:a");
                     Return Examples.nothing_found;
                     Raise (Exn OtherException "boom")])
    (snd (tool4_search_songs
            (rt := Examples.runtime) Examples.scripted_tools
            [{| title := PStr "A"; artist := PStr "X" |};
             {| title := PStr "B"; artist := PStr "Y" |};
             {| title := PStr "C"; artist := PStr "Z" |}]
            (Examples.fresh [Return (Examples.found "spotify:track:a");
                             Return Examples.nothing_found;
                             Raise (Exn OtherException "boom")]))).
Proof.
  apply (every_song_is_resolved_or_recorded
           (rt := Examples.runtime) Examples.scripted_tools).
  reflexivity.
Defined.

(** X10. A search response off the promised shape ends the run on the spot:
    the extractor's exception is caught by nobody, so the loop of stage 4
    crashes after that search, the Songs that follow are never searched, and
    nothing is added to the error list. *)
Theorem misshaped_search_response_ends_the_loop {rt : Runtime} {W : Type}
    (tools : Tools W) (s : Song) (rest : list Song) (st : State W)
    (response : pyval) (w' : W) (e : exn) :
  search_for_item tools [PStr (search_query s)] (world st)
  = (Return response, w') ->
  extract_first_track_uri response = Raise e ->
  tool4_search_songs tools (s :: rest) st
  = (Crashed e,
     after_call st w' {| call_label := search_label;
                         call_args := [PStr (search_query s)];
                         call_outcome := Return response |}).
Proof.
  intros Hcall Hextract.
  unfold tool4_search_songs. cbn [for_fold].
  unfold bind at 1. unfold search_step, bind, safe_call.
  fold (search_query s). rewrite Hcall. cbn. rewrite Hextract. reflexivity.
Qed.

(** The first of two searches answers with a null first item. *)
Lemma misshaped_search_response_witness :
  tool4_search_songs
    (rt := Examples.runtime) Examples.scripted_tools
    [{| title := PStr "A"; artist := PStr "X" |};
     {| title := PStr "B"; artist := PStr "Y" |}]
    (Examples.fresh
       [Return (PDict [("tracks", PDict [("items", PList [PNone])])]);
        Return (Examples.found "spotify:track:b")])
  = (Crashed (Exn AttributeError "'NoneType' object has no attribute 'get'"),
     {| playlist_info := [];
        errors := [];
        world := [Return (Examples.found "spotify:track:b")];
        calls := [{| call_label := search_label;
                     call_args := [PStr "track:A artist:X"];
                     call_outcome :=
                       Return (PDict [("tracks",
                                       PDict [("items", PList [PNone])])]) |}]
     |}).
Proof.
  apply (misshaped_search_response_ends_the_loop
           (rt := Examples.runtime) Examples.scripted_tools
           {| title := PStr "A"; artist := PStr "X" |}
           [{| title := PStr "B"; artist := PStr "Y" |}]
           (Examples.fresh
              [Return (PDict [("tracks", PDict [("items", PList [PNone])])]);
               Return (Examples.found "spotify:track:b")])
           (PDict [("tracks", PDict [("items", PList [PNone])])])
           [Return (Examples.found "spotify:track:b")]
           (Exn AttributeError "'NoneType' object has no attribute 'get'"));
    reflexivity.
Defined.

(* ===================================================================== *)
(** ** Further properties: reading the completion *)
(* ===================================================================== *)

Section Completion.
Context {rt : Runtime} {W : Type}.

Lemma py_item_present (d : pydict) (k : string) :
  dict_mem k d = true -> py_item (PDict d) k = Return (dict_get k d).
Proof.
  unfold dict_mem, py_item, dict_get, dict_get_default.
  destruct (assoc k d); [reflexivity|discriminate].
Qed.

(** On entries that are all objects the comprehension is a filter. *)
Lemma song_comprehension_objects (entries : list pydict) :
  song_comprehension (map PDict entries) = Return (kept_songs entries).
Proof.
  induction entries as [|d entries IH]; [reflexivity|].
  cbn [map song_comprehension py_contains obind kept_songs].
  unfold has_both_keys.
  destruct (dict_mem "title" d) eqn:Ht; cbn [andb obind].
  - destruct (dict_mem "artist" d) eqn:Ha; cbn [obind]; [|exact IH].
    rewrite (py_item_present d "title" Ht), (py_item_present d "artist" Ha).
    cbn [obind]. rewrite IH. reflexivity.
  - exact IH.
Qed.

(** A scalar entry raises, whatever objects come before it. *)
Lemma song_comprehension_scalar (entries : list pydict) (v : pyval)
    (rest : list pyval) :
  is_scalar v = true ->
  song_comprehension (map PDict entries ++ v :: rest)
  = Raise (Exn TypeError
               ("argument of type '" ++ type_name v ++ "' is not iterable")).
Proof.
  intros Hv. induction entries as [|d entries IH].
  - destruct v; try discriminate Hv; reflexivity.
  - cbn [map app song_comprehension py_contains obind].
    destruct (dict_mem "title" d) eqn:Ht; cbn [obind]; [|exact IH].
    destruct (dict_mem "artist" d) eqn:Ha; cbn [obind]; [|exact IH].
    rewrite (py_item_present d "title" Ht), (py_item_present d "artist" Ha).
    cbn [obind]. rewrite IH. reflexivity.
Qed.

(** The [try] block once the content is text that decodes to an object. *)
Lemma read_completion_decoded (result : pyval) (description content : string)
    (parsed : pydict) (st : State W) :
  completion_content result = Return (PStr content) ->
  json_loads content = inl (PDict parsed) ->
  read_completion [("result", result)] description st
  = match (items <~ py_iter (dict_get_default "songs" (PList []) parsed) ;;
           song_comprehension items)%outcome with
    | Return songs =>
        (Done (dict_get_default "playlist_title"
                                (default_title description) parsed, songs), st)
    | Raise e => (Crashed e, st)
    end.
Proof.
  intros Hcontent Hjson. unfold read_completion.
  rewrite call_item_result, bind_ret.
  fold (completion_content result). rewrite Hcontent. cbn [lift].
  rewrite bind_ret. cbn [loads_value lift]. rewrite bind_ret, Hjson.
  cbn [py_get lift]. rewrite !bind_ret.
  destruct (items <~ py_iter (dict_get_default "songs" (PList []) parsed) ;;
            song_comprehension items)%outcome; reflexivity.
Qed.

End Completion.

(** X11. A completion whose content is not JSON is not an error of the run:
    the title falls back to ["AI: "] and the first 40 characters of the
    description, the song list is empty, and the state, error list included,
    is untouched; the run goes on to stage 2. *)
Theorem undecodable_content_is_not_recorded {rt : Runtime} {W : Type}
    (result : pyval) (description content msg : string) (st : State W) :
  completion_content result = Return (PStr content) ->
  json_loads content = inr msg ->
  read_completion [("result", result)] description st
  = (Done (PStr ("AI: " ++ str_prefix 40 description), []), st).
Proof.
  intros Hcontent Hjson. unfold read_completion.
  rewrite call_item_result, bind_ret.
  fold (completion_content result). rewrite Hcontent. cbn [lift].
  rewrite bind_ret. cbn [loads_value lift]. rewrite bind_ret, Hjson.
  reflexivity.
Qed.

Lemma undecodable_content_witness :
  read_completion (rt := Examples.runtime)
    [("result", Examples.completion (PStr "Here is your playlist!"))]
    "songs about rain" (Examples.fresh (@nil (outcome pyval)))
  = (Done (PStr "AI: songs about rain", []), Examples.fresh []).
Proof.
  apply (undecodable_content_is_not_recorded
           (rt := Examples.runtime)
           (Examples.completion (PStr "Here is your playlist!"))
           "songs about rain" "Here is your playlist!" "Expecting value");
    reflexivity.
Defined.

(** X12. From a [songs] array whose entries are all objects the run keeps
    exactly the entries that have both keys [title] and [artist], in order and
    with the values as they are: nothing is stripped, nothing is tested for
    emptiness, the other spellings ([name], [track], [artists]) are not
    accepted, and no count is applied. *)
Theorem run_keeps_entries_with_both_keys {rt : Runtime} {W : Type}
    (result : pyval) (description content : string) (parsed : pydict)
    (entries : list pydict) (st : State W) :
  completion_content result = Return (PStr content) ->
  json_loads content = inl (PDict parsed) ->
  dict_get_default "songs" (PList []) parsed = PList (map PDict entries) ->
  read_completion [("result", result)] description st
  = (Done (dict_get_default "playlist_title" (default_title description) parsed,
           kept_songs entries), st).
Proof.
  intros Hcontent Hjson Hsongs.
  rewrite (read_completion_decoded result description content parsed st
             Hcontent Hjson).
  rewrite Hsongs. cbn [py_iter obind].
  rewrite song_comprehension_objects. reflexivity.
Qed.

(** An entry under [name], an entry with an empty title, a complete one. *)
Lemma run_keeps_entries_witness :
  read_completion (rt := Examples.runtime)
    [("result", Examples.completion (PStr mixed_songs))]
    "songs about rain" (Examples.fresh (@nil (outcome pyval)))
  = (Done (PStr "AI: songs about rain",
           [{| title := PStr ""; artist := PStr " Y " |};
            {| title := PStr "C"; artist := PStr "Z" |}]),
     Examples.fresh []).
Proof.
  apply (run_keeps_entries_with_both_keys
           (rt := Examples.runtime)
           (Examples.completion (PStr mixed_songs)) "songs about rain"
           mixed_songs
           [("songs", PList [PDict [("name", PStr "A"); ("artist", PStr "X")];
                             PDict [("title", PStr ""); ("artist", PStr " Y ")];
                             PDict [("title", PStr "C"); ("artist", PStr "Z")]])]
           [[("name", PStr "A"); ("artist", PStr "X")];
            [("title", PStr ""); ("artist", PStr " Y ")];
            [("title", PStr "C"); ("artist", PStr "Z")]]);
    reflexivity.
Defined.

(** X13. One entry of [songs] that is [null], a boolean or a number ends the
    run: testing ["title" in s] on it raises a [TypeError] that nothing
    catches, whatever well-formed entries stand before or after it, and the
    error list is left as it was. *)
Theorem scalar_song_entry_crashes_the_run {rt : Runtime} {W : Type}
    (result : pyval) (description content : string) (parsed : pydict)
    (entries : list pydict) (v : pyval) (rest : list pyval) (st : State W) :
  completion_content result = Return (PStr content) ->
  json_loads content = inl (PDict parsed) ->
  dict_get_default "songs" (PList []) parsed
  = PList (map PDict entries ++ v :: rest) ->
  is_scalar v = true ->
  exists e,
    exn_class_of e = TypeError
    /\ read_completion [("result", result)] description st = (Crashed e, st).
Proof.
  intros Hcontent Hjson Hsongs Hv.
  rewrite (read_completion_decoded result description content parsed st
             Hcontent Hjson).
  rewrite Hsongs. cbn [py_iter obind].
  rewrite (song_comprehension_scalar entries v rest Hv).
  eexists. split; [|reflexivity]. reflexivity.
Qed.

Lemma scalar_song_entry_witness :
  exists e,
    exn_class_of e = TypeError
    /\ read_completion (rt := Examples.runtime)
         [("result", Examples.completion (PStr songs_with_null))]
         "songs about rain" (Examples.fresh (@nil (outcome pyval)))
       = (Crashed e, Examples.fresh []).
Proof.
  apply (scalar_song_entry_crashes_the_run
           (rt := Examples.runtime)
           (Examples.completion (PStr songs_with_null)) "songs about rain"
           songs_with_null
           [("songs", PList [PDict [("title", PStr "A"); ("artist", PStr "X")];
                             PNone;
                             PDict [("title", PStr "C"); ("artist", PStr "Z")]])]
           [[("title", PStr "A"); ("artist", PStr "X")]] PNone
           [PDict [("title", PStr "C"); ("artist", PStr "Z")]]);
    reflexivity.
Defined.

(* ===================================================================== *)
(** ** Further properties: stages 2 and 3 *)
(* ===================================================================== *)

Lemma str_prefix_length : forall s n, py_len (str_prefix n s) <= n.
Proof.
  induction s as [|c s IH]; intros n; cbn [str_prefix py_len]; [lia|].
  destruct (is_continuation c) eqn:Hc.
  - cbn [py_len]. rewrite Hc. apply IH.
  - destruct n as [|n]; cbn [py_len]; [lia|]. rewrite Hc.
    specialize (IH n). lia.
Qed.

Lemma str_prefix_all : forall s n, py_len s <= n -> str_prefix n s = s.
Proof.
  induction s as [|c s IH]; intros n; cbn [str_prefix py_len]; [reflexivity|].
  destruct (is_continuation c).
  - intros H. rewrite IH by exact H. reflexivity.
  - destruct n as [|n]; [lia|]. intros H. rewrite IH by lia. reflexivity.
Qed.

Lemma str_prefix_prefix :
  forall s n m, n <= m -> str_prefix n (str_prefix m s) = str_prefix n s.
Proof.
  induction s as [|c s IH]; intros n m Hle; cbn [str_prefix]; [reflexivity|].
  destruct (is_continuation c) eqn:Hc.
  - cbn [str_prefix]. rewrite Hc, IH by exact Hle. reflexivity.
  - destruct n as [|n].
    + destruct m; cbn [str_prefix]; [reflexivity|]. rewrite Hc. reflexivity.
    + destruct m as [|m]; [lia|]. cbn [str_prefix]. rewrite Hc, IH by lia.
      reflexivity.
Qed.

Lemma py_len_append s1 s2 : py_len (s1 ++ s2) = py_len s1 + py_len s2.
Proof.
  induction s1 as [|c s1 IH]; cbn [append py_len]; [reflexivity|].
  rewrite IH. destruct (is_continuation c); reflexivity.
Qed.

(** Thirty letters of two bytes each are thirty characters: the slice keeps
    all of them. *)
Lemma accented_title_is_kept_whole :
  let e_acute := utf8 [195; 169] in
  let title := join_chars (repeat e_acute 30) in
  String.length title = 60 /\ py_len title = 30 /\ str_prefix 40 title = title.
Proof. vm_compute. repeat split. Qed.

(** Stage 3 makes its one call before anything can end it, and nothing
    after the call touches the log. *)
Lemma tool3_logs_its_call {rt : Runtime} {W : Type} (tools : Tools W)
    (user_id : pyval) (playlist_title : string) (st : State W) :
  calls (snd (tool3_create_playlist tools user_id (PStr playlist_title) st))
  = (calls st ++ [create_call tools user_id playlist_title (world st)])%list.
Proof.
  unfold tool3_create_playlist, bind, safe_call, create_call.
  cbn [py_slice_40 lift ret py_str].
  destruct (create_playlist tools
              [user_id; PStr ("AI: " ++ str_prefix 40 playlist_title)]
              (world st)) as [[v|e] w]; cbn; [|reflexivity].
  destruct v; cbn; try reflexivity.
  destruct (truthy (dict_get_default "id" PNone d)); reflexivity.
Qed.

(** X14. For a title that is text, stage 3 asks for a playlist named ["AI: "]
    followed by the first 40 characters of the title, counted as Python
    counts them (by character, whatever the number of bytes of each): the
    name never exceeds 44 characters, and a title of at most 40 characters
    is kept whole. *)
Theorem playlist_name_is_prefixed_and_bounded {rt : Runtime} {W : Type}
    (tools : Tools W) (user_id : pyval) (playlist_title : string)
    (st : State W) :
  let name := "AI: " ++ str_prefix 40 playlist_title in
  calls (snd (tool3_create_playlist tools user_id (PStr playlist_title) st))
  = (calls st
     ++ [{| call_label := create_label;
            call_args := [user_id; PStr name];
            call_outcome :=
              fst (create_playlist tools [user_id; PStr name] (world st)) |}])%list
  /\ py_len name <= 44
  /\ (py_len playlist_title <= 40 -> name = "AI: " ++ playlist_title).
Proof.
  cbn zeta. split; [apply tool3_logs_its_call|]. split.
  - rewrite py_len_append. pose proof (str_prefix_length playlist_title 40).
    change (py_len "AI: ") with 4. lia.
  - intros H. rewrite str_prefix_all by exact H. reflexivity.
Qed.

(** X15. When the completion carries no [playlist_title] the fallback title
    already begins with ["AI: "], and stage 3 puts its own prefix before it:
    the playlist is named ["AI: AI: "] followed by the first 36 characters of
    the description. *)
Theorem fallback_title_is_prefixed_twice {rt : Runtime} {W : Type}
    (tools : Tools W) (user_id : pyval) (playlist_description : string)
    (st : State W) :
  let name := "AI: AI: " ++ str_prefix 36 playlist_description in
  calls (snd (tool3_create_playlist
                tools user_id (default_title playlist_description) st))
  = (calls st
     ++ [{| call_label := create_label;
            call_args := [user_id; PStr name];
            call_outcome :=
              fst (create_playlist tools [user_id; PStr name] (world st)) |}])%list.
Proof.
  cbn zeta. unfold default_title. rewrite tool3_logs_its_call.
  unfold create_call.
  assert (H : str_prefix 40 ("AI: " ++ str_prefix 40 playlist_description)
              = "AI: " ++ str_prefix 36 playlist_description).
  { change (str_prefix 40 ("AI: " ++ str_prefix 40 playlist_description))
      with ("AI: " ++ str_prefix 36 (str_prefix 40 playlist_description)).
    rewrite str_prefix_prefix by lia. reflexivity. }
  rewrite H. reflexivity.
Qed.

(** X16. An exception out of the profile call is fatal: the script stops
    with the entry of that exception appended, and the playlist is never
    asked for. *)
Theorem profile_exception_stops_the_script {rt : Runtime} {W : Type}
    (tools : Tools W) (st : State W) (e : exn) (w' : W) :
  get_current_user_profile tools [] (world st) = (Raise e, w') ->
  tool2_get_user_id tools st
  = (Stopped,
     {| playlist_info := playlist_info st;
        errors := (errors st ++ [PDict (error_entry profile_label e)])%list;
        world := w';
        calls := (calls st ++ [{| call_label := profile_label;
                                  call_args := [];
                                  call_outcome := Raise e |}])%list |}).
Proof.
  intros Hcall. unfold tool2_get_user_id, bind, safe_call. rewrite Hcall.
  reflexivity.
Qed.

Lemma profile_exception_witness :
  tool2_get_user_id (rt := Examples.runtime) Examples.scripted_tools
    (Examples.fresh [Raise (Exn OtherException "boom")])
  = (Stopped,
     {| playlist_info := [];
        errors := [PDict (error_entry (rt := Examples.runtime) profile_label
                                      (Exn OtherException "boom"))];
        world := [];
        calls := [{| call_label := profile_label;
                     call_args := [];
                     call_outcome := Raise (Exn OtherException "boom") |}] |}).
Proof.
  apply (profile_exception_stops_the_script
           (rt := Examples.runtime) Examples.scripted_tools
           (Examples.fresh [Raise (Exn OtherException "boom")])
           (Exn OtherException "boom") []).
  reflexivity.
Defined.

(** X17. The same for playlist creation: an exception out of the call stops
    the script with its entry appended; no search and no addition follows. *)
Theorem create_exception_stops_the_script {rt : Runtime} {W : Type}
    (tools : Tools W) (user_id : pyval) (playlist_title : string)
    (st : State W) (e : exn) (w' : W) :
  create_playlist tools
    [user_id; PStr ("AI: " ++ str_prefix 40 playlist_title)] (world st)
  = (Raise e, w') ->
  tool3_create_playlist tools user_id (PStr playlist_title) st
  = (Stopped,
     {| playlist_info := playlist_info st;
        errors := (errors st ++ [PDict (error_entry create_label e)])%list;
        world := w';
        calls := (calls st
                  ++ [{| call_label := create_label;
                         call_args :=
                           [user_id;
                            PStr ("AI: " ++ str_prefix 40 playlist_title)];
                         call_outcome := Raise e |}])%list |}).
Proof.
  intros Hcall. unfold tool3_create_playlist, bind, safe_call.
  cbn [py_slice_40 lift ret py_str world]. rewrite Hcall. reflexivity.
Qed.

Lemma create_exception_witness :
  tool3_create_playlist (rt := Examples.runtime) Examples.scripted_tools
    (PStr "u1") (PStr "Rainy Mood")
    (Examples.fresh [Raise (Exn OtherException "boom")])
  = (Stopped,
     {| playlist_info := [];
        errors := [PDict (error_entry (rt := Examples.runtime) create_label
                                      (Exn OtherException "boom"))];
        world := [];
        calls := [{| call_label := create_label;
                     call_args := [PStr "u1"; PStr "AI: Rainy Mood"];
                     call_outcome := Raise (Exn OtherException "boom") |}] |}).
Proof.
  apply (create_exception_stops_the_script
           (rt := Examples.runtime) Examples.scripted_tools
           (PStr "u1") "Rainy Mood"
           (Examples.fresh [Raise (Exn OtherException "boom")])
           (Exn OtherException "boom") []).
  reflexivity.
Defined.

(** X18. A title that is [null], a boolean or a number cannot be sliced:
    [playlist_title[:40]] raises a [TypeError] and the run crashes before the
    playlist is asked for; no call is made and nothing is recorded. *)
Theorem title_that_cannot_be_sliced_crashes {rt : Runtime} {W : Type}
    (tools : Tools W) (user_id playlist_title : pyval) (st : State W) :
  is_scalar playlist_title = true ->
  exists e,
    exn_class_of e = TypeError
    /\ tool3_create_playlist tools user_id playlist_title st = (Crashed e, st).
Proof.
  intros H. unfold tool3_create_playlist, bind.
  destruct playlist_title; try discriminate H;
    (eexists; split; [|reflexivity]; reflexivity).
Qed.

Lemma title_that_cannot_be_sliced_witness :
  exists e,
    exn_class_of e = TypeError
    /\ tool3_create_playlist
         (rt := Examples.runtime) Examples.scripted_tools (PStr "u1") PNone
         (Examples.fresh [Return (PDict [("id", PStr "p1")])])
       = (Crashed e, Examples.fresh [Return (PDict [("id", PStr "p1")])]).
Proof.
  apply (title_that_cannot_be_sliced_crashes
           (rt := Examples.runtime) Examples.scripted_tools (PStr "u1") PNone).
  reflexivity.
Defined.

(* ===================================================================== *)
(** ** Further properties: the run's input check, and what the tools raise *)
(* ===================================================================== *)

(** X19. With an empty description (or a count of 0) the click only empties
    the error list: no tool is called, the world and the summary are as they
    were, and the block falls through to the display lines. *)
Theorem empty_description_calls_nothing {rt : Runtime} {W : Type}
    (tools : Tools W) (playlist_description : string) (limit : Z)
    (st : State W) :
  playlist_description = "" \/ limit = 0%Z ->
  generate_playlist tools playlist_description limit st
  = (Done None, with_no_errors st).
Proof.
  intros [-> | ->]; unfold generate_playlist, bind, set_errors; cbn.
  - reflexivity.
  - rewrite orb_true_r. reflexivity.
Qed.

Lemma empty_description_witness :
  generate_playlist (rt := Examples.runtime) Examples.scripted_tools "" 10
    {| playlist_info := [("playlist_name", PStr "AI: Rainy Mood")];
       errors := [no_playlist_id_entry];
       world := [Return PNone];
       calls := [] |}
  = (Done None,
     {| playlist_info := [("playlist_name", PStr "AI: Rainy Mood")];
        errors := [];
        world := [Return PNone];
        calls := [] |}).
Proof.
  apply (empty_description_calls_nothing
           (rt := Examples.runtime) Examples.scripted_tools "" 10).
  left. reflexivity.
Defined.

Section ToolExceptions.
Context {rt : Runtime} {W : Type}.
Variable send : Request -> W -> http_result * W.
Variable openai_api_key : pyval.

Lemma fetch_never_raises_request req text (w w' : W) e :
  fetch send req text w = (Raise e, w') -> exn_class_of e <> RequestException.
Proof.
  unfold fetch. destruct (send req w) as [[body|e0] w0]; [discriminate|].
  destruct (exn_class_of e0) eqn:Hclass; try discriminate;
    intros H; injection H as <- <-; rewrite Hclass; discriminate.
Qed.

Lemma raise_arity_never_raises_request fname required optional args
    (w w' : W) e :
  raise_arity fname required optional args w = (Raise e, w') ->
  exn_class_of e <> RequestException.
Proof.
  unfold raise_arity, arity_error. intros H. injection H as <- <-.
  destruct (List.length args <? List.length required)%nat; discriminate.
Qed.

End ToolExceptions.

Ltac tool_cases args :=
  repeat match goal with
         | |- context [match ?l with [] => _ | _ :: _ => _ end] =>
             is_var l; destruct l
         end.

(** X20. None of the five tools lets a request failure out: whatever the
    arguments and whatever the exchange does, an exception that leaves a tool
    is never a [RequestException].  A connection failure, an HTTP error status
    or a body that is not JSON can therefore never reach [safe_call] as an
    error. *)
Theorem tools_never_raise_request_failures {rt : Runtime} {W : Type}
    (send : Request -> W -> http_result * W) (openai_api_key : pyval) :
  let tools := repo_tools send openai_api_key in
  never_raises_request (create_chat_completion tools)
  /\ never_raises_request (get_current_user_profile tools)
  /\ never_raises_request (create_playlist tools)
  /\ never_raises_request (search_for_item tools)
  /\ never_raises_request (add_items_to_playlist tools).
Proof.
  cbn zeta. unfold never_raises_request.
  cbn [repo_tools create_chat_completion get_current_user_profile
       create_playlist search_for_item add_items_to_playlist].
  repeat split; intros args w e w';
    [unfold repo_create_chat_completion
    |unfold repo_get_current_user_profile
    |unfold repo_create_playlist
    |unfold repo_search_for_item
    |unfold repo_add_items_to_playlist];
    tool_cases args;
    first [apply fetch_never_raises_request
          |apply raise_arity_never_raises_request].
Qed.

(* ===================================================================== *)
(** ** Further properties: the order of the stages *)
(* ===================================================================== *)

Lemma triple_conseq {W A} (P P' : State W -> Prop) (m : M W A)
    (Q Q' : A -> State W -> Prop) (E E' : State W -> Prop) :
  triple P' m Q' E' ->
  (forall st, P st -> P' st) ->
  (forall a st, Q' a st -> Q a st) ->
  (forall st, E' st -> E st) ->
  triple P m Q E.
Proof.
  intros Hm HP HQ HE st Hst. specialize (Hm st (HP st Hst)).
  destruct (m st) as [[a| |e] st']; auto.
Qed.

Lemma sorted_snoc {A} (R : A -> A -> Prop) (l : list A) (a : A) :
  StronglySorted R l -> Forall (fun x => R x a) l ->
  StronglySorted R (l ++ [a]).
Proof.
  induction 1 as [|x l Hl IH Hx]; intros Ha; cbn.
  - constructor; constructor.
  - inversion Ha as [|? ? Hxa Hla]; subst. constructor; [apply IH, Hla|].
    apply Forall_app. split; [exact Hx|]. constructor; [exact Hxa|constructor].
Qed.

Section StageOrder.
Context {rt : Runtime} {W : Type}.
Variable tools : Tools W.
Variable base : list Call.

Local Abbreviation upto := (staged (W := W) base).

Lemma staged_later k k' st : k <= k' -> upto k st -> upto k' st.
Proof.
  intros Hle (new & Hcalls & Horder & Hk). exists new.
  split; [exact Hcalls|]. split; [exact Horder|].
  eapply Forall_impl; [|exact Hk]. cbn. intros c Hc. lia.
Qed.

(** A call of stage [r] may be made when nothing of a later stage has been
    called, nor, unless [r] is a loop, anything of stage [r] itself. *)
Lemma staged_safe_call {B} k r name f args (k' : pydict -> M W B) Q E :
  stage_rank name = r -> 1 <= r ->
  k < r \/ (k <= r /\ 4 <= r) ->
  (forall call, triple (upto r) (k' call) Q E) ->
  triple (upto k) (bind (safe_call name f args) k') Q E.
Proof.
  intros Hr Hpos Hk Hrest st (new & Hcalls & [Hsorted Hranks] & Hupto).
  unfold bind, safe_call. destruct (f args (world st)) as [o w].
  set (c := {| call_label := name; call_args := args; call_outcome := o |}).
  assert (Hst : upto r {| playlist_info := playlist_info st;
                          errors := errors st; world := w;
                          calls := (calls st ++ [c])%list |}).
  { exists (new ++ [c])%list. cbn [calls].
    split; [rewrite Hcalls, app_assoc; reflexivity|].
    assert (Hc : rank c = r) by exact Hr.
    split; [split|].
    - apply sorted_snoc; [exact Hsorted|].
      eapply Forall_impl; [|exact Hupto]. cbn. intros x Hx.
      unfold may_follow. rewrite Hc. lia.
    - apply Forall_app. split; [exact Hranks|].
      constructor; [lia|constructor].
    - apply Forall_app. split.
      + eapply Forall_impl; [|exact Hupto]. cbn. intros x Hx. lia.
      + constructor; [lia|constructor]. }
  destruct o as [v|e]; apply (Hrest _ _ Hst).
Qed.

Lemma staged_append_error k e : keeps (upto k) (append_error e).
Proof. intros st H. exact H. Qed.

Lemma staged_set_playlist_info k d : keeps (upto k) (set_playlist_info d).
Proof. intros st H. exact H. Qed.

Lemma staged_stop_on_error k call : keeps (upto k) (stop_on_error call).
Proof.
  unfold stop_on_error, call_item. apply keeps_if; [|apply keeps_ret].
  apply keeps_bind; [apply keeps_lift|]. intros err.
  apply keeps_bind; [apply staged_append_error|]. intros _. apply keeps_stop.
Qed.

Lemma staged_read_completion k call description :
  keeps (upto k) (read_completion call description).
Proof.
  unfold read_completion, call_item.
  apply keeps_bind; [apply keeps_lift|]. intros result.
  apply keeps_bind; [apply keeps_lift|]. intros content.
  apply keeps_bind; [apply keeps_lift|]. intros [parsed|msg].
  - apply keeps_bind; [apply keeps_lift|]. intros playlist_title.
    apply keeps_bind; [apply keeps_lift|]. intros songs_data.
    apply keeps_bind; [apply keeps_lift|]. intros song_objects.
    apply keeps_ret.
  - apply keeps_ret.
Qed.

Lemma staged_tool2 :
  triple (upto 1) (tool2_get_user_id tools) (fun _ => upto 2) (upto 2).
Proof.
  unfold tool2_get_user_id.
  apply staged_safe_call with (r := 2); [reflexivity|lia|lia|]. intros call.
  apply keeps_bind; [apply staged_stop_on_error|]. intros _.
  apply keeps_bind; [apply keeps_lift|]. intros user_profile.
  apply keeps_bind; [apply keeps_lift|]. intros user_id.
  apply keeps_if; [apply keeps_stop | apply keeps_ret].
Qed.

Lemma staged_tool3 user_id playlist_title :
  triple (upto 2) (tool3_create_playlist tools user_id playlist_title)
         (fun _ => upto 3) (upto 3).
Proof.
  unfold tool3_create_playlist.
  apply triple_bind with (Q := fun _ => upto 2).
  { apply triple_conseq with (P' := upto 2) (Q' := fun _ => upto 2)
                             (E' := upto 2);
      [apply keeps_lift | auto | auto |].
    intros st0 H0. eapply staged_later; [|exact H0]. lia. }
  intros head.
  apply staged_safe_call with (r := 3); [reflexivity|lia|lia|]. intros call.
  apply keeps_bind; [apply staged_stop_on_error|]. intros _.
  apply keeps_bind; [apply keeps_lift|]. intros playlist_response.
  apply keeps_bind; [apply keeps_lift|]. intros playlist_id.
  apply keeps_if; [|apply keeps_ret].
  apply keeps_bind; [apply staged_append_error|]. intros _. apply keeps_stop.
Qed.

Lemma staged_search_step track_uris s :
  keeps (upto 4) (search_step tools track_uris s).
Proof.
  unfold search_step.
  apply staged_safe_call with (r := 4); [reflexivity|lia|lia|]. intros call.
  apply keeps_if.
  - apply keeps_bind; [apply keeps_lift|]. intros err.
    apply keeps_bind; [apply keeps_lift|]. intros entry.
    apply keeps_bind; [apply staged_append_error|]. intros _. apply keeps_ret.
  - apply keeps_bind; [apply keeps_lift|]. intros track_data.
    apply keeps_bind; [apply keeps_lift|]. intros uri.
    apply keeps_if; [apply keeps_ret|].
    apply keeps_bind; [apply staged_append_error|]. intros _. apply keeps_ret.
Qed.

Lemma staged_add_chunk playlist_id u chunk :
  keeps (upto 5) (add_chunk tools playlist_id u chunk).
Proof.
  unfold add_chunk.
  apply staged_safe_call with (r := 5); [reflexivity|lia|lia|]. intros call.
  apply keeps_if; [|apply keeps_ret].
  apply keeps_bind; [apply keeps_lift|]. intros err.
  apply staged_append_error.
Qed.

Lemma staged_tool5 playlist_id track_uris :
  keeps (upto 5) (tool5_add_tracks tools playlist_id track_uris).
Proof.
  unfold tool5_add_tracks. apply keeps_if; [|apply keeps_ret].
  apply keeps_try_except.
  - apply keeps_bind; [apply keeps_lift|]. intros chunks.
    apply keeps_for_fold. intros acc x. apply staged_add_chunk.
  - intros e. apply staged_append_error.
Qed.

Ltac by_later :=
  first [ solve [auto]
        | intros; eapply staged_later; [|eassumption]; lia ].

Lemma staged_generate_playlist playlist_description limit :
  triple (fun st => calls st = base)
         (generate_playlist tools playlist_description limit)
         (fun _ => upto 5) (upto 5).
Proof.
  unfold generate_playlist.
  apply triple_bind with (Q := fun _ => upto 0).
  { intros st Hst. cbn. exists []. rewrite app_nil_r.
    split; [exact Hst|]. repeat split; constructor. }
  intros _. destruct (negb (truthy (PStr playlist_description))
                      || negb (truthy (PInt limit))).
  { apply triple_ret. by_later. }
  apply staged_safe_call with (r := 1); [reflexivity|lia|lia|]. intros call.
  destruct (dict_mem "error" call).
  { apply triple_conseq with (P' := upto 1) (Q' := fun _ => upto 1)
                             (E' := upto 1);
      [|by_later|by_later|by_later].
    apply keeps_bind; [apply keeps_lift|]. intros err.
    apply keeps_bind; [apply staged_append_error|]. intros _. apply keeps_ret. }
  apply triple_bind with (Q := fun _ => upto 1).
  { apply triple_conseq with (P' := upto 1) (Q' := fun _ => upto 1)
                             (E' := upto 1);
      [|by_later|by_later|by_later].
    apply staged_read_completion. }
  intros [playlist_title song_objects].
  apply triple_bind with (Q := fun _ => upto 2).
  { apply triple_conseq with (P' := upto 1) (Q' := fun _ => upto 2)
                             (E' := upto 2);
      [|by_later|by_later|by_later].
    apply staged_tool2. }
  intros user_id.
  apply triple_bind with (Q := fun _ => upto 3).
  { apply triple_conseq with (P' := upto 2) (Q' := fun _ => upto 3)
                             (E' := upto 3);
      [|by_later|by_later|by_later].
    apply staged_tool3. }
  intros [playlist_id playlist_name].
  apply triple_bind with (Q := fun _ => upto 4).
  { apply triple_conseq with (P' := upto 4) (Q' := fun _ => upto 4)
                             (E' := upto 4);
      [|by_later|by_later|by_later].
    apply keeps_for_fold. intros acc x. apply staged_search_step. }
  intros track_uris.
  apply triple_conseq with (P' := upto 5) (Q' := fun _ => upto 5)
                           (E' := upto 5);
    [|by_later|by_later|by_later].
  apply keeps_bind; [apply staged_tool5|]. intros _.
  apply keeps_bind; [apply staged_set_playlist_info|]. intros _.
  apply keeps_ret.
Qed.

End StageOrder.

(** In stage order a stage that is not a loop has at most one call. *)
Lemma stage_order_once (cs : list Call) (r : nat) :
  StronglySorted may_follow cs -> r < 4 ->
  List.length (filter (fun c => rank c =? r)%nat cs) <= 1.
Proof.
  intros Hsorted Hr. induction Hsorted as [|x l Hl IH Hx]; cbn [filter].
  - cbn. lia.
  - destruct (Nat.eqb_spec (rank x) r) as [Heq|_]; [|exact IH].
    cbn [List.length].
    assert (Hnone : filter (fun c => rank c =? r)%nat l = []).
    { clear IH Hl. induction Hx as [|y l Hy Hx IHx]; [reflexivity|].
      cbn [filter]. destruct (Nat.eqb_spec (rank y) r) as [Hyr|_]; [|exact IHx].
      unfold may_follow in Hy. lia. }
    rewrite Hnone. cbn. lia.
Qed.

(** X21. The calls of a run come in the order of the stages, however the run
    ends: at most one language-model call, then at most one profile call,
    then at most one playlist creation, then the searches, then the
    additions, and no call outside these five.  In particular no run creates
    two playlists, and no track is added before every search is done. *)
Theorem calls_follow_the_stages {rt : Runtime} {W : Type}
    (tools : Tools W) (playlist_description : string) (limit : Z)
    (st : State W) :
  exists new,
    calls (snd (generate_playlist tools playlist_description limit st))
    = (calls st ++ new)%list
    /\ in_stage_order new
    /\ List.length (filter (fun c => rank c =? 1)%nat new) <= 1
    /\ List.length (filter (fun c => rank c =? 2)%nat new) <= 1
    /\ List.length (filter (fun c => rank c =? 3)%nat new) <= 1.
Proof.
  pose proof (staged_generate_playlist
                tools (calls st) playlist_description limit st eq_refl) as H.
  assert (Hnew : exists new,
             calls (snd (generate_playlist tools playlist_description limit st))
             = (calls st ++ new)%list /\ in_stage_order new).
  { destruct (generate_playlist tools playlist_description limit st)
      as [[r| |e] st']; cbn [snd];
      destruct H as (new & Hcalls & Horder & _); exists new; auto. }
  destruct Hnew as (new & Hcalls & Horder). exists new.
  split; [exact Hcalls|]. split; [exact Horder|].
  destruct Horder as [Hsorted _].
  repeat split; apply stage_order_once; (exact Hsorted || lia).
Qed.

(* ===================================================================== *)
(** ** Further properties: the summary and the page *)
(* ===================================================================== *)

Section Summary.
Context {rt : Runtime} {W : Type}.
Variable tools : Tools W.
Variable info : pydict.

Local Abbreviation unchanged := (same_info (W := W) info).

(** Stage 3 only falls through with an identifier that is not empty. *)
Lemma tool3_result user_id playlist_title :
  triple unchanged (tool3_create_playlist tools user_id playlist_title)
         (fun r st => unchanged st /\ truthy (fst r) = true) unchanged.
Proof.
  unfold tool3_create_playlist, call_item.
  eapply triple_bind; [apply keeps_lift|]. intros head.
  eapply triple_bind; [apply (same_info_safe_call info)|]. intros call.
  eapply triple_bind; [apply (same_info_stop_on_error info)|]. intros ?.
  eapply triple_bind; [apply keeps_lift|]. intros playlist_response.
  eapply triple_bind; [apply keeps_lift|]. intros playlist_id.
  destruct (truthy playlist_id) eqn:Hid; cbn [negb].
  - apply triple_ret. intros st Hst. split; [exact Hst|exact Hid].
  - eapply triple_bind; [apply (same_info_append_error info)|].
    intros ? st Hst. exact Hst.
Qed.

(** Stage 4 resolves at most one identifier per Song, none of them empty. *)
Lemma tool4_result song_objects :
  triple unchanged (tool4_search_songs tools song_objects)
         (fun track_uris st =>
            unchanged st
            /\ List.length track_uris <= List.length song_objects
            /\ Forall (fun uri => truthy uri = true) track_uris)
         unchanged.
Proof.
  intros st Hst.
  assert (Hkeeps : keeps unchanged (tool4_search_songs tools song_objects)).
  { apply keeps_for_fold. intros acc x. apply (same_info_search_step tools info). }
  specialize (Hkeeps st Hst).
  destruct (tool4_search_songs tools song_objects st) as [[uris| |e] st'] eqn:Hrun;
    try exact Hkeeps.
  split; [exact Hkeeps|].
  destruct (search_loop_done tools _ _ _ _ _ Hrun)
    as (more & Huris & ncalls & nerrs & _ & _ & _ & _ & Hlen & Hall & _).
  cbn in Huris. subst more. split; [lia|exact Hall].
Qed.

Lemma run_summary_cases playlist_description limit :
  triple unchanged
         (generate_playlist tools playlist_description limit)
         (fun r st =>
            unchanged st
            \/ exists song_objects,
                 r = Some song_objects
                 /\ written_summary playlist_description (playlist_info st)
                                    song_objects)
         unchanged.
Proof.
  unfold generate_playlist.
  eapply triple_bind; [apply (same_info_set_errors info)|]. intros ?.
  destruct (negb (truthy (PStr playlist_description))
            || negb (truthy (PInt limit))).
  { apply triple_ret. intros s Hs. left. exact Hs. }
  eapply triple_bind; [apply (same_info_safe_call info)|]. intros call.
  destruct (dict_mem "error" call).
  { eapply triple_bind; [apply keeps_lift|]. intros err.
    eapply triple_bind; [apply (same_info_append_error info)|]. intros ?.
    apply triple_ret. intros s Hs. left. exact Hs. }
  eapply triple_bind; [apply (same_info_read_completion info)|].
  intros [playlist_title song_objects].
  eapply triple_bind; [apply (same_info_tool2 tools info)|]. intros user_id.
  eapply triple_bind; [apply tool3_result|].
  intros [playlist_id playlist_name].
  apply triple_bind
    with (Q := fun track_uris st =>
                 truthy playlist_id = true
                 /\ unchanged st
                 /\ List.length track_uris <= List.length song_objects
                 /\ Forall (fun uri => truthy uri = true) track_uris).
  { intros st [Hst Hid]. pose proof (tool4_result song_objects st Hst) as H.
    destruct (tool4_search_songs tools song_objects st) as [[uris| |e] st'];
      [|exact H|exact H].
    split; [exact Hid|exact H]. }
  intros track_uris.
  apply triple_bind
    with (Q := fun _ st =>
                 truthy playlist_id = true
                 /\ List.length track_uris <= List.length song_objects
                 /\ Forall (fun uri => truthy uri = true) track_uris).
  { intros st (Hid & Hst & Hlen & Hall).
    pose proof (same_info_tool5 tools info playlist_id track_uris st Hst) as H.
    destruct (tool5_add_tracks tools playlist_id track_uris st)
      as [[u| |e] st']; [|exact H|exact H].
    auto. }
  intros ? st (Hid & Hlen & Hall). cbn. right.
  exists song_objects. split; [reflexivity|].
  exists playlist_name, track_uris, playlist_id. auto.
Qed.

End Summary.

(** X22. Whenever a run changes the summary, it ran to the end and wrote a
    summary of its own description and its own Songs, with a playlist
    identifier that is not empty and a resolved count that does not exceed
    the number of Songs listed; the outcome of the add-tracks calls has no
    part in it.  Every other run leaves the summary as it found it. *)
Theorem summary_is_kept_or_consistent {rt : Runtime} {W : Type}
    (tools : Tools W) (playlist_description : string) (limit : Z)
    (st : State W) :
  let run := generate_playlist tools playlist_description limit st in
  playlist_info (snd run) = playlist_info st
  \/ exists song_objects,
       fst run = Done (Some song_objects)
       /\ written_summary playlist_description (playlist_info (snd run))
                          song_objects.
Proof.
  cbn zeta.
  pose proof (run_summary_cases tools (playlist_info st)
                playlist_description limit st eq_refl) as H.
  destruct (generate_playlist tools playlist_description limit st)
    as [[r| |e] st']; cbn [fst snd]; [|left; exact H|left; exact H].
  destruct H as [H|(songs & -> & Hw)]; [left; exact H|].
  right. exists songs. split; [reflexivity|exact Hw].
Qed.

Section Page.
Context {rt : Runtime}.

Lemma song_lines_of_summary (song_objects : list Song) :
  song_lines (map (fun s => PDict [("title", title s); ("artist", artist s)])
                  song_objects)
  = Return (map line_of song_objects).
Proof.
  induction song_objects as [|s songs IH]; [reflexivity|].
  cbn [map song_lines]. rewrite IH. reflexivity.
Qed.

Lemma show_written_summary name description songs uris pid :
  show_playlist (summary name description songs uris pid)
  = Return (summary_header name description (List.length uris)
            ++ map line_of songs)%list.
Proof.
  unfold show_playlist, summary.
  cbn [truthy dict_get_default dict_get assoc String.eqb Ascii.eqb Bool.eqb
       py_iter obind].
  change (dict_get_default "songs" (PList []) _)
    with (PList (map (fun s => PDict [("title", title s); ("artist", artist s)])
                     songs)).
  cbn [py_iter obind]. rewrite song_lines_of_summary. reflexivity.
Qed.

End Page.

(** X23. The closing lines show what the run wrote: for a summary written by
    a run they never raise, whatever the titles and artists hold, and the
    page is the four header lines of that summary, one line [- title —
    artist] per Song in order, and then, when the error list is not empty,
    the error header and every entry of the list in order. *)
Theorem display_shows_summary_and_errors {rt : Runtime} {W : Type}
    (playlist_name playlist_description : string) (song_objects : list Song)
    (track_uris : list pyval) (playlist_id : pyval) (errs : list pyval)
    (w : W) (cs : list Call) :
  display {| playlist_info := summary playlist_name playlist_description
                                      song_objects track_uris playlist_id;
             errors := errs; world := w; calls := cs |}
  = Return (summary_header playlist_name playlist_description
                           (List.length track_uris)
            ++ map line_of song_objects
            ++ match errs with
               | [] => []
               | _ => Subheader "Errors / Warnings" :: map Json errs
               end)%list.
Proof.
  unfold display. cbn [playlist_info errors].
  rewrite show_written_summary. cbn [obind]. rewrite <- app_assoc.
  destruct errs; reflexivity.
Qed.

Lemma summary_cases_for_display {rt : Runtime} {W : Type}
    (tools : Tools W) (playlist_description : string) (limit : Z)
    (st : State W) :
  let st' := snd (generate_playlist tools playlist_description limit st) in
  playlist_info st' = playlist_info st
  \/ exists song_objects,
       written_summary playlist_description (playlist_info st') song_objects.
Proof.
  cbn zeta.
  pose proof (run_summary_cases tools (playlist_info st)
                playlist_description limit st eq_refl) as H.
  destruct (generate_playlist tools playlist_description limit st)
    as [[r| |e] st']; cbn [snd]; [|left; exact H|left; exact H].
  destruct H as [H|(songs & _ & Hw)]; [left; exact H|].
  right. exists songs. exact Hw.
Qed.

Lemma script_state {rt : Runtime} {W : Type} (tools : Tools W)
    (playlist_description : string) (limit : Z) (st : State W) :
  snd (script tools (Some (playlist_description, limit)) st)
  = snd (generate_playlist tools playlist_description limit st).
Proof.
  unfold script, bind.
  destruct (generate_playlist tools playlist_description limit st)
    as [[r| |e] st']; cbn; try reflexivity.
  destruct (display st'); reflexivity.
Qed.

(** X24. Sessions stay displayable, and the errors of a run are shown by the
    next rerun: starting from a session with no summary or with a summary a
    run wrote, a click, however its run ends (to the end, stopped or
    crashed), leaves such a session again, and a rerun without a click then
    shows a page that ends with the whole error list of that run. *)
Theorem rerun_shows_the_errors_of_the_run {rt : Runtime} {W : Type}
    (tools : Tools W) (playlist_description : string) (limit : Z)
    (st : State W) :
  displayable st ->
  let st' := snd (script tools (Some (playlist_description, limit)) st) in
  displayable st'
  /\ exists shown,
       script tools None st'
       = (Done (shown ++ show_errors (errors st'))%list, st').
Proof.
  intros Hst. cbn zeta. rewrite script_state.
  pose proof (summary_cases_for_display tools playlist_description limit st)
    as Hcases.
  set (st' := snd (generate_playlist tools playlist_description limit st)) in *.
  assert (Hdisp : displayable st').
  { destruct Hcases as [Hsame|(songs & Hw)].
    - unfold displayable in *. rewrite Hsame. exact Hst.
    - right. exists playlist_description, songs. exact Hw. }
  split; [exact Hdisp|].
  unfold script, bind, ret, display.
  destruct Hdisp as [Hnil|(d & songs & name & uris & pid & Hinfo & _)].
  - rewrite Hnil. exists []. reflexivity.
  - rewrite Hinfo, show_written_summary. eexists. reflexivity.
Qed.

(** A first click whose profile call raises: the script stops, and the next
    rerun lists the entry. *)
Lemma rerun_shows_the_errors_witness :
  let st' := snd (script (rt := Examples.runtime) Examples.scripted_tools
                         (Some ("songs about rain", 3%Z))
                         (Examples.fresh
                            [Return (Examples.completion
                                       (PStr Examples.rainy_mood));
                             Raise (Exn OtherException "boom")])) in
  displayable st'
  /\ exists shown,
       script (rt := Examples.runtime) Examples.scripted_tools None st'
       = (Done (shown ++ show_errors (errors st'))%list, st').
Proof.
  apply (rerun_shows_the_errors_of_the_run
           (rt := Examples.runtime) Examples.scripted_tools
           "songs about rain" 3).
  left. reflexivity.
Defined.

(* ===================================================================== *)
(** ** Further properties: the entries of stage 4 *)
(* ===================================================================== *)

Section ResolverEntries.
Context {rt : Runtime} {W : Type}.
Variable tools : Tools W.

(** One turn appends nothing, or one entry that carries the Song. *)
Lemma search_step_entry track_uris s st :
  let st1 := snd (search_step tools track_uris s st) in
  errors st1 = errors st
  \/ exists d, errors st1 = (errors st ++ [PDict d])%list
               /\ assoc "song" d = Some (PStr (Song_str s)).
Proof.
  cbn zeta. unfold search_step, bind, safe_call.
  destruct (search_for_item tools _ (world st)) as [[v|e] w]; cbn.
  - destruct (extract_first_track_uri v) as [uri|e]; cbn; [|left; reflexivity].
    destruct (truthy uri); cbn; [left; reflexivity|].
    right. eexists. split; reflexivity.
  - right. eexists. split; reflexivity.
Qed.

Lemma search_loop_entries song_objects :
  forall track_uris st,
    exists new_errors,
      errors (snd (for_fold (search_step tools) song_objects track_uris st))
      = (errors st ++ new_errors)%list
      /\ Forall (names_song song_objects) new_errors.
Proof.
  induction song_objects as [|s songs IH]; intros track_uris st;
    cbn [for_fold].
  - exists []. cbn. rewrite app_nil_r. split; [reflexivity|constructor].
  - unfold bind at 1.
    pose proof (search_step_entry track_uris s st) as Hstep. cbn zeta in Hstep.
    destruct (search_step tools track_uris s st) as [[acc| |e] st1];
      cbn [snd] in *.
    + destruct (IH acc st1) as (more & Hmore & Hall).
      assert (Hweak : Forall (names_song (s :: songs)) more).
      { eapply Forall_impl; [|exact Hall].
        intros entry (d & s0 & -> & Hin & Hsong).
        exists d, s0. split; [reflexivity|]. split; [right; exact Hin|exact Hsong]. }
      destruct Hstep as [Hsame|(d & Hadd & Hsong)].
      * exists more. rewrite Hmore, Hsame. split; [reflexivity|exact Hweak].
      * exists (PDict d :: more). rewrite Hmore, Hadd, <- app_assoc.
        split; [reflexivity|]. constructor; [|exact Hweak].
        exists d, s. split; [reflexivity|]. split; [left; reflexivity|exact Hsong].
    + destruct Hstep as [Hsame|(d & Hadd & Hsong)].
      * exists []. rewrite app_nil_r. split; [exact Hsame|constructor].
      * exists [PDict d]. split; [exact Hadd|]. constructor; [|constructor].
        exists d, s. split; [reflexivity|]. split; [left; reflexivity|exact Hsong].
    + destruct Hstep as [Hsame|(d & Hadd & Hsong)].
      * exists []. rewrite app_nil_r. split; [exact Hsame|constructor].
      * exists [PDict d]. split; [exact Hadd|]. constructor; [|constructor].
        exists d, s. split; [reflexivity|]. split; [left; reflexivity|exact Hsong].
Qed.

End ResolverEntries.

(** X25. Every entry stage 4 appends says which Song it is about: however
    the loop ends, each new entry of the error list carries under [song] the
    text [title — artist] of one of the Songs searched, whether the search
    raised or found nothing. *)
Theorem search_entries_name_their_song {rt : Runtime} {W : Type}
    (tools : Tools W) (song_objects : list Song) (st : State W) :
  exists new_errors,
    errors (snd (tool4_search_songs tools song_objects st))
    = (errors st ++ new_errors)%list
    /\ Forall (names_song song_objects) new_errors.
Proof. apply search_loop_entries. Qed.

(** A language-model call that raises, on a first click. *)
Lemma openai_exception_witness :
  generate_playlist (rt := Examples.runtime) Examples.scripted_tools
                    "songs about rain" 3
                    (Examples.fresh [Raise (Exn OtherException "boom")])
  = (Done (Some []),
     {| playlist_info := [];
        errors := [PDict (error_entry (rt := Examples.runtime) openai_label
                                      (Exn OtherException "boom"))];
        world := [];
        calls := [{| call_label := openai_label;
                     call_args := [messages "songs about rain" 3];
                     call_outcome := Raise (Exn OtherException "boom") |}] |}).
Proof.
  apply (openai_exception_is_recorded
           (rt := Examples.runtime) Examples.scripted_tools
           "songs about rain" 3
           (Examples.fresh [Raise (Exn OtherException "boom")])
           (Exn OtherException "boom") []);
    reflexivity.
Defined.

(** A playlist response with an error text and no identifier. *)
Lemma missing_playlist_id_witness :
  tool3_create_playlist (rt := Examples.runtime) Examples.scripted_tools
    (PStr "u1") (PStr "Rainy Mood")
    (Examples.fresh [Return (PDict [("error", PStr "no")])])
  = (Stopped,
     {| playlist_info := [];
        errors := [no_playlist_id_entry];
        world := [];
        calls := [{| call_label := create_label;
                     call_args := [PStr "u1"; PStr "AI: Rainy Mood"];
                     call_outcome := Return (PDict [("error", PStr "no")]) |}]
     |}).
Proof.
  apply (missing_playlist_id_is_recorded
           (rt := Examples.runtime) Examples.scripted_tools
           (Examples.fresh [Return (PDict [("error", PStr "no")])])
           (PStr "u1") "Rainy Mood" [("error", PStr "no")] []);
    reflexivity.
Defined.

(* ===================================================================== *)
(** ** Runs of the script with the tools of tools/ *)
(* ===================================================================== *)

Section RunsAsCalled.
Context {rt : Runtime} {W : Type}.
Variable send : Request -> W -> http_result * W.
Variable openai_api_key : pyval.

Local Abbreviation tools := (repo_tools send openai_api_key).

(** Stage 2 never falls through. *)
Lemma profile_stage_never_returns (P E : State W -> Prop)
    (Q : pyval -> State W -> Prop) :
  triple P (tool2_get_user_id tools) (fun _ => E) E ->
  triple P (tool2_get_user_id tools) Q E.
Proof.
  intros H st Hst. specialize (H st Hst).
  rewrite profile_stage_always_stops in *. exact H.
Qed.

Lemma run_keeps_the_summary playlist_description limit (st : State W) :
  playlist_info (snd (generate_playlist tools playlist_description limit st))
  = playlist_info st.
Proof.
  set (info := playlist_info st).
  assert (H : keeps (fun s => playlist_info s = info)
                    (generate_playlist tools playlist_description limit)).
  { unfold generate_playlist.
    apply keeps_bind; [apply (same_info_set_errors info)|]. intros _.
    apply keeps_if; [apply keeps_ret|].
    apply keeps_bind; [apply (same_info_safe_call info)|]. intros call.
    apply keeps_if.
    { apply keeps_bind; [apply keeps_lift|]. intros err.
      apply keeps_bind; [apply (same_info_append_error info)|]. intros _.
      apply keeps_ret. }
    apply keeps_bind; [apply (same_info_read_completion info)|].
    intros [playlist_title song_objects].
    apply triple_bind with (Q := fun _ _ => False); [|intros a s []].
    apply profile_stage_never_returns, (same_info_tool2 tools info). }
  specialize (H st eq_refl).
  destruct (generate_playlist tools playlist_description limit st)
    as [[r| |e] st']; exact H.
Qed.

(** The calls of a run end with the profile call at the latest. *)
Lemma run_ends_at_the_profile playlist_description limit (st : State W) :
  staged (calls st) 2
         (snd (generate_playlist tools playlist_description limit st)).
Proof.
  set (base := calls st).
  assert (Hlater : forall k (s : State W),
             k <= 2 -> staged base k s -> staged base 2 s).
  { intros k s Hk Hs. eapply staged_later; [exact Hk|exact Hs]. }
  assert (H : triple (fun s => calls s = base)
                     (generate_playlist tools playlist_description limit)
                     (fun _ => staged base 2) (staged base 2)).
  { unfold generate_playlist.
    apply triple_bind with (Q := fun _ => staged base 0).
    { intros s Hs. cbn. exists []. rewrite app_nil_r.
      split; [exact Hs|]. repeat split; constructor. }
    intros _. destruct (negb (truthy (PStr playlist_description))
                        || negb (truthy (PInt limit))).
    { apply triple_ret. intros s Hs. apply (Hlater 0); [lia|exact Hs]. }
    apply staged_safe_call with (r := 1); [reflexivity|lia|lia|]. intros call.
    destruct (dict_mem "error" call).
    { apply triple_conseq with (P' := staged base 1)
                               (Q' := fun _ => staged base 1)
                               (E' := staged base 1);
        [|auto|intros a s Hs; apply (Hlater 1); [lia|exact Hs]
          |intros s Hs; apply (Hlater 1); [lia|exact Hs]].
      apply keeps_bind; [apply keeps_lift|]. intros err.
      apply keeps_bind; [apply staged_append_error|]. intros _.
      apply keeps_ret. }
    apply triple_bind with (Q := fun _ => staged base 1).
    { apply triple_conseq with (P' := staged base 1)
                               (Q' := fun _ => staged base 1)
                               (E' := staged base 1);
        [apply staged_read_completion|auto|auto
         |intros s Hs; apply (Hlater 1); [lia|exact Hs]]. }
    intros [playlist_title song_objects].
    apply triple_bind with (Q := fun _ _ => False); [|intros a s []].
    apply profile_stage_never_returns.
    apply triple_conseq with (P' := staged base 1)
                             (Q' := fun _ => staged base 2)
                             (E' := staged base 2);
      [apply staged_tool2|auto|auto|auto]. }
  specialize (H st eq_refl).
  destruct (generate_playlist tools playlist_description limit st)
    as [[r| |e] st']; exact H.
Qed.

(** No run makes a search. *)
Lemma run_makes_no_search playlist_description limit (st : State W) :
  exists new,
    calls (snd (generate_playlist tools playlist_description limit st))
    = (calls st ++ new)%list
    /\ searches new = [].
Proof.
  destruct (run_ends_at_the_profile playlist_description limit st)
    as (new & Hcalls & _ & Hranks).
  exists new. split; [exact Hcalls|].
  unfold searches. clear Hcalls.
  induction Hranks as [|c cs Hc _ IH]; [reflexivity|].
  cbn [filter]. rewrite IH.
  destruct (String.eqb_spec (call_label c) search_label) as [Heq|_];
    [|reflexivity].
  unfold rank in Hc. rewrite Heq in Hc. cbv in Hc. lia.
Qed.

Lemma script_keeps_the_summary click (st : State W) :
  playlist_info (snd (script tools click st)) = playlist_info st.
Proof.
  destruct click as [[playlist_description limit]|].
  - rewrite script_state. apply run_keeps_the_summary.
  - unfold script, bind, ret, lift. destruct (display st); reflexivity.
Qed.

(** No session ever holds a summary. *)
Lemma session_holds_no_summary history :
  forall st : State W,
    playlist_info st = [] -> playlist_info (session_after tools history st) = [].
Proof.
  induction history as [|[click w] history IH]; intros st Hst; [exact Hst|].
  cbn [session_after]. apply IH. rewrite script_keeps_the_summary. exact Hst.
Qed.

End RunsAsCalled.



(** That run: the language model is asked, the three songs are read, the
    profile call raises, and the script stops. *)
Lemma three_songs_returned_none_searched :
  let run := generate_playlist (rt := Examples.runtime) Examples.wired_tools
               "songs about rain" 2
               (first_load
                  [HttpJson (Examples.completion (PStr Examples.rainy_mood))]) in
  fst run = Stopped
  /\ map call_label (calls (snd run)) = [openai_label; profile_label]
  /\ errors (snd run)
     = [PDict (error_entry (rt := Examples.runtime) profile_label
                           (missing_token "get_current_user_profile"))]
  /\ playlist_info (snd run) = [].
Proof. vm_compute. repeat split; reflexivity. Qed.


(** A first click whose language-model exchange answers, then a second
    click: the session the second run starts from holds the entry of the
    first, and the second run ends with its own entries only. *)
Lemma second_run_sees_nothing_of_the_first :
  let tools := Examples.wired_tools in
  let answer := [HttpJson (Examples.completion (PStr Examples.rainy_mood))] in
  let st := session_after (rt := Examples.runtime) tools
              [(Some ("songs about rain", 3%Z), answer)] (first_load []) in
  let second := generate_playlist (rt := Examples.runtime) tools
                  "songs about snow" 5 (at_world st []) in
  List.length (errors st) = 1
  /\ playlist_info st = []
  /\ fst second = Crashed (Exn KeyError "'choices'")
  /\ errors (snd second) = []
  /\ playlist_info (snd second) = [].
Proof. vm_compute. repeat split; reflexivity. Qed.
